(** * Chunking, ephemeral retrieval and citation binding of the RAG backend

    A shallow embedding of
    - [backend/src/services/chunking.py]      (section parser and chunker),
    - [backend/src/services/selected_text.py] (ephemeral vector store),
    - [backend/src/services/agent.py]         (citation extraction),
    - [backend/src/models/schemas.py]         (the [Citation] validators),
    - [backend/src/utils/validators.py]       (request validation),
    - [backend/src/services/vector_store.py]  ([upsert_chunks]),
    - [backend/scripts/ingest_textbook.py]    ([process_chapter]),
    followed by the properties of the specification that concern them and
    by further properties of the code.

    Python [str] values are modelled as [string]: sequences of characters
    with code points 0..255.  Python [int] is [Z] where a value may be
    negative and [nat] for counters and indices that only count up from 0.
    The external collaborators (tokenizer, spaCy, embedder, language model,
    uuid source) are interfaces, given as type classes. *)

From Stdlib Require Import Ascii.
From Stdlib Require String.
From stdpp Require Import prelude strings pretty gmap sorting.

(** ** Python string primitives *)

Module Py.

Definition code (c : ascii) : N := N_of_ascii c.

(** [str.isspace] on one character, which is also the class [\s] of [re]
    on [str] patterns: TAB..CR, FS..US, space, NEL and NBSP. *)
Definition is_space (c : ascii) : bool :=
  let n := code c in
  ((9 <=? n) && (n <=? 13) || (28 <=? n) && (n <=? 32)
   || (n =? 133) || (n =? 160))%N.

(** The class [\d]. *)
Definition is_digit (c : ascii) : bool :=
  let n := code c in ((48 <=? n) && (n <=? 57))%N.

Definition digit_val (c : ascii) : Z := Z.of_N (code c) - 48.

(** The number that a string of decimal digits spells. *)
Definition int_of_digits (s : string) : Z :=
  fold_left (λ acc c, 10 * acc + digit_val c)%Z (String.list_ascii_of_string s) 0%Z.

(** [sys.get_int_max_str_digits()], CPython's default. *)
Definition int_max_str_digits : nat := 4300.

(** [int(s)] for a string of decimal digits; [None] for the [ValueError]
    that [int] raises when the string has more digits than the limit,
    leading zeros included. *)
Definition int (s : string) : option Z :=
  if String.length s <=? int_max_str_digits then Some (int_of_digits s)
  else None.

(** Case folding of the letters A..Z, as [re.IGNORECASE] compares the
    letters of an ASCII pattern. *)
Definition to_lower (c : ascii) : ascii :=
  let n := code c in
  if ((65 <=? n) && (n <=? 90))%N then ascii_of_N (n + 32) else c.

(** The string ["\n"]. *)
Definition NL : string := String "010" "".

(** [str(n)] for an integer. *)
Definition str (z : Z) : string := pretty z.

(** [sep.join(parts)]. *)
Definition join (sep : string) (parts : list string) : string :=
  String.concat sep parts.

(** Put a character in front of the first piece of a list of pieces. *)
Definition cons_head (c : ascii) (l : list string) : list string :=
  match l with
  | [] => [String c ""]
  | w :: ws => String c w :: ws
  end.

Definition starts_word (s : string) : bool :=
  match s with
  | "" => false
  | String c _ => negb (is_space c)
  end.

(** [s.split()]: the maximal runs of non-whitespace characters. *)
Fixpoint split_ws (s : string) : list string :=
  match s with
  | "" => []
  | String c s' =>
      if is_space c then split_ws s'
      else if starts_word s' then cons_head c (split_ws s')
      else String c "" :: split_ws s'
  end.

(** [s.split(sep)] for a one-character separator. *)
Fixpoint split_on (sep : ascii) (s : string) : list string :=
  match s with
  | "" => [""]
  | String c s' =>
      if decide (c = sep) then "" :: split_on sep s'
      else cons_head c (split_on sep s')
  end.

Fixpoint lstrip (s : string) : string :=
  match s with
  | "" => ""
  | String c s' => if is_space c then lstrip s' else s
  end.

Fixpoint rstrip (s : string) : string :=
  match s with
  | "" => ""
  | String c s' =>
      match rstrip s' with
      | "" => if is_space c then "" else String c ""
      | r => String c r
      end
  end.

(** [s.strip()]. *)
Definition strip (s : string) : string := rstrip (lstrip s).

(** [s[:n]]  for [n >= 0]. *)
Definition prefix_chars (n : nat) (s : string) : string := String.substring 0 n s.

(** [s.startswith(p)]. *)
Definition startswith (p s : string) : bool := String.prefix p s.

(** [l[:k]] for any integer [k]: a negative [k] counts from the end. *)
Definition slice_to {A} (k : Z) (l : list A) : list A :=
  if (0 <=? k)%Z then take (Z.to_nat k) l
  else take (Z.to_nat (Z.of_nat (length l) + k)) l.

(** [f"{i:03d}"] for [i >= 0]. *)
Definition format_03d (i : nat) : string :=
  let s := str (Z.of_nat i) in
  String.string_of_list_ascii (replicate (3 - String.length s) "0"%char) +:+ s.

(** [re.split(r'(?<=[.!?])\s+', text)]: the text is cut at every run of
    whitespace that directly follows one of [.], [!], [?]; the run is
    dropped.  [Text p] scans ordinary text, [p] telling whether the
    previous character was such a mark; [Gap] scans a separator. *)
Definition is_stop (c : ascii) : bool :=
  bool_decide (c = "."%char ∨ c = "!"%char ∨ c = "?"%char).

Inductive scan := Text (after_stop : bool) | Gap.

Fixpoint re_split_go (st : scan) (s : string) : list string :=
  match s with
  | "" => [""]
  | String c s' =>
      let sep := match st with Text p => p && is_space c | Gap => false end in
      let skip := match st with Text _ => false | Gap => is_space c end in
      if sep then "" :: re_split_go Gap s'
      else if skip then re_split_go Gap s'
      else cons_head c (re_split_go (Text (is_stop c)) s')
  end.

Definition re_split_sentences (text : string) : list string :=
  re_split_go (Text false) text.

End Py.

(** ** External collaborators *)

(** [tokenizer.encode(text, add_special_tokens=False)] of the embedding
    model, used through [count_tokens] as a length metric only. *)
Class Tokenizer := count_tokens : string → nat.

(** The module-level [nlp]: [None] when the spaCy model could not be loaded,
    otherwise the map from a text to [[sent.text for sent in nlp(text).sents]]. *)
Class SentenceModel := nlp : option (string → list string).

(** [str(uuid.uuid4())]: the identifier obtained at the n-th draw. *)
Class UuidSource := uuid4 : nat → string.

(** [create_url_anchor]: slug of a title.  No property below depends on
    the slug, so it is kept as an interface. *)
Class AnchorMaker := create_url_anchor : string → string.

(** ** [chunking.py] *)

Module Chunking.

Definition MAX_CHUNK_TOKENS : nat := 512.
Definition MIN_CHUNK_TOKENS : nat := 50.

Record ChunkMetadata := {
  chunk_id : string;
  text : string;
  chapter : Z;
  section : string;
  subsection : option string;
  url_anchor : string;
  token_count : nat;
  chunk_index : nat;
  source_file : string
}.

(** The dataclass [Section] of the source; its fields [chapter] and
    [url_anchor] carry the prefix [sec_], the plain names being those of
    [ChunkMetadata]. *)
Record MdSection := {
  title : string;
  level : nat;
  content : string;
  sec_chapter : Z;
  section_id : string;
  subsection_id : option string;
  sec_url_anchor : string
}.

Definition set_content (s : MdSection) (c : string) : MdSection :=
  {| title := title s; level := level s; content := c;
     sec_chapter := sec_chapter s; section_id := section_id s;
     subsection_id := subsection_id s; sec_url_anchor := sec_url_anchor s |}.

(** *** Section parsing *)

(** Length of the leading run of [#] and what follows it. *)
Fixpoint span_hashes (s : string) : nat * string :=
  match s with
  | String "#" s' => let '(n, r) := span_hashes s' in (S n, r)
  | _ => (0, s)
  end.

Fixpoint last_char (s : string) : string :=
  match s with
  | "" => ""
  | String c "" => String c ""
  | String _ s' => last_char s'
  end.

(** [re.match(r'^(#{1,6})\s+(.+)$', line)] on a line without newline (the
    lines come from [split('\n')]): the groups [(len(group(1)), group(2))].
    The run of hashes must be the whole leading run, of length 1..6, one
    whitespace character must follow it, and one more character must be
    left for [.+]; [\s+] is greedy and gives back its last character only
    when nothing else is left. *)
Definition header_match (line : string) : option (nat * string) :=
  let '(h, rest) := span_hashes line in
  if bool_decide (1 ≤ h ≤ 6) && negb (Py.starts_word rest)
     && bool_decide (2 ≤ String.length rest)
  then Some (h, match Py.lstrip rest with "" => last_char rest | t => t end)
  else None.

Record parse_state := {
  sections : list MdSection;
  current_section : option MdSection;
  current_content : list string;
  section_counters : gmap nat nat
}.

(** "Save previous section if exists", keeping only non-empty sections. *)
Definition save_section (sections : list MdSection)
    (current_section : option MdSection) (current_content : list string)
    : list MdSection :=
  match current_section with
  | Some cur =>
      let c := Py.strip (Py.join Py.NL current_content) in
      if decide (c = "") then sections else sections ++ [set_content cur c]
  | None => sections
  end.

(** [section_counters[level] += 1], then the deeper counters are reset. *)
Definition bump_counters (level : nat) (m : gmap nat nat) : gmap nat nat :=
  foldl (λ m deeper_level, <[deeper_level := 0]> m)
        (<[level := m !!! level + 1]> m)
        (seq (level + 1) (7 - (level + 1))).

Definition counter_str (m : gmap nat nat) (i : nat) : string :=
  Py.str (Z.of_nat (m !!! i)).

Definition new_section `{AnchorMaker} (chapter : Z) (level : nat)
    (title : string) (m : gmap nat nat) : MdSection :=
  let section_id :=
    if decide (level = 1) then Py.str chapter
    else Py.str chapter +:+ "." +:+ counter_str m 2 in
  let subsection_id :=
    if decide (level = 1) then None
    else if decide (level = 2) then None
    else Some (Py.str chapter +:+ "." +:+
               Py.join "." (counter_str m <$> seq 2 (level + 1 - 2))) in
  {| title := title; level := level; content := ""; sec_chapter := chapter;
     section_id := section_id; subsection_id := subsection_id;
     sec_url_anchor := create_url_anchor title |}.

(** One iteration of [for line in lines]. *)
Definition parse_line `{AnchorMaker} (chapter : Z) (st : parse_state)
    (line : string) : parse_state :=
  match header_match line with
  | Some (level, g2) =>
      let title := Py.strip g2 in
      let m := bump_counters level (section_counters st) in
      {| sections := save_section (sections st) (current_section st)
                                  (current_content st);
         current_section := Some (new_section chapter level title m);
         current_content := [];
         section_counters := m |}
  | None =>
      match current_section st with
      | Some _ =>
          {| sections := sections st; current_section := current_section st;
             current_content := current_content st ++ [line];
             section_counters := section_counters st |}
      | None => st
      end
  end.

Definition initial_state : parse_state :=
  {| sections := []; current_section := None; current_content := [];
     section_counters := list_to_map ((λ i, (i, 0)) <$> seq 1 6) |}.

Definition parse_lines `{AnchorMaker} (chapter : Z) (st : parse_state)
    (lines : list string) : parse_state :=
  foldl (parse_line chapter) st lines.

Definition finish (st : parse_state) : list MdSection :=
  save_section (sections st) (current_section st) (current_content st).

Definition parse_markdown_sections `{AnchorMaker} (markdown_text : string)
    (chapter : Z) (source_file : string) : list MdSection :=
  let lines := Py.split_on "010" markdown_text in
  finish (parse_lines chapter initial_state lines).

(** *** Chunking *)

(** [if buf: chunks.append(' '.join(buf))]. *)
Definition append_joined (chunks buf : list string) : list string :=
  match buf with
  | [] => chunks
  | _ => chunks ++ [Py.join " " buf]
  end.

(** "Split long sentence by words": the loop over [sentence.split()],
    returning [chunks] and the [temp_chunk] left at the end. *)
Fixpoint pack_words `{Tokenizer} (max_tokens : nat) (words : list string)
    (chunks temp_chunk : list string) (temp_tokens : nat)
    : list string * list string :=
  match words with
  | [] => (chunks, temp_chunk)
  | word :: words =>
      let word_tokens := count_tokens word in
      if max_tokens <? temp_tokens + word_tokens
      then pack_words max_tokens words (append_joined chunks temp_chunk)
                      [word] word_tokens
      else pack_words max_tokens words chunks (temp_chunk ++ [word])
                      (temp_tokens + word_tokens)
  end.

(** The loop [for sentence in sentences] with the final flush. *)
Fixpoint pack_sentences `{Tokenizer} (max_tokens : nat)
    (sentences : list string) (chunks current_chunk : list string)
    (current_tokens : nat) : list string :=
  match sentences with
  | [] => append_joined chunks current_chunk
  | sentence :: sentences =>
      let sentence_tokens := count_tokens sentence in
      if max_tokens <? sentence_tokens then
        let chunks1 := append_joined chunks current_chunk in
        let current_tokens1 :=
          match current_chunk with [] => current_tokens | _ => 0 end in
        let '(chunks2, temp_chunk) :=
          pack_words max_tokens (Py.split_ws sentence) chunks1 [] 0 in
        pack_sentences max_tokens sentences
                       (append_joined chunks2 temp_chunk) [] current_tokens1
      else if max_tokens <? current_tokens + sentence_tokens then
        pack_sentences max_tokens sentences
                       (append_joined chunks current_chunk)
                       [sentence] sentence_tokens
      else
        pack_sentences max_tokens sentences chunks
                       (current_chunk ++ [sentence])
                       (current_tokens + sentence_tokens)
  end.

Definition sentences_of `{SentenceModel} (text : string) : list string :=
  match nlp with
  | None => Py.re_split_sentences text
  | Some sents => sents text
  end.

Definition split_text_by_sentences `{Tokenizer, SentenceModel}
    (text : string) (max_tokens : nat) : list string :=
  pack_sentences max_tokens (sentences_of text) [] [] 0.

Definition new_chunk `{UuidSource} (draw : nat) (section : MdSection)
    (source_file text : string) (token_count chunk_index : nat)
    : ChunkMetadata :=
  {| chunk_id := uuid4 draw; text := text; chapter := sec_chapter section;
     section := section_id section; subsection := subsection_id section;
     url_anchor := sec_url_anchor section; token_count := token_count;
     chunk_index := chunk_index; source_file := source_file |}.

(** [prev_chunk.text = merged_text; prev_chunk.token_count = merged_tokens]. *)
Definition set_merged (c : ChunkMetadata) (merged_text : string)
    (merged_tokens : nat) : ChunkMetadata :=
  {| chunk_id := chunk_id c; text := merged_text; chapter := chapter c;
     section := section c; subsection := subsection c;
     url_anchor := url_anchor c; token_count := merged_tokens;
     chunk_index := chunk_index c; source_file := source_file c |}.

(** The loop [for idx, chunk_text in enumerate(chunk_texts)].  [chunks[-1]]
    is mutated in place by a merge; one uuid is drawn per appended chunk. *)
Fixpoint merge_loop `{Tokenizer, UuidSource} (section : MdSection)
    (source_file : string) (idx : nat) (chunk_texts : list string)
    (chunks : list ChunkMetadata) : list ChunkMetadata :=
  match chunk_texts with
  | [] => chunks
  | chunk_text :: chunk_texts =>
      let token_count := count_tokens chunk_text in
      let appended :=
        chunks ++ [new_chunk (length chunks) section source_file chunk_text
                             token_count idx] in
      let chunks' :=
        if (token_count <? MIN_CHUNK_TOKENS) && (0 <? idx) then
          match last chunks with
          | Some prev_chunk =>
              let merged_text := text prev_chunk +:+ " " +:+ chunk_text in
              let merged_tokens := count_tokens merged_text in
              if merged_tokens <=? MAX_CHUNK_TOKENS
              then removelast chunks
                     ++ [set_merged prev_chunk merged_text merged_tokens]
              else appended
          | None => appended
          end
        else appended in
      merge_loop section source_file (S idx) chunk_texts chunks'
  end.

Definition chunk_section `{Tokenizer, SentenceModel, UuidSource}
    (section : MdSection) (source_file : string) : list ChunkMetadata :=
  let section_tokens := count_tokens (content section) in
  if section_tokens <=? MAX_CHUNK_TOKENS then
    [new_chunk 0 section source_file (content section) section_tokens 0]
  else
    let chunk_texts :=
      split_text_by_sentences (content section) MAX_CHUNK_TOKENS in
    merge_loop section source_file 0 chunk_texts [].

End Chunking.

(** ** Scores, vectors and the remaining collaborators *)

(** The [float] values used as similarity scores, with Python's [<=] on
    them and the two bounds [0.0] and [1.0] of the [Citation] schema. *)
Class Score := {
  score : Type;
  score_leb : score → score → bool;
  score_0 : score;
  score_1 : score
}.


(** Python's [a < b]. *)
Definition score_ltb `{Score} (a b : score) : bool := negb (score_leb b a).

(** Embedding vectors ([List[float]]) with [float(np.dot(u, v))]. *)
Class Vectors `{Score} := {
  embedding : Type;
  np_dot : embedding → embedding → score
}.

(** [embed_texts(texts, normalize=True, show_progress=False)] and
    [embed_text(text, normalize=True)]; [None] when the service raises. *)
Class Embedder `{Vectors} := {
  embed_texts : list string → option (list embedding);
  embed_text : string → option embedding
}.

(** [l.sort(key=key, reverse=True)]: Python's sort is stable and compares
    keys with [<] only, so on a total preorder its result is the one of
    inserting the elements from the right, each before the first element
    whose key is not larger. *)
Fixpoint insert_desc `{Score} {A} (key : A → score) (x : A) (l : list A)
    : list A :=
  match l with
  | [] => [x]
  | y :: l' =>
      if score_ltb (key x) (key y) then y :: insert_desc key x l' else x :: l
  end.

Definition sort_desc `{Score} {A} (key : A → score) (l : list A) : list A :=
  foldr (insert_desc key) [] l.

(** A loop whose body may raise. *)
Definition foldM {S X} (f : S → X → option S) (l : list X) (s : S)
    : option S :=
  foldl (λ acc x, acc ≫= λ s, f s x) (Some s) l.

(** ** [vector_store.py]: the search hit handed to the agent *)

Module VectorStore.

(** The dataclass [SearchResult]; [score_of] is its field [score]. *)
Record SearchResult `{Score} := {
  chunk_id : string;
  score_of : score;
  text : string;
  chapter : Z;
  section : string;
  subsection : option string;
  url_anchor : string;
  metadata : gmap string nat
}.

End VectorStore.

(** ** [schemas.py]: [Citation] and its field validators *)

Module Schemas.

Record Citation `{Score} := {
  chunk_id : string;
  chapter : Z;
  section : string;
  url_anchor : string;
  relevance_score : score;
  text_preview : string;
  source : string
}.

(** The constructor call [Citation(...)]: pydantic raises unless
    [chapter >= 0], [0.0 <= relevance_score <= 1.0] and
    [len(text_preview) <= 200]. *)
Definition make_Citation `{Score} (chunk_id : string) (chapter : Z)
    (section url_anchor : string) (relevance_score : score)
    (text_preview source : string) : option Citation :=
  if bool_decide (0 ≤ chapter)%Z
     && score_leb score_0 relevance_score
     && score_leb relevance_score score_1
     && bool_decide (String.length text_preview ≤ 200)
  then Some {| chunk_id := chunk_id; chapter := chapter; section := section;
               url_anchor := url_anchor; relevance_score := relevance_score;
               text_preview := text_preview; source := source |}
  else None.

End Schemas.

(** The chat completion: from the list of [(role, content)] messages to
    [response.choices[0].message.content]; [None] when the call raises. *)
Class LanguageModel := {
  system_prompt : string;
  chat_completion : list (string * string) → option string
}.

(** What [get_agent_service().generate_answer(query, context_chunks, mode)]
    yields; [None] when it raises. *)
Class AgentService `{Score} :=
  agent_generate_answer :
    string → list VectorStore.SearchResult → string
    → option (string * list Schemas.Citation).

(** ** [agent.py] *)

Module Agent.
Import VectorStore.

(** *** The citation pattern
    [\[Chapter\s+(\d+)(?:,\s*Section\s+([\d.]+))?\]] with [re.IGNORECASE].
    Every quantified class is followed by a character outside the
    class, so each run is maximal and no backtracking is needed. *)

Fixpoint span (p : ascii → bool) (s : string) : string * string :=
  match s with
  | "" => ("", "")
  | String c s' =>
      if p c then let '(a, b) := span p s' in (String c a, b) else ("", s)
  end.

(** Consume the lower-case literal [lit], ignoring case in [s]. *)
Fixpoint eat_ci (lit s : string) : option string :=
  match lit, s with
  | "", _ => Some s
  | String a lit', String c s' =>
      if decide (Py.to_lower c = a) then eat_ci lit' s' else None
  | _, _ => None
  end.

Definition is_section_char (c : ascii) : bool :=
  Py.is_digit c || bool_decide (c = "."%char).

(** The groups of a match: [(match.group(1), match.group(2))]. *)
Definition groups : Type := string * option string.

(** A marker: [(chapter_num, section_id)]. *)
Definition marker : Type := Z * option string.

(** Consume the character [c]. *)
Definition eat_char (c : ascii) (s : string) : option string :=
  match s with
  | String d rest => if decide (d = c) then Some rest else None
  | "" => None
  end.

(** A non-empty maximal run of the class [p]. *)
Definition span1 (p : ascii → bool) (s : string) : option (string * string) :=
  let '(run, rest) := span p s in
  if decide (run = "") then None else Some (run, rest).

(** The optional group [(?:,\s*Section\s+([\d.]+))?] followed by [\]]:
    the section, if any, and the text after the bracket.  The group starts
    with a comma, so at most one of the two ways applies. *)
Definition match_section (s : string) : option (option string * string) :=
  match eat_char "]" s with
  | Some rest => Some (None, rest)
  | None =>
      r1 ← eat_char "," s;
      r2 ← eat_ci "section" (span Py.is_space r1).2;
      '(_, r3) ← span1 Py.is_space r2;
      '(sec, r4) ← span1 is_section_char r3;
      rest ← eat_char "]" r4;
      Some (Some sec, rest)
  end.

(** The pattern at the start of [s]: the groups of the match and the text
    after it. *)
Definition match_marker (s : string) : option (groups * string) :=
  r1 ← eat_ci "[chapter" s;
  '(_, r2) ← span1 Py.is_space r1;
  '(ds, r3) ← span1 Py.is_digit r2;
  '(sec, rest) ← match_section r3;
  Some ((ds, sec), rest).

(** [re.finditer]: the matches from left to right, without overlap;
    [skip] counts the characters still covered by the last match. *)
Fixpoint find_matches_go (skip : nat) (s : string) : list groups :=
  match s with
  | "" => []
  | String _ s' =>
      match skip with
      | S k => find_matches_go k s'
      | 0 =>
          match match_marker s with
          | Some (g, rest) =>
              g :: find_matches_go
                     (String.length s - String.length rest - 1) s'
          | None => find_matches_go 0 s'
          end
      end
  end.

Definition find_matches (answer : string) : list groups :=
  find_matches_go 0 answer.

(** [chapter_num = int(match.group(1))] and [section_id = match.group(2)];
    [None] when [int] raises. *)
Definition marker_of (g : groups) : option marker :=
  chapter_num ← Py.int g.1;
  Some (chapter_num, g.2).

(** *** [_extract_citations] *)

Definition source_of `{Score} (chunk : SearchResult) : string :=
  "Chapter " +:+ Py.str (chapter chunk) +:+ ", Section " +:+ section chunk
  +:+ match subsection chunk with
      | Some sub => if decide (sub = "") then "" else ", Subsection " +:+ sub
      | None => ""
      end.

(** The [Citation(...)] call made for a chunk. *)
Definition citation_of `{Score} (chunk : SearchResult)
    : option Schemas.Citation :=
  Schemas.make_Citation (chunk_id chunk) (chapter chunk) (section chunk)
    (url_anchor chunk) (score_of chunk) (Py.prefix_chars 200 (text chunk))
    (source_of chunk).

Definition chunk_key `{Score} (chunk : SearchResult) : string * Z * string :=
  (chunk_id chunk, chapter chunk, section chunk).

(** Does the marker select the chunk: same chapter and, when the marker
    carries a section, the same section. *)
Definition marker_selects `{Score} (m : marker) (chunk : SearchResult)
    : bool :=
  bool_decide (chapter chunk = m.1)
  && match m.2 with
     | Some section_id =>
         negb (bool_decide (section_id ≠ "")
               && bool_decide (section chunk ≠ section_id))
     | None => true
     end.

Definition cite_state `{Score} : Type :=
  gset (string * Z * string) * list Schemas.Citation.

(** Body of [for chunk in chunks] for one match. *)
Definition cite_chunk `{Score} (m : marker) (st : cite_state)
    (chunk : SearchResult) : option cite_state :=
  let '(cited_chunks, citations) := st in
  if marker_selects m chunk then
    if decide (chunk_key chunk ∈ cited_chunks) then Some st
    else
      citation ← citation_of chunk;
      Some (cited_chunks ∪ {[chunk_key chunk]}, citations ++ [citation])
  else Some st.

Definition cite_marker `{Score} (chunks : list SearchResult)
    (st : cite_state) (m : marker) : option cite_state :=
  foldM (cite_chunk m) chunks st.

(** Body of [for match in matches]. *)
Definition cite_match `{Score} (chunks : list SearchResult)
    (st : cite_state) (g : groups) : option cite_state :=
  m ← marker_of g;
  cite_marker chunks st m.

(** The citations found from the markers of the answer. *)
Definition marked_citations `{Score} (answer : string)
    (chunks : list SearchResult) : option (list Schemas.Citation) :=
  snd <$> foldM (cite_match chunks) (find_matches answer) (∅, []).

(** The list before the final sort: the marked citations, or the first
    three chunks when there is none and chunks were provided. *)
Definition emitted_citations `{Score} (answer : string)
    (chunks : list SearchResult) : option (list Schemas.Citation) :=
  citations ← marked_citations answer chunks;
  match citations, chunks with
  | [], _ :: _ => fallback ← mapM citation_of (take 3 chunks);
                  Some (citations ++ fallback)
  | _, _ => Some citations
  end.

Definition _extract_citations `{Score} (answer : string)
    (chunks : list SearchResult) : option (list Schemas.Citation) :=
  sort_desc Schemas.relevance_score <$> emitted_citations answer chunks.

(** *** [generate_answer] *)

Definition format_source `{Score} (i : nat) (chunk : SearchResult) : string :=
  "[Source " +:+ Py.str (Z.of_nat i) +:+ "] Chapter "
  +:+ Py.str (chapter chunk) +:+ ", Section " +:+ section chunk
  +:+ match subsection chunk with
      | Some sub => if decide (sub = "") then "" else ", Subsection " +:+ sub
      | None => ""
      end
  +:+ Py.NL +:+ text chunk +:+ Py.NL.

Definition _format_context `{Score} (chunks : list SearchResult) : string :=
  match chunks with
  | [] => "No relevant information found in the textbook."
  | _ => Py.join Py.NL (imap (λ i, format_source (S i)) chunks)
  end.

Definition _build_user_message (query context mode : string) : string :=
  if decide (mode = "selected-text") then
    "Based on the following selected text from the textbook, answer the question."
    +:+ Py.NL +:+ Py.NL +:+ "Selected Text:" +:+ Py.NL +:+ context
    +:+ Py.NL +:+ Py.NL +:+ "Question: " +:+ query +:+ Py.NL +:+ Py.NL
    +:+ "Answer the question using ONLY information from the selected text above. "
    +:+ "If the answer is not in the selected text, say 'Information not found in the selected text.'"
  else
    "Based on the following excerpts from the textbook, answer the question."
    +:+ Py.NL +:+ Py.NL +:+ "Context:" +:+ Py.NL +:+ context
    +:+ Py.NL +:+ Py.NL +:+ "Question: " +:+ query +:+ Py.NL +:+ Py.NL
    +:+ "Provide a clear answer based on the context. "
    +:+ "Always cite sources using [Chapter X, Section Y.Z] format. "
    +:+ "If the answer is not in the context, say 'Information not found in the book.'".

Definition generate_answer `{Score, LanguageModel} (query : string)
    (context_chunks : list SearchResult) (mode : string)
    : option (string * list Schemas.Citation) :=
  let context_text := _format_context context_chunks in
  let messages :=
    [("system", system_prompt);
     ("user", _build_user_message query context_text mode)] in
  content ← chat_completion messages;
  let answer := Py.strip content in
  citations ← _extract_citations answer context_chunks;
  Some (answer, citations).

End Agent.

(** The process-wide agent is the [AgentService] object of [agent.py]. *)
Definition agent_service `{Score, LanguageModel} : AgentService :=
  Agent.generate_answer.

(** ** [selected_text.py] *)

Module SelectedText.

(** The dataclasses [EphemeralChunk] ([chunk_embedding] is its field
    [embedding]) and [EphemeralSearchResult] (fields with the prefix
    [res_]), and the store, whose only attribute is [chunks]. *)
Record EphemeralChunk `{Vectors} := {
  chunk_id : string;
  text : string;
  chunk_embedding : embedding;
  chunk_index : nat
}.

Record EphemeralSearchResult `{Score} := {
  res_chunk_id : string;
  res_score : score;
  res_text : string;
  res_chunk_index : nat
}.

Record EphemeralVectorStore `{Vectors} := {
  chunks : list EphemeralChunk
}.

Definition to_result `{Vectors} (p : EphemeralChunk * score)
    : EphemeralSearchResult :=
  {| res_chunk_id := chunk_id p.1; res_score := p.2;
     res_text := text p.1; res_chunk_index := chunk_index p.1 |}.

(** [EphemeralVectorStore.search]. *)
Definition search `{Vectors} (self : EphemeralVectorStore)
    (query_embedding : embedding) (top_k : Z) (score_threshold : score)
    : list EphemeralSearchResult :=
  match chunks self with
  | [] => []
  | _ =>
      let scores :=
        (λ chunk, (chunk, np_dot query_embedding (chunk_embedding chunk)))
          <$> chunks self in
      let scores := sort_desc snd scores in
      to_result <$>
        filter (λ p, score_leb score_threshold p.2 = true)
               (Py.slice_to top_k scores)
  end.

(** [SelectedTextService.chunk_selected_text]. *)
Definition chunk_selected_text `{Tokenizer, SentenceModel}
    (max_chunk_tokens : nat) (text : string) : list string :=
  let token_count := count_tokens text in
  if token_count <=? max_chunk_tokens then [text]
  else Chunking.split_text_by_sentences text max_chunk_tokens.

(** [SelectedTextService.create_ephemeral_store]. *)
Definition create_ephemeral_store `{Tokenizer, SentenceModel, Embedder}
    (max_chunk_tokens : nat) (selected_text : string)
    : option EphemeralVectorStore :=
  let text_chunks := chunk_selected_text max_chunk_tokens selected_text in
  embeddings ← embed_texts text_chunks;
  Some {| chunks :=
            imap (λ i '(text, embedding),
                    {| chunk_id := "selected-" +:+ Py.format_03d i;
                       text := text; chunk_embedding := embedding;
                       chunk_index := i |})
                 (zip text_chunks embeddings) |}.

Definition to_agent_chunk `{Score} (result : EphemeralSearchResult)
    : VectorStore.SearchResult :=
  {| VectorStore.chunk_id := res_chunk_id result;
     VectorStore.score_of := res_score result;
     VectorStore.text := res_text result;
     VectorStore.chapter := 0;
     VectorStore.section := "selected";
     VectorStore.subsection := None;
     VectorStore.url_anchor := "";
     VectorStore.metadata := {[ "chunk_index" := res_chunk_index result ]} |}.

(** [SelectedTextService.answer_query]; [None] when a collaborator raises. *)
Definition answer_query
    `{Tokenizer, SentenceModel, Embedder, !AgentService}
    (max_chunk_tokens : nat) (query selected_text : string) (top_k : Z)
    : option (string * list Schemas.Citation) :=
  ephemeral_store ← create_ephemeral_store max_chunk_tokens selected_text;
  query_embedding ← embed_text query;
  let search_results :=
    search ephemeral_store query_embedding top_k score_0 in
  match search_results with
  | [] => Some ("Information not found in the selected text.", [])
  | _ =>
      let agent_chunks := to_agent_chunk <$> search_results in
      '(answer, citations) ←
        agent_generate_answer query agent_chunks "selected-text";
      let filtered_citations :=
        filter (λ c, Py.startswith "selected-" (Schemas.chunk_id c) = true)
               citations in
      Some (answer, filtered_citations)
  end.

End SelectedText.

(** ** Vocabulary of the properties *)

Module Spec.
Import Chunking.

(** A word: non-empty and free of whitespace. *)
Fixpoint no_space (s : string) : bool :=
  match s with
  | "" => true
  | String c s' => negb (Py.is_space c) && no_space s'
  end.

Definition is_word (w : string) : Prop := w ≠ "" ∧ no_space w = true.

(** The text with every whitespace character removed. *)
Fixpoint remove_ws (s : string) : string :=
  match s with
  | "" => ""
  | String c s' => if Py.is_space c then remove_ws s' else String c (remove_ws s')
  end.

(** Plain concatenation of a list of strings. *)
Definition concat_str (l : list string) : string := foldr String.append "" l.

(** The sentences are pieces of the text, one after the other, and what
    the text has before, between and after them is whitespace.  This is
    what spaCy gives: its tokens are the text cut into pieces, [doc.sents]
    covers the tokens in order, and [sent.text] leaves out the whitespace
    that trails the last token of the sentence. *)
Inductive pieces : string → list string → Prop :=
  | pieces_nil gap : remove_ws gap = "" → pieces gap []
  | pieces_cons gap sent rest sents :
      remove_ws gap = "" → pieces rest sents →
      pieces (gap +:+ sent +:+ rest) (sent :: sents).

(** [text] without the prefix [p], when it starts with it. *)
Fixpoint drop_prefix (p text : string) : option string :=
  match p, text with
  | "", _ => Some text
  | String a p', String b text' =>
      if decide (a = b) then drop_prefix p' text' else None
  | _, "" => None
  end.

(** What follows [sent] in [text], [sent] being met after whitespace
    only. *)
Fixpoint after_sentence (sent text : string) : option string :=
  match drop_prefix sent text with
  | Some rest => Some rest
  | None =>
      match text with
      | String c text' =>
          if Py.is_space c then after_sentence sent text' else None
      | "" => None
      end
  end.

(** A test that is enough for [pieces]. *)
Fixpoint pieces_test (text : string) (sents : list string) : bool :=
  match sents with
  | [] => bool_decide (remove_ws text = "")
  | sent :: sents =>
      match after_sentence sent text with
      | Some rest => pieces_test rest sents
      | None => false
      end
  end.








(** Every passage but the last one reaches the floor. *)
Definition floor_except_last (out : list ChunkMetadata) : Prop :=
  ∀ i c, S i < length out → out !! i = Some c →
    MIN_CHUNK_TOKENS ≤ token_count c.

(** The i-th passage carries index i. *)
Definition contiguous_index (out : list ChunkMetadata) : Prop :=
  ∀ i c, out !! i = Some c → chunk_index c = i.

(** Each chunk that follows another one and is below the floor could
    not be merged into it. *)
Fixpoint merge_refused `{Tokenizer} (l : list ChunkMetadata) : Prop :=
  match l with
  | p :: (c :: _) as tl =>
      (token_count c < MIN_CHUNK_TOKENS →
       MAX_CHUNK_TOKENS < count_tokens (text p +:+ " " +:+ text c))
      ∧ merge_refused tl
  | _ => True
  end.




(** A search hit that passes the validators of [Citation]. *)
Definition citable `{Score} (chunk : VectorStore.SearchResult) : Prop :=
  (0 ≤ VectorStore.chapter chunk)%Z
  ∧ score_leb score_0 (VectorStore.score_of chunk) = true
  ∧ score_leb (VectorStore.score_of chunk) score_1 = true.

(** The record that [Citation(...)] builds for a chunk. *)
Definition citation_record `{Score} (chunk : VectorStore.SearchResult)
    : Schemas.Citation :=
  {| Schemas.chunk_id := VectorStore.chunk_id chunk;
     Schemas.chapter := VectorStore.chapter chunk;
     Schemas.section := VectorStore.section chunk;
     Schemas.url_anchor := VectorStore.url_anchor chunk;
     Schemas.relevance_score := VectorStore.score_of chunk;
     Schemas.text_preview := Py.prefix_chars 200 (VectorStore.text chunk);
     Schemas.source := Agent.source_of chunk |}.

(** The sections saved so far together with the one being read. *)
Definition pending (st : parse_state) : list MdSection :=
  sections st ++ option_list (current_section st).

(** The identifier of the k-th level-2 section of a chapter. *)
Definition id_of (chapter : Z) (k : nat) : string :=
  Py.str chapter +:+ "." +:+ Py.str (Z.of_nat k).


(** The form of a section identifier: the chapter number at level 1, the
    chapter number, a dot and a counter value below. *)
Definition id_form (chapter : Z) (s : MdSection) : Prop :=
  if decide (level s = 1) then section_id s = Py.str chapter
  else ∃ k, section_id s = id_of chapter k.

(** The markers of an answer, each numeral read as the number it spells,
    whatever its length. *)
Definition markers (answer : string) : list Agent.marker :=
  (λ g : Agent.groups, (Py.int_of_digits g.1, g.2))
    <$> Agent.find_matches answer.

(** No marker of the answer has a numeral of more than 4300 digits. *)
Definition readable (answer : string) : Prop :=
  Forall (λ g : Agent.groups, String.length g.1 ≤ 4300)
         (Agent.find_matches answer).


(** The text in lower case. *)
Fixpoint lower_str (s : string) : string :=
  match s with
  | "" => ""
  | String c s' => String (Py.to_lower c) (lower_str s')
  end.



End Spec.

(** ** Concrete collaborators and inputs used in the examples *)

Module Fixture.
Import Chunking.

Definition is_alnum (c : ascii) : bool :=
  let n := Py.code c in
  ((48 <=? n) && (n <=? 57) || (65 <=? n) && (n <=? 90)
   || (97 <=? n) && (n <=? 122))%N.

(** A tokenizer in the manner of the BERT pre-tokenizer: whitespace
    separates, every run of letters and digits is one token and every
    other character is a token of its own. *)
Fixpoint simple_count (in_word : bool) (s : string) : nat :=
  match s with
  | "" => 0
  | String c s' =>
      if Py.is_space c then simple_count false s'
      else if is_alnum c
           then (if in_word then 0 else 1) + simple_count true s'
           else 1 + simple_count false s'
  end.

Definition simple_tokenizer : Tokenizer := simple_count false.
Definition no_spacy : SentenceModel := None.

(** A sentence model that ends a sentence after every full stop, also
    inside a run of characters without whitespace. *)
Fixpoint cut_after_stops (s : string) : list string :=
  match s with
  | "" => [""]
  | String c s' =>
      if bool_decide (c = "."%char) then String c "" :: cut_after_stops s'
      else Py.cons_head c (cut_after_stops s')
  end.

Definition stop_cut : SentenceModel :=
  Some (λ text, filter (λ s, s ≠ "") (Py.strip <$> cut_after_stops text)).
Definition counting_uuid : UuidSource := λ n, "uuid-" +:+ pretty n.
Definition plain_anchor : AnchorMaker := λ title, title.

(** Scores in thousandths: [0.0] is 0 and [1.0] is 1000. *)
Definition milli : Score :=
  {| score := Z; score_leb := Z.leb; score_0 := 0%Z; score_1 := 1000%Z |}.

(** One-dimensional vectors. *)
Definition line_vectors : @Vectors milli :=
  @Build_Vectors milli Z Z.mul.

Definition length_embedder : @Embedder milli line_vectors :=
  @Build_Embedder milli line_vectors
    (λ texts, Some ((λ t, Z.of_nat (String.length t)) <$> texts))
    (λ t, Some (Z.of_nat (String.length t))).

Definition canned_llm : LanguageModel :=
  {| system_prompt := "You answer from the textbook.";
     chat_completion := λ _, Some " It is stated in the text. " |}.

(** [n] copies of [w]. *)
Fixpoint rep (n : nat) (w : string) : string :=
  match n with
  | 0 => ""
  | S n => w +:+ rep n w
  end.

Definition section_with (c : string) : MdSection :=
  {| title := "Forward Kinematics"; level := 2; content := c;
     sec_chapter := 3; section_id := "3.1"; subsection_id := None;
     sec_url_anchor := "forward-kinematics" |}.

(** A rule of 513 hyphens: one word of 513 tokens. *)
Definition long_rule : string := rep 513 "-".

(** A two-token sentence followed by a sentence of 511 tokens. *)
Definition short_then_long : string := "a. " +:+ rep 510 "b " +:+ "b".

(** A sentence of 513 words, a short sentence, a sentence of 511 words. *)
Definition run_on : string :=
  rep 512 "a " +:+ "a. b. " +:+ rep 510 "c " +:+ "c".

(** The same after two sentences with no whitespace between them. *)
Definition glued : string := "Stop.Go on. " +:+ run_on.


(** Two top-level headings in one chapter file. *)
Definition two_parts : string :=
  "# Part one" +:+ Py.NL +:+ "alpha" +:+ Py.NL
  +:+ "# Part two" +:+ Py.NL +:+ "beta".

(** Text in front of the first heading; [#hashtag] is not a heading. *)
Definition front_matter : string := "preface" +:+ Py.NL +:+ "#hashtag".

Definition one_part : string :=
  "preface" +:+ Py.NL +:+ "# Kinematics" +:+ Py.NL +:+ "intro" +:+ Py.NL
  +:+ "## Forward" +:+ Py.NL +:+ "fk" +:+ Py.NL
  +:+ "### Detail" +:+ Py.NL +:+ "dh" +:+ Py.NL
  +:+ "## Inverse" +:+ Py.NL +:+ "ik".

Definition hit (id : string) (s : Z) (ch : Z) (sec : string)
    : @VectorStore.SearchResult milli :=
  @VectorStore.Build_SearchResult milli id s
    "Inverse kinematics (IK) is the process of determining joint angles."
    ch sec None "#ik" ∅.

(** A citation of a passage of the persistent corpus. *)
Definition foreign_citation : @Schemas.Citation milli :=
  @Schemas.Build_Citation milli "ch3-s3.2-001" 3 "3.2" "#ik" 890%Z
    "Inverse kinematics (IK) is the process" "Chapter 3, Section 3.2".

(** An agent that adds a citation of the corpus to those of its context. *)
Definition leaky_agent : @AgentService milli :=
  λ query chunks mode,
    Some ("It is stated in the selected text.",
          foreign_citation
            :: default [] (@Agent._extract_citations milli
                             "It is stated in the selected text." chunks)).

Definition short_selection : string :=
  "Inverse kinematics finds joint angles.".

Definition stored (id : string) (v : Z) (i : nat)
    : @SelectedText.EphemeralChunk milli line_vectors :=
  @SelectedText.Build_EphemeralChunk milli line_vectors id "t" v i.

Definition two_chunk_store
    : @SelectedText.EphemeralVectorStore milli line_vectors :=
  @SelectedText.Build_EphemeralVectorStore milli line_vectors
    [stored "selected-000" 2 0; stored "selected-001" 5 1].

End Fixture.

(** ** Regular expressions

    The patterns of [validators.py] and [chunking.py] that are only asked
    whether they match.  Whether a match exists does not depend on the order
    in which [re] tries the alternatives, so the patterns are given as
    regular expressions with their language, decided by derivatives. *)

Module Re.

Inductive regex :=
  | Void
  | Eps
  | Chr (p : ascii → bool)
  | Cat (r s : regex)
  | Alt (r s : regex)
  | Star (r : regex).

Fixpoint nullable (r : regex) : bool :=
  match r with
  | Void => false
  | Eps => true
  | Chr _ => false
  | Cat r s => nullable r && nullable s
  | Alt r s => nullable r || nullable s
  | Star _ => true
  end.

Fixpoint deriv (c : ascii) (r : regex) : regex :=
  match r with
  | Void => Void
  | Eps => Void
  | Chr p => if p c then Eps else Void
  | Cat r s =>
      if nullable r then Alt (Cat (deriv c r) s) (deriv c s)
      else Cat (deriv c r) s
  | Alt r s => Alt (deriv c r) (deriv c s)
  | Star r => Cat (deriv c r) (Star r)
  end.

(** [re.fullmatch(r, s) is not None]. *)
Fixpoint fullmatch (r : regex) (s : string) : bool :=
  match s with
  | "" => nullable r
  | String c s' => fullmatch (deriv c r) s'
  end.

(** The language of a pattern. *)
Inductive Matches : regex → string → Prop :=
  | Matches_eps : Matches Eps ""
  | Matches_chr p c : p c = true → Matches (Chr p) (String c "")
  | Matches_cat r s u v :
      Matches r u → Matches s v → Matches (Cat r s) (u +:+ v)
  | Matches_alt_l r s u : Matches r u → Matches (Alt r s) u
  | Matches_alt_r r s u : Matches s u → Matches (Alt r s) u
  | Matches_star_nil r : Matches (Star r) ""
  | Matches_star_cons r u v :
      Matches r u → Matches (Star r) v → Matches (Star r) (u +:+ v).

(** [r+], [r?], any character, one character, and one character under
    [re.IGNORECASE]. *)
Definition Plus (r : regex) : regex := Cat r (Star r).
Definition Opt (r : regex) : regex := Alt Eps r.
Definition any : regex := Chr (λ _, true).
Definition chr (c : ascii) : regex := Chr (λ d, bool_decide (d = c)).
Definition chr_ci (c : ascii) : regex :=
  Chr (λ d, bool_decide (Py.to_lower d = Py.to_lower c)).

(** A literal text, as written and under [re.IGNORECASE]. *)
Fixpoint lit (s : string) : regex :=
  match s with
  | "" => Eps
  | String c s' => Cat (chr c) (lit s')
  end.

Fixpoint lit_ci (s : string) : regex :=
  match s with
  | "" => Eps
  | String c s' => Cat (chr_ci c) (lit_ci s')
  end.

(** [a|b|...]. *)
Definition alts (rs : list regex) : regex := foldr Alt Void rs.

(** [$] at the end of a pattern, without [re.MULTILINE]: the end of the
    text, or the place before a newline that ends the text. *)
Definition eol : regex := Opt (chr "010").

(** [re.match(r, s) is not None]: a match that starts at the start. *)
Definition match_ (r : regex) (s : string) : bool :=
  fullmatch (Cat r (Star any)) s.

(** [re.search(r, s) is not None]: a match anywhere. *)
Definition search (r : regex) (s : string) : bool :=
  fullmatch (Cat (Star any) (Cat r (Star any))) s.

End Re.

(** ** Further string operations of Python *)

Module Text.

(** [str.lower] on one character: the letters A..Z and the capital
    letters of Latin-1 (all of 192..222 but the multiplication sign). *)
Definition lower_char (c : ascii) : ascii :=
  let n := Py.code c in
  if ((65 <=? n) && (n <=? 90)
      || (192 <=? n) && (n <=? 222) && negb (n =? 215))%N
  then ascii_of_N (n + 32) else c.

Fixpoint lower (s : string) : string :=
  match s with
  | "" => ""
  | String c s' => String (lower_char c) (lower s')
  end.

(** [str.upper] on one character.  The sharp s becomes [SS].  The
    capitals of the micro sign and of y with diaeresis lie beyond code
    point 255; they are left in place, being like their capitals neither
    whitespace nor equal, in any letter case, to an ASCII character, which
    is all that the patterns applied to an upper-cased text test. *)
Definition upper_char (c : ascii) : string :=
  let n := Py.code c in
  if (n =? 223)%N then "SS"
  else if ((97 <=? n) && (n <=? 122)
           || (224 <=? n) && (n <=? 254) && negb (n =? 247))%N
  then String (ascii_of_N (n - 32)) ""
  else String c "".

Fixpoint upper (s : string) : string :=
  match s with
  | "" => ""
  | String c s' => upper_char c +:+ upper s'
  end.

(** The class [\w] of [re] on [str] patterns: letters, digits and marks
    that [str.isalnum] accepts, and the underscore. *)
Definition is_word_char (c : ascii) : bool :=
  let n := Py.code c in
  ((48 <=? n) && (n <=? 57) || (65 <=? n) && (n <=? 90) || (n =? 95)
   || (97 <=? n) && (n <=? 122)
   || (n =? 170) || (n =? 178) || (n =? 179) || (n =? 181) || (n =? 185)
   || (n =? 186) || (188 <=? n) && (n <=? 190)
   || (192 <=? n) && (n <=? 214) || (216 <=? n) && (n <=? 246)
   || (248 <=? n) && (n <=? 255))%N.

(** [re.sub(cls, '', s)] for the complement [cls] of a one-character
    class [keep]. *)
Fixpoint keep_chars (keep : ascii → bool) (s : string) : string :=
  match s with
  | "" => ""
  | String c s' =>
      if keep c then String c (keep_chars keep s') else keep_chars keep s'
  end.

Definition starts_in (p : ascii → bool) (s : string) : bool :=
  match s with
  | "" => false
  | String c _ => p c
  end.

(** [re.sub(cls+, r, s)] for a one-character class: every maximal run of
    the class becomes the one character [r], written where the run ends. *)
Fixpoint sub_runs (p : ascii → bool) (r : ascii) (s : string) : string :=
  match s with
  | "" => ""
  | String c s' =>
      if p c then
        if starts_in p s' then sub_runs p r s' else String r (sub_runs p r s')
      else String c (sub_runs p r s')
  end.

(** [s.strip(chars)], the characters to strip given as a class. *)
Fixpoint lstrip_by (p : ascii → bool) (s : string) : string :=
  match s with
  | "" => ""
  | String c s' => if p c then lstrip_by p s' else s
  end.

Fixpoint rstrip_by (p : ascii → bool) (s : string) : string :=
  match s with
  | "" => ""
  | String c s' =>
      match rstrip_by p s' with
      | "" => if p c then "" else String c ""
      | r => String c r
      end
  end.

Definition strip_by (p : ascii → bool) (s : string) : string :=
  rstrip_by p (lstrip_by p s).

(** [html.escape(s)], quotes included. *)
Definition escape_char (c : ascii) : string :=
  if decide (c = "&"%char) then "&amp;"
  else if decide (c = "<"%char) then "&lt;"
  else if decide (c = ">"%char) then "&gt;"
  else if decide (c = "034"%char) then "&quot;"
  else if decide (c = "'"%char) then "&#x27;"
  else String c "".

Fixpoint html_escape (s : string) : string :=
  match s with
  | "" => ""
  | String c s' => escape_char c +:+ html_escape s'
  end.

(** [s.replace('\r\n', '\n')] and [s.replace('\r', '\n')]. *)
Fixpoint replace_crlf (s : string) : string :=
  match s with
  | "" => ""
  | String c s' =>
      if bool_decide (c = "013"%char)
         && starts_in (λ d, bool_decide (d = "010"%char)) s'
      then replace_crlf s'
      else String c (replace_crlf s')
  end.

Fixpoint replace_cr (s : string) : string :=
  match s with
  | "" => ""
  | String c s' =>
      String (if decide (c = "013"%char) then "010"%char else c) (replace_cr s')
  end.

(** [t in s]. *)
Fixpoint contains (t s : string) : bool :=
  String.prefix t s
  || match s with
     | "" => false
     | String _ s' => contains t s'
     end.

End Text.

(** ** [chunking.py]: the utility functions and the chapter pipeline *)

Module Chapter.
Import Chunking.

(** The characters that [[^\w\s-]] leaves, and the classes [[\s_]] and
    [-]. *)
Definition anchor_keep (c : ascii) : bool :=
  Text.is_word_char c || Py.is_space c || bool_decide (c = "-"%char).

Definition anchor_gap (c : ascii) : bool :=
  Py.is_space c || bool_decide (c = "_"%char).

Definition is_hyphen (c : ascii) : bool := bool_decide (c = "-"%char).

(** [create_url_anchor]. *)
Definition create_url_anchor (title : string) : string :=
  let anchor := Py.strip (Text.lower title) in
  let anchor := Text.keep_chars anchor_keep anchor in
  let anchor := Text.sub_runs anchor_gap "-" anchor in
  let anchor := Text.sub_runs is_hyphen "-" anchor in
  Text.strip_by is_hyphen anchor.

(** The slug maker that the parser of the source calls. *)
Definition slug_anchor : AnchorMaker := create_url_anchor.

(** [ch(?:apter)?-?(\d+)] under [re.IGNORECASE] at the start of [s]:
    [group(1)].  Taking [apter] or the hyphen when it is there is the only
    way to reach a digit, and the run of digits is maximal. *)
Definition match_chapter (s : string) : option string :=
  r1 ← Agent.eat_ci "ch" s;
  let r2 := default r1 (Agent.eat_ci "apter" r1) in
  let r3 := default r2 (Agent.eat_char "-" r2) in
  fst <$> Agent.span1 Py.is_digit r3.

(** [(\d+)-] at the start of [s]: [group(1)].  A shorter run of digits
    is followed by a digit, not by the hyphen. *)
Definition match_leading (s : string) : option string :=
  '(ds, r) ← Agent.span1 Py.is_digit s;
  _ ← Agent.eat_char "-" r;
  Some ds.

(** [re.search]: the match with the leftmost start. *)
Fixpoint search_group (m : string → option string) (s : string)
    : option string :=
  match m s with
  | Some g => Some g
  | None =>
      match s with
      | "" => None
      | String _ s' => search_group m s'
      end
  end.

Definition front_back_matter : list string :=
  ["intro"; "preface"; "appendix"; "foreword"; "prologue"; "glossary";
   "index"; "references"; "bibliography"].

(** [extract_chapter_number]; [None] for a [ValueError], the one raised
    at the end or the one of [int]. *)
Definition extract_chapter_number (file_path : string) : option Z :=
  match search_group match_chapter file_path with
  | Some g => Py.int g
  | None =>
      match search_group match_leading file_path with
      | Some g => Py.int g
      | None =>
          if Re.search (Re.alts (Re.lit_ci <$> front_back_matter)) file_path
          then Some 0%Z else None
      end
  end.

(** The loop [for section in sections]: the uuid source goes on where the
    previous section left it, one draw having been made per chunk. *)
Definition chunk_sections `{Tokenizer, SentenceModel, UuidSource}
    (sections : list MdSection) (source_file : string) : list ChunkMetadata :=
  foldl (λ all_chunks section,
           all_chunks
           ++ @chunk_section _ _ (λ n, uuid4 (length all_chunks + n))
                section source_file)
        [] sections.

(** [chunk_textbook_chapter]; [chapter] is [None] for the default. *)
Definition chunk_textbook_chapter `{Tokenizer, SentenceModel, UuidSource}
    (markdown_text source_file : string) (chapter : option Z)
    : option (list ChunkMetadata) :=
  chapter ← match chapter with
            | Some chapter => Some chapter
            | None => extract_chapter_number source_file
            end;
  let sections :=
    @parse_markdown_sections slug_anchor markdown_text chapter source_file in
  Some (chunk_sections sections source_file).

End Chapter.

(** ** [validators.py]

    A validator returns the pair [(is_valid, error_message)]; an argument
    that may be [None] is an [option]. *)

Module Validators.

(** [validate_query_text]. *)
Definition validate_query_text (query : option string)
    (min_length max_length : Z) (allow_empty : bool) : bool * option string :=
  match query with
  | None => (false, Some "Query cannot be None")
  | Some query =>
      let query_stripped := Py.strip query in
      let n := Z.of_nat (String.length query_stripped) in
      if negb allow_empty && (n =? 0)%Z then
        (false, Some "Query cannot be empty or only whitespace")
      else if (n <? min_length)%Z then
        (false, Some ("Query must be at least " +:+ Py.str min_length
                      +:+ " characters"))
      else if (max_length <? n)%Z then
        (false, Some ("Query must not exceed " +:+ Py.str max_length
                      +:+ " characters"))
      else (true, None)
  end.

(** [validate_selected_text]. *)
Definition validate_selected_text (text : option string)
    (min_length max_length : Z) : bool * option string :=
  match text with
  | None => (false, Some "Selected text cannot be None")
  | Some text =>
      let text_stripped := Py.strip text in
      let n := Z.of_nat (String.length text_stripped) in
      if (n <? min_length)%Z then
        (false, Some ("Selected text must be at least " +:+ Py.str min_length
                      +:+ " characters"))
      else if (max_length <? n)%Z then
        (false, Some ("Selected text must not exceed " +:+ Py.str max_length
                      +:+ " characters"))
      else (true, None)
  end.

(** [sanitize_query]. *)
Definition sanitize_query (query : string) : string :=
  let sanitized := Py.strip query in
  let sanitized := Text.html_escape sanitized in
  let sanitized :=
    Text.keep_chars (λ c, bool_decide (c ≠ "000"%char)) sanitized in
  Text.sub_runs Py.is_space " " sanitized.

(** [sanitize_selected_text]. *)
Definition sanitize_selected_text (text : string) : string :=
  let sanitized := Text.keep_chars (λ c, bool_decide (c ≠ "000"%char)) text in
  let sanitized := Text.html_escape sanitized in
  let sanitized := Text.replace_cr (Text.replace_crlf sanitized) in
  let lines := Py.split_on "010" sanitized in
  let lines := Py.rstrip <$> lines in
  let sanitized := Py.join Py.NL lines in
  Py.strip sanitized.

(** The class [[a-zA-Z0-9_-]]. *)
Definition is_id_char (c : ascii) : bool :=
  let n := Py.code c in
  ((97 <=? n) && (n <=? 122) || (65 <=? n) && (n <=? 90)
   || (48 <=? n) && (n <=? 57) || (n =? 95) || (n =? 45))%N.

(** [^[a-zA-Z0-9_-]+$], tried with [re.match]. *)
Definition session_id_pattern : Re.regex :=
  Re.Cat (Re.Plus (Re.Chr is_id_char)) Re.eol.

(** [validate_session_id]. *)
Definition validate_session_id (session_id : option string)
    : bool * option string :=
  match session_id with
  | None => (true, None)
  | Some session_id =>
      let session_id := Py.strip session_id in
      if (String.length session_id <? 1) || (128 <? String.length session_id)
      then (false, Some "Session ID length must be between 1 and 128 characters")
      else if negb (Re.fullmatch session_id_pattern session_id) then
        (false, Some "Session ID must contain only alphanumeric characters, hyphens, and underscores")
      else (true, None)
  end.

(** [^\d+(\.\d+)*$], tried with [re.match]. *)
Definition section_pattern : Re.regex :=
  Re.Cat (Re.Plus (Re.Chr Py.is_digit))
    (Re.Cat (Re.Star (Re.Cat (Re.chr ".") (Re.Plus (Re.Chr Py.is_digit))))
            Re.eol).

(** [validate_section_identifier]. *)
Definition validate_section_identifier (section : option string)
    : bool * option string :=
  match section with
  | None => (true, None)
  | Some section =>
      if negb (Re.fullmatch section_pattern section) then
        (false, Some "Section identifier must be in format like '3.2' or '3.2.1'")
      else (true, None)
  end.

(** [\s] and, under [re.IGNORECASE], [[a-z0-9]]. *)
Definition ws : Re.regex := Re.Chr Py.is_space.

Definition is_alnum_ci (c : ascii) : bool :=
  let n := Py.code (Py.to_lower c) in
  ((97 <=? n) && (n <=? 122) || (48 <=? n) && (n <=? 57))%N.

Definition quote : Re.regex := Re.chr "'".

(** The patterns of [check_for_sql_injection], in the order of the list;
    all are tried under [re.IGNORECASE]. *)
Definition sql_patterns : list Re.regex :=
  [ (* '\s*OR\s+'?[a-z0-9]+'?\s*=\s*'?[a-z0-9]+'? *)
    Re.Cat quote (Re.Cat (Re.Star ws) (Re.Cat (Re.lit_ci "OR")
      (Re.Cat (Re.Plus ws) (Re.Cat (Re.Opt quote)
        (Re.Cat (Re.Plus (Re.Chr is_alnum_ci)) (Re.Cat (Re.Opt quote)
          (Re.Cat (Re.Star ws) (Re.Cat (Re.chr "=") (Re.Cat (Re.Star ws)
            (Re.Cat (Re.Opt quote)
              (Re.Cat (Re.Plus (Re.Chr is_alnum_ci)) (Re.Opt quote))))))))))));
    (* -- *)
    Re.lit_ci "--";
    (* ;\s*DROP\s+TABLE *)
    Re.Cat (Re.chr ";") (Re.Cat (Re.Star ws) (Re.Cat (Re.lit_ci "DROP")
      (Re.Cat (Re.Plus ws) (Re.lit_ci "TABLE"))));
    (* ;\s*DELETE\s+FROM *)
    Re.Cat (Re.chr ";") (Re.Cat (Re.Star ws) (Re.Cat (Re.lit_ci "DELETE")
      (Re.Cat (Re.Plus ws) (Re.lit_ci "FROM"))));
    (* ;\s*UPDATE\s+ *)
    Re.Cat (Re.chr ";") (Re.Cat (Re.Star ws) (Re.Cat (Re.lit_ci "UPDATE")
      (Re.Plus ws)));
    (* UNION\s+SELECT *)
    Re.Cat (Re.lit_ci "UNION") (Re.Cat (Re.Plus ws) (Re.lit_ci "SELECT"));
    (* EXEC\s*\( *)
    Re.Cat (Re.lit_ci "EXEC") (Re.Cat (Re.Star ws) (Re.chr "(")) ].

(** [check_for_sql_injection]. *)
Definition check_for_sql_injection (text : string) : bool :=
  let text_upper := Text.upper text in
  existsb (λ pattern, Re.search pattern text_upper) sql_patterns.

(** [<tag[^>]*>]. *)
Definition tag_pattern (tag : string) : Re.regex :=
  Re.Cat (Re.lit_ci tag)
    (Re.Cat (Re.Star (Re.Chr (λ c, bool_decide (c ≠ ">"%char)))) (Re.chr ">")).

(** The patterns of [check_for_xss], all under [re.IGNORECASE]. *)
Definition xss_patterns : list Re.regex :=
  [ tag_pattern "<script";
    Re.lit_ci "javascript:";
    (* on\w+\s*= *)
    Re.Cat (Re.lit_ci "on") (Re.Cat (Re.Plus (Re.Chr Text.is_word_char))
      (Re.Cat (Re.Star ws) (Re.chr "=")));
    tag_pattern "<iframe";
    tag_pattern "<embed";
    tag_pattern "<object" ].

(** [check_for_xss]. *)
Definition check_for_xss (text : string) : bool :=
  existsb (λ pattern, Re.search pattern text) xss_patterns.

(** [is_safe_input]. *)
Definition is_safe_input (text : string) : bool * option string :=
  if check_for_sql_injection text then
    (false, Some "Potential SQL injection detected")
  else if check_for_xss text then
    (false, Some "Potential XSS attack detected")
  else (true, None).

(** The text of an argument that has passed the [None] check. *)
Definition text_of (arg : option string) : string := default "" arg.

(** [f"{warning}"] for an optional message. *)
Definition fmt (warning : option string) : string := default "None" warning.

(** [validate_query_request]. *)
Definition validate_query_request (query session_id : option string)
    (min_length max_length : Z) : bool * option string :=
  let '(is_valid, error) :=
    validate_query_text query min_length max_length false in
  if negb is_valid then (false, error) else
  let '(is_safe, warning) := is_safe_input (text_of query) in
  if negb is_safe then
    (false, Some ("Security check failed: " +:+ fmt warning))
  else
  let '(is_valid, error) := validate_session_id session_id in
  if negb is_valid then (false, error) else (true, None).

(** [validate_selected_text_request]. *)
Definition validate_selected_text_request
    (query selected_text session_id : option string) : bool * option string :=
  let '(is_valid, error) := validate_query_text query 1 1000 false in
  if negb is_valid then (false, error) else
  let '(is_valid, error) := validate_selected_text selected_text 10 5000 in
  if negb is_valid then (false, error) else
  let '(is_safe, warning) := is_safe_input (text_of query) in
  if negb is_safe then
    (false, Some ("Query security check failed: " +:+ fmt warning))
  else if check_for_sql_injection (text_of selected_text) then
    (false, Some "Selected text security check failed: Potential SQL injection")
  else
  let '(is_valid, error) := validate_session_id session_id in
  if negb is_valid then (false, error) else (true, None).

End Validators.

(** ** Vocabulary of the further properties *)

Module Shape.

(** Every character of the text is in the class; some character is. *)
Fixpoint all_chars (p : ascii → bool) (s : string) : bool :=
  match s with
  | "" => true
  | String c s' => p c && all_chars p s'
  end.

Fixpoint has_char (p : ascii → bool) (s : string) : bool :=
  match s with
  | "" => false
  | String c s' => p c || has_char p s'
  end.

(** No two neighbours are both in the class. *)
Fixpoint no_run (p : ascii → bool) (s : string) : bool :=
  match s with
  | "" => true
  | String c s' => negb (p c && Text.starts_in p s') && no_run p s'
  end.

(** The last character is in the class. *)
Fixpoint ends_in (p : ascii → bool) (s : string) : bool :=
  match s with
  | "" => false
  | String c "" => p c
  | String _ s' => ends_in p s'
  end.

Definition is_hyphen : ascii → bool := Chapter.is_hyphen.

(** A character that [str.lower] leaves as it is. *)
Definition low_fixed (c : ascii) : bool := bool_decide (Text.lower_char c = c).

(** A letter, digit or mark of [\w] other than the underscore. *)
Definition is_alnum_char (c : ascii) : bool :=
  Text.is_word_char c && negb (bool_decide (c = "_"%char)).

(** A character that a slug is made of: of the class [\w], not the
    underscore, and not a capital letter. *)
Definition is_slug_char (c : ascii) : bool :=
  is_alnum_char c && low_fixed c.

Definition slug_or_hyphen (c : ascii) : bool := is_slug_char c || is_hyphen c.

(** A slug: runs of such characters, joined by single hyphens. *)
Definition slug (s : string) : Prop :=
  all_chars slug_or_hyphen s = true
  ∧ no_run is_hyphen s = true
  ∧ Text.starts_in is_hyphen s = false
  ∧ ends_in is_hyphen s = false.

(** A character that is none of [<], [>], the two quotes and NUL. *)
Definition is_plain (c : ascii) : bool :=
  negb (bool_decide (c = "<"%char ∨ c = ">"%char ∨ c = "034"%char
                     ∨ c = "'"%char ∨ c = "000"%char)).

(** Whitespace is the space character only. *)
Definition space_only (c : ascii) : bool :=
  negb (Py.is_space c) || bool_decide (c = " "%char).

(** A line without whitespace at its end. *)
Definition rstripped (line : string) : Prop := Py.rstrip line = line.

(** A numeral: a non-empty text of decimal digits. *)
Definition numeral (g : string) : Prop :=
  g ≠ "" ∧ all_chars Py.is_digit g = true.

(** [digits] is the decimal numeral of [i] with zeros in front of it up
    to a length of three. *)
Definition padded3 (i : nat) (digits : string) : Prop :=
  all_chars Py.is_digit digits = true
  ∧ Py.int_of_digits digits = Z.of_nat i
  ∧ String.length digits = max 3 (String.length (Py.str (Z.of_nat i))).

(** A section of the parser whose two identifiers pass
    [validate_section_identifier]. *)
Definition ids_accepted (s : Chunking.MdSection) : Prop :=
  Validators.validate_section_identifier (Some (Chunking.section_id s))
    = (true, None)
  ∧ Validators.validate_section_identifier (Chunking.subsection_id s)
    = (true, None).

(** The value of a numeral read after the digits of value [acc]. *)
Definition int_go (acc : Z) (s : string) : Z :=
  fold_left (λ acc c, 10 * acc + Py.digit_val c)%Z
            (String.list_ascii_of_string s) acc.

(** The lines of a chapter that make up the sections: those after the
    first heading that are not headings themselves. *)
Fixpoint body_lines (in_section : bool) (lines : list string) : list string :=
  match lines with
  | [] => []
  | line :: lines =>
      match Chunking.header_match line with
      | Some _ => body_lines true lines
      | None =>
          if in_section then line :: body_lines true lines
          else body_lines false lines
      end
  end.

(** The words read so far by the section parser: those of the sections
    saved and those of the lines of the section being read. *)
Definition words_read (st : Chunking.parse_state) : list string :=
  (Chunking.sections st ≫= λ s, Py.split_ws (Chunking.content s))
  ++ match Chunking.current_section st with
     | Some _ => Chunking.current_content st ≫= Py.split_ws
     | None => []
     end.

Definition is_heading (line : string) : bool :=
  match Chunking.header_match line with Some _ => true | None => false end.

Definition in_section (st : Chunking.parse_state) : bool :=
  match Chunking.current_section st with Some _ => true | None => false end.

(** What a chunk takes from its section. *)
Definition from_section (s : Chunking.MdSection) (file : string)
    (c : Chunking.ChunkMetadata) : Prop :=
  Chunking.chapter c = Chunking.sec_chapter s
  ∧ Chunking.section c = Chunking.section_id s
  ∧ Chunking.subsection c = Chunking.subsection_id s
  ∧ Chunking.url_anchor c = Chunking.sec_url_anchor s
  ∧ Chunking.source_file c = file.

(** What every chunk of a chapter takes from its arguments and from its
    section. *)
Definition chunk_of_chapter `{Tokenizer} (chapter : Z) (file : string)
    (c : Chunking.ChunkMetadata) : Prop :=
  Chunking.chapter c = chapter
  ∧ Chunking.source_file c = file
  ∧ Chunking.token_count c = count_tokens (Chunking.text c)
  ∧ slug (Chunking.url_anchor c)
  ∧ (Chunking.section c = Py.str chapter
     ∨ ∃ k, Chunking.section c = Spec.id_of chapter k).

(** The key that [_extract_citations] would compute for the chunk a
    citation was made from. *)
Definition cit_key `{Score} (cit : Schemas.Citation) : string * Z * string :=
  (Schemas.chunk_id cit, Schemas.chapter cit, Schemas.section cit).

(** The state of the marker loops of [_extract_citations]: every key is
    cited once, the set of keys is the one of the citations made, and each
    citation is the one of a chunk that a marker selects. *)
Definition cite_inv `{Score} (markers : list Agent.marker)
    (chunks : list VectorStore.SearchResult) (st : Agent.cite_state) : Prop :=
  NoDup (cit_key <$> st.2)
  ∧ (∀ k, k ∈ st.1 ↔ k ∈ cit_key <$> st.2)
  ∧ Forall (λ cit, ∃ m c, m ∈ markers ∧ c ∈ chunks
                          ∧ Agent.marker_selects m c = true
                          ∧ cit = Spec.citation_record c) st.2.

End Shape.


(** ** [vector_store.py]: [upsert_chunks]; [ingest_textbook.py] *)

Module Ingest.

(** The values that a chunk dictionary holds. *)
Inductive value `{Vectors} :=
  | VNone
  | VInt (z : Z)
  | VStr (s : string)
  | VVec (v : embedding).

Definition chunk_dict `{Vectors} : Type := gmap string value.

(** The model [PointStruct] of [qdrant_client]. *)
Record PointStruct `{Vectors} := {
  id : value;
  vector : value;
  payload : gmap string value
}.

(** The constructor call [PointStruct(id=..., vector=..., payload=...)]:
    the model is validated, and raises unless [id] is an integer or a
    string and [vector] is a vector. *)
Definition make_PointStruct `{Vectors} (id vector : value)
    (payload : gmap string value) : option PointStruct :=
  match id, vector with
  | VInt _, VVec _ | VStr _, VVec _ =>
      Some {| id := id; vector := vector; payload := payload |}
  | _, _ => None
  end.

Definition required_fields : list string :=
  ["chunk_id"; "text"; "embedding"; "chapter"; "section"; "url_anchor"].

(** [[f for f in required_fields if f not in chunk]]. *)
Definition missing `{Vectors} (chunk : chunk_dict) : list string :=
  filter (λ f, f ∉ dom chunk) required_fields.

(** [chunk.get(key, default)]. *)
Definition get `{Vectors} (chunk : chunk_dict) (key : string)
    (default_value : value) : value :=
  default default_value (chunk !! key).

(** The point built for a chunk; [chunk[key]] raises on a missing key.
    The entries of the chunk that are not required fields come last in the
    payload literal and override the entries before them. *)
Definition point_of `{Vectors} (chunk : chunk_dict) : option PointStruct :=
  chunk_id ← chunk !! "chunk_id";
  embedding ← chunk !! "embedding";
  text ← chunk !! "text";
  chapter ← chunk !! "chapter";
  section ← chunk !! "section";
  url_anchor ← chunk !! "url_anchor";
  make_PointStruct chunk_id embedding
    ((filter (λ kv, kv.1 ∉ required_fields) chunk : gmap string value)
     ∪ list_to_map
         [("text", text); ("chapter", chapter); ("section", section);
          ("subsection", get chunk "subsection" VNone);
          ("url_anchor", url_anchor);
          ("token_count", get chunk "token_count" (VInt 0));
          ("chunk_index", get chunk "chunk_index" (VInt 0));
          ("source_file", get chunk "source_file" (VStr ""))]).

(** [range(i, stop, step)] for a positive step; [fuel] bounds the number
    of elements. *)
Fixpoint range_go (fuel i stop step : nat) : list nat :=
  match fuel with
  | 0 => []
  | S fuel =>
      if i <? stop then i :: range_go fuel (i + step) stop step else []
  end.

(** [range(0, stop, step)]: [ValueError] when the step is zero, empty when
    it is negative. *)
Definition range_step (stop : nat) (step : Z) : option (list nat) :=
  if bool_decide (step = 0)%Z then None
  else if bool_decide (step < 0)%Z then Some []
  else Some (range_go stop 0 stop (Z.to_nat step)).

(** [upsert_chunks]: the batches handed to [client.upsert], in order, when
    the client accepts each of them; [None] when [upsert_chunks] raises
    before it hands a batch to the client. *)
Definition upsert_chunks `{Vectors} (chunks : list chunk_dict)
    (batch_size : Z) : option (list (list PointStruct)) :=
  match chunks with
  | [] => Some []
  | _ =>
      if bool_decide (Forall (λ chunk, missing chunk = []) chunks) then
        points ← mapM point_of chunks;
        starts ← range_step (length points) batch_size;
        Some ((λ i, take (Z.to_nat batch_size) (drop i points)) <$> starts
              : list (list PointStruct))
      else None
  end.

(** The dictionary that [process_chapter] builds for a chunk and its
    embedding. *)
Definition chunk_dict_of `{Vectors} (chunk : Chunking.ChunkMetadata)
    (embedding : embedding) : chunk_dict :=
  list_to_map
    [("chunk_id", VStr (Chunking.chunk_id chunk));
     ("text", VStr (Chunking.text chunk));
     ("embedding", VVec embedding);
     ("chapter", VInt (Chunking.chapter chunk));
     ("section", VStr (Chunking.section chunk));
     ("subsection", from_option VStr VNone (Chunking.subsection chunk));
     ("url_anchor", VStr (Chunking.url_anchor chunk));
     ("token_count", VInt (Z.of_nat (Chunking.token_count chunk)));
     ("chunk_index", VInt (Z.of_nat (Chunking.chunk_index chunk)));
     ("source_file", VStr (Chunking.source_file chunk))].

(** [process_chapter] on the content read from the file;
    [embedding_service.embed_batch] is the method that [embed_texts]
    calls. *)
Definition process_chapter `{Tokenizer, SentenceModel, UuidSource, Embedder}
    (content file_path : string) (chapter_number : option Z)
    : option (list chunk_dict) :=
  chunks ← Chapter.chunk_textbook_chapter content file_path chapter_number;
  embeddings ← embed_texts (Chunking.text <$> chunks);
  Some (zip_with chunk_dict_of chunks embeddings).

(** [upload_chunks]. *)
Definition upload_chunks `{Vectors} (chunks : list chunk_dict)
    : option (list (list PointStruct)) :=
  upsert_chunks chunks 100.

(** The payload stored for a chunk of a chapter. *)
Definition payload_of `{Vectors} (chunk : Chunking.ChunkMetadata) : gmap string value :=
  list_to_map
    [("text", VStr (Chunking.text chunk));
     ("chapter", VInt (Chunking.chapter chunk));
     ("section", VStr (Chunking.section chunk));
     ("subsection", from_option VStr VNone (Chunking.subsection chunk));
     ("url_anchor", VStr (Chunking.url_anchor chunk));
     ("token_count", VInt (Z.of_nat (Chunking.token_count chunk)));
     ("chunk_index", VInt (Z.of_nat (Chunking.chunk_index chunk)));
     ("source_file", VStr (Chunking.source_file chunk))].

End Ingest.

(** * Properties *)

(** ** The string primitives on examples *)

Example split_ws_ex :
  Py.split_ws ("  ab  c." +:+ Py.NL +:+ "d ") = ["ab"; "c."; "d"].
Proof. reflexivity. Qed.

Example strip_ex : Py.strip ("  a b " +:+ Py.NL) = "a b".
Proof. reflexivity. Qed.

Example split_on_ex : Py.split_on "," "a,,b," = ["a"; ""; "b"; ""].
Proof. reflexivity. Qed.

Example re_split_ex :
  Py.re_split_sentences "One.  Two! three? Four. "
  = ["One."; "Two!"; "three?"; "Four."; ""].
Proof. reflexivity. Qed.

Example format_ex :
  (Py.format_03d 0, Py.format_03d 12, Py.format_03d 1234) = ("000", "012", "1234").
Proof. reflexivity. Qed.

Example header_match_ex :
  Chunking.header_match <$> ["## 3.1 Forward "; "#nospace"; "####### seven"; "# "]
  = [Some (2, "3.1 Forward "); None; None; None].
Proof. reflexivity. Qed.

Example find_matches_ex :
  Agent.find_matches "[chapter  012][CHAPTER 4,section 4.1.] [Chapter 3[Chapter 4] [Chapter 3 ]"
  = [("012", None); ("4", Some "4.1."); ("4", None)]
  ∧ Spec.markers "[chapter  012][CHAPTER 4,section 4.1.] [Chapter 3[Chapter 4] [Chapter 3 ]"
    = [(12%Z, None); (4%Z, Some "4.1."); (4%Z, None)].
Proof. split; reflexivity. Qed.

Example int_ex :
  (Py.int "0042", Py.int (Fixture.rep 4300 "7") ≫= (λ _, Some 0%Z),
   Py.int (Fixture.rep 4301 "0"))
  = (Some 42%Z, Some 0%Z, None).
Proof. vm_compute. reflexivity. Qed.


(** ** Strings *)

Section StringFacts.

Lemma str_app_nil_l s : "" +:+ s = s.
Proof. reflexivity. Qed.

Lemma str_app_cons c s t : String c s +:+ t = String c (s +:+ t).
Proof. reflexivity. Qed.

Lemma str_app_nil_r s : s +:+ "" = s.
Proof. induction s as [|c s IH]; [done|]. by rewrite str_app_cons, IH. Qed.

Lemma str_app_assoc s t u : (s +:+ t) +:+ u = s +:+ t +:+ u.
Proof.
  induction s as [|c s IH]; [done|]. by rewrite !str_app_cons, IH.
Qed.

Lemma str_length_app s t :
  String.length (s +:+ t) = String.length s + String.length t.
Proof.
  induction s as [|c s IH]; [done|]. rewrite str_app_cons. simpl. by rewrite IH.
Qed.

Lemma cons_head_app c l k :
  l ≠ [] → Py.cons_head c (l ++ k) = Py.cons_head c l ++ k.
Proof. by destruct l. Qed.

Lemma starts_word_split_ws s : Py.starts_word s = true → Py.split_ws s ≠ [].
Proof.
  destruct s as [|c s]; [done|]. simpl. intros Hc%negb_true_iff.
  rewrite Hc.
  destruct (Py.starts_word s); [|done]. by destruct (Py.split_ws s).
Qed.

Lemma starts_word_app_space s c t :
  Py.is_space c = true → Py.starts_word (s +:+ String c t) = Py.starts_word s.
Proof.
  intros Hc. destruct s as [|d s]; [|done].
  rewrite str_app_nil_l. simpl. by rewrite Hc.
Qed.

(** Words on both sides of a whitespace character do not interact. *)
Lemma split_ws_app_space s c t :
  Py.is_space c = true →
  Py.split_ws (s +:+ String c t) = Py.split_ws s ++ Py.split_ws t.
Proof.
  intros Hc. induction s as [|d s IH].
  - rewrite str_app_nil_l. simpl. by rewrite Hc.
  - rewrite str_app_cons. simpl. rewrite starts_word_app_space, IH by done.
    destruct (Py.is_space d); [done|].
    destruct (Py.starts_word s) eqn:Hs; [|done].
    by rewrite cons_head_app by by apply starts_word_split_ws.
Qed.

Lemma split_ws_sep s t :
  Py.split_ws (s +:+ " " +:+ t) = Py.split_ws s ++ Py.split_ws t.
Proof. exact (split_ws_app_space s " "%char t eq_refl). Qed.

Lemma split_ws_join l :
  Py.split_ws (Py.join " " l) = l ≫= Py.split_ws.
Proof.
  induction l as [|x [|y l] IH]; [done| |].
  - simpl. by rewrite app_nil_r.
  - change (Py.join " " (x :: y :: l)) with (x +:+ String " " (Py.join " " (y :: l))).
    rewrite split_ws_app_space by done. by rewrite IH.
Qed.

Lemma split_ws_words s : Forall Spec.is_word (Py.split_ws s).
Proof.
  induction s as [|c s IH]; [constructor|]. simpl.
  destruct (Py.is_space c) eqn:Hc; [done|].
  destruct (Py.starts_word s) eqn:Hs.
  - destruct (Py.split_ws s) as [|w ws]; simpl.
    + repeat constructor; [done|]. simpl. by rewrite Hc.
    + inversion_clear IH as [|?? [_ Hw] ?]. constructor; [|done].
      split; [done|]. simpl. by rewrite Hc, Hw.
  - constructor; [|done]. split; [done|]. simpl. by rewrite Hc.
Qed.

Lemma split_ws_word w : Spec.is_word w → Py.split_ws w = [w].
Proof.
  intros [Hne Hw]. induction w as [|c w IH]; [done|].
  simpl in *. apply andb_true_iff in Hw as [Hc%negb_true_iff Hw].
  rewrite Hc.
  destruct w as [|d w]; [done|].
  rewrite IH by done.
  simpl in Hw. apply andb_true_iff in Hw as [Hd _].
  simpl. by rewrite Hd.
Qed.

Lemma split_ws_idem l :
  Forall Spec.is_word l → l ≫= Py.split_ws = l.
Proof.
  induction 1 as [|w l Hw _ IH]; [done|].
  csimpl. by rewrite split_ws_word, IH.
Qed.

Lemma join_cons_head c l :
  l ≠ [] → Py.join " " (Py.cons_head c l) = String c (Py.join " " l).
Proof. by destruct l as [|x [|y l]]. Qed.

Lemma cons_head_nonempty c l : Py.cons_head c l ≠ [].
Proof. by destruct l. Qed.

Lemma re_split_go_nonempty st s : Py.re_split_go st s ≠ [].
Proof.
  revert st. induction s as [|c s IH]; intros st; [done|]. simpl.
  repeat case_match; try done; auto using cons_head_nonempty.
Qed.

Lemma split_ws_cons_congr c s t :
  Py.split_ws s = Py.split_ws t → Py.starts_word s = Py.starts_word t →
  Py.split_ws (String c s) = Py.split_ws (String c t).
Proof. intros Hw Hs. simpl. by rewrite Hw, Hs. Qed.

(** The fallback splitter cuts inside whitespace only. *)
Lemma re_split_go_words s :
  (∀ p, Py.split_ws (Py.join " " (Py.re_split_go (Py.Text p) s)) = Py.split_ws s
        ∧ Py.starts_word (Py.join " " (Py.re_split_go (Py.Text p) s))
          = Py.starts_word s)
  ∧ Py.split_ws (Py.join " " (Py.re_split_go Py.Gap s)) = Py.split_ws s.
Proof.
  induction s as [|c s [IHt IHg]]; [done|].
  assert (∀ st, Py.join " " ("" :: Py.re_split_go st s)
                = String " " (Py.join " " (Py.re_split_go st s))) as Hsep.
  { intros st. pose proof (re_split_go_nonempty st s).
    by destruct (Py.re_split_go st s). }
  assert (∀ q, Py.split_ws (Py.join " " (Py.cons_head c (Py.re_split_go (Py.Text q) s)))
               = Py.split_ws (String c s)
             ∧ Py.starts_word (Py.join " " (Py.cons_head c (Py.re_split_go (Py.Text q) s)))
               = Py.starts_word (String c s)) as Hkeep.
  { intros q. rewrite join_cons_head by apply re_split_go_nonempty.
    destruct (IHt q) as [Hw Hs]. split; [|done].
    by apply split_ws_cons_congr. }
  split.
  - intros p. simpl Py.re_split_go.
    destruct (p && Py.is_space c) eqn:Hsp; [|apply Hkeep].
    apply andb_true_iff in Hsp as [_ Hc].
    rewrite Hsep. simpl. by rewrite Hc, IHg.
  - simpl Py.re_split_go.
    destruct (Py.is_space c) eqn:Hc; [|apply Hkeep].
    simpl. by rewrite Hc.
Qed.

Lemma re_split_sentences_words text :
  Py.re_split_sentences text ≫= Py.split_ws = Py.split_ws text.
Proof.
  rewrite <-split_ws_join. apply (re_split_go_words text).
Qed.

(** Removing whitespace. *)
Lemma remove_ws_app s t :
  Spec.remove_ws (s +:+ t) = Spec.remove_ws s +:+ Spec.remove_ws t.
Proof.
  induction s as [|c s IH]; [done|]. rewrite str_app_cons. simpl.
  rewrite IH. by destruct (Py.is_space c).
Qed.

Lemma concat_str_app l k :
  Spec.concat_str (l ++ k) = Spec.concat_str l +:+ Spec.concat_str k.
Proof.
  induction l as [|x l IH]; [done|]. simpl. by rewrite IH, str_app_assoc.
Qed.

Lemma concat_str_cons_head c l :
  l ≠ [] → Spec.concat_str (Py.cons_head c l) = String c (Spec.concat_str l).
Proof. by destruct l. Qed.

Lemma remove_ws_split_ws s :
  Spec.remove_ws s = Spec.concat_str (Py.split_ws s).
Proof.
  induction s as [|c s IH]; [done|]. simpl.
  destruct (Py.is_space c); [done|]. rewrite IH.
  destruct (Py.starts_word s) eqn:Hs; [|done].
  by rewrite concat_str_cons_head by by apply starts_word_split_ws.
Qed.

Lemma remove_ws_concat l :
  Spec.remove_ws (Spec.concat_str l) = Spec.concat_str (l ≫= Py.split_ws).
Proof.
  induction l as [|x l IH]; [done|]. csimpl.
  by rewrite remove_ws_app, concat_str_app, IH, remove_ws_split_ws.
Qed.

(** [split] on a separator distributes over that separator. *)
Lemma split_on_nonempty sep s : Py.split_on sep s ≠ [].
Proof.
  induction s as [|c s IH]; [done|]. simpl.
  case_decide; [done|]. apply cons_head_nonempty.
Qed.

Lemma split_on_app sep s t :
  Py.split_on sep (s +:+ String sep t) = Py.split_on sep s ++ Py.split_on sep t.
Proof.
  induction s as [|c s IH].
  - rewrite str_app_nil_l. simpl. by rewrite decide_True.
  - rewrite str_app_cons. simpl. rewrite IH. case_decide; [done|].
    by rewrite cons_head_app by apply split_on_nonempty.
Qed.

End StringFacts.

(** ** The chunker *)

Section ChunkerFacts.
Import Chunking.
Context `{Tokenizer, SentenceModel, UuidSource}.

Lemma append_joined_words chunks buf :
  append_joined chunks buf ≫= Py.split_ws
  = (chunks ≫= Py.split_ws) ++ (buf ≫= Py.split_ws).
Proof.
  destruct buf as [|x buf]; [by rewrite app_nil_r|].
  unfold append_joined. by rewrite bind_app, bind_singleton, split_ws_join.
Qed.

Lemma pack_words_words max_tokens words : ∀ chunks temp_chunk temp_tokens,
  Forall Spec.is_word temp_chunk → Forall Spec.is_word words →
  let r := pack_words max_tokens words chunks temp_chunk temp_tokens in
  (r.1 ≫= Py.split_ws) ++ r.2 = (chunks ≫= Py.split_ws) ++ temp_chunk ++ words
  ∧ Forall Spec.is_word r.2.
Proof.
  induction words as [|word words IH]; intros chunks temp tok Htemp Hwords.
  { simpl. by rewrite app_nil_r. }
  inversion_clear Hwords as [|?? Hword Hwords'].
  simpl. case_match.
  - destruct (IH (append_joined chunks temp) [word] (count_tokens word))
      as [-> ?]; [by apply Forall_singleton|done|].
    split; [|done].
    by rewrite append_joined_words, (split_ws_idem temp), <-app_assoc.
  - destruct (IH chunks (temp ++ [word]) (tok + count_tokens word))
      as [-> ?]; [by apply Forall_app, conj, Forall_singleton|done|].
    split; [|done]. by rewrite <-app_assoc.
Qed.

Lemma pack_sentences_words max_tokens sentences :
  ∀ chunks current_chunk current_tokens,
  pack_sentences max_tokens sentences chunks current_chunk current_tokens
    ≫= Py.split_ws
  = (chunks ≫= Py.split_ws) ++ (current_chunk ≫= Py.split_ws)
    ++ (sentences ≫= Py.split_ws).
Proof.
  induction sentences as [|sentence sentences IH]; intros chunks cur tok.
  { simpl. by rewrite append_joined_words, app_nil_r. }
  simpl. case_match.
  - destruct (pack_words _ _ _ _ _) as [chunks2 temp] eqn:Hp.
    pose proof (pack_words_words max_tokens (Py.split_ws sentence)
                  (append_joined chunks cur) [] 0 (Forall_nil_2 _)
                  (split_ws_words sentence)) as [Hw Htemp].
    rewrite Hp in Hw, Htemp. simpl in Hw, Htemp.
    rewrite IH, append_joined_words, (split_ws_idem temp), Hw by done.
    rewrite append_joined_words. csimpl. by rewrite <-!app_assoc.
  - case_match.
    + rewrite IH, append_joined_words. csimpl.
      by rewrite app_nil_r, <-!app_assoc.
    + rewrite IH, bind_app. csimpl. by rewrite app_nil_r, <-!app_assoc.
Qed.

Lemma merge_loop_words section source_file chunk_texts : ∀ idx chunks,
  (text <$> merge_loop section source_file idx chunk_texts chunks)
    ≫= Py.split_ws
  = ((text <$> chunks) ≫= Py.split_ws) ++ (chunk_texts ≫= Py.split_ws).
Proof.
  induction chunk_texts as [|chunk_text chunk_texts IH]; intros idx chunks.
  { simpl. by rewrite app_nil_r. }
  assert (∀ l : list ChunkMetadata, ∀ t n i d,
    (text <$> l ++ [new_chunk d section source_file t n i]) ≫= Py.split_ws
    = ((text <$> l) ≫= Py.split_ws) ++ Py.split_ws t) as Happ.
  { intros. rewrite fmap_app, bind_app. csimpl. by rewrite app_nil_r. }
  simpl. rewrite IH. csimpl. rewrite app_assoc. f_equal.
  case_match; [|apply Happ].
  destruct (last chunks) as [prev|] eqn:Hlast; [|apply Happ].
  case_match; [|apply Happ].
  apply last_Some in Hlast as [l ->].
  rewrite removelast_last, !fmap_app, !bind_app. csimpl.
  by rewrite !app_nil_r, split_ws_sep, <-app_assoc.
Qed.

(** The passages of a section carry the words of the section, in order. *)
Lemma chunk_section_words section source_file :
  (∀ sents, nlp = Some sents → ∀ t, sents t ≫= Py.split_ws = Py.split_ws t) →
  (text <$> chunk_section section source_file) ≫= Py.split_ws
  = Py.split_ws (content section).
Proof.
  intros Hnlp. unfold chunk_section. case_match.
  { csimpl. by rewrite app_nil_r. }
  rewrite merge_loop_words. unfold split_text_by_sentences.
  rewrite pack_sentences_words. csimpl.
  unfold sentences_of. destruct nlp as [sents|] eqn:Hs.
  - by apply Hnlp.
  - apply re_split_sentences_words.
Qed.

(** Every passage records the token count of its own text. *)
Lemma merge_loop_token_count section source_file chunk_texts : ∀ idx chunks,
  Forall (λ c, token_count c = count_tokens (text c)) chunks →
  Forall (λ c, token_count c = count_tokens (text c))
         (merge_loop section source_file idx chunk_texts chunks).
Proof.
  induction chunk_texts as [|chunk_text chunk_texts IH]; intros idx chunks Hc;
    [done|].
  simpl. apply IH.
  assert (∀ d i, Forall (λ c, token_count c = count_tokens (text c))
    (chunks ++ [new_chunk d section source_file chunk_text
                          (count_tokens chunk_text) i])) as Happ.
  { intros. apply Forall_app. by repeat constructor. }
  case_match; [|apply Happ].
  destruct (last chunks) as [prev|] eqn:Hlast; [|apply Happ].
  case_match; [|apply Happ].
  apply last_Some in Hlast as [l ->]. rewrite removelast_last.
  apply Forall_app in Hc as [Hl _]. apply Forall_app. by repeat constructor.
Qed.

Lemma chunk_section_token_count section source_file :
  Forall (λ c, token_count c = count_tokens (text c))
         (chunk_section section source_file).
Proof.
  unfold chunk_section. case_match; [by repeat constructor|].
  by apply merge_loop_token_count.
Qed.

(** A text without whitespace is one sentence for the fallback splitter. *)
Lemma re_split_go_word p s :
  Spec.no_space s = true → Py.re_split_go (Py.Text p) s = [s].
Proof.
  revert p. induction s as [|c s IH]; intros p Hs; [done|].
  simpl in *. apply andb_true_iff in Hs as [Hc%negb_true_iff Hs].
  by rewrite Hc, andb_false_r, IH.
Qed.

(** A section that is one word with more tokens than the ceiling comes out
    as one passage with all these tokens. *)
Lemma chunk_section_oversized_word section source_file :
  sentences_of (content section) = [content section] →
  Spec.is_word (content section) →
  MAX_CHUNK_TOKENS < count_tokens (content section) →
  text <$> chunk_section section source_file = [content section]
  ∧ token_count <$> chunk_section section source_file
    = [count_tokens (content section)].
Proof.
  intros Hsent Hword Hlong. unfold chunk_section, split_text_by_sentences.
  rewrite (proj2 (Nat.leb_gt _ _)) by done. rewrite Hsent. simpl.
  rewrite (proj2 (Nat.ltb_lt _ _)) by done.
  rewrite split_ws_word by done. simpl.
  rewrite (proj2 (Nat.ltb_lt _ _)) by done. simpl.
  by rewrite andb_false_r.
Qed.

Lemma merge_refused_snoc l x :
  Spec.merge_refused (l ++ [x]) ↔
  Spec.merge_refused l
  ∧ ∀ p, last l = Some p →
      token_count x < MIN_CHUNK_TOKENS →
      MAX_CHUNK_TOKENS < count_tokens (text p +:+ " " +:+ text x).
Proof.
  induction l as [|a [|b l] IH].
  - simpl. split; [|done]. intros _. split; [done|]. by intros p [=].
  - simpl. split.
    + intros [Hax _]. split; [done|]. by intros p [= <-].
    + intros [_ Hp]. split; [|done]. by apply Hp.
  - change (Spec.merge_refused ((a :: b :: l) ++ [x]))
      with ((token_count b < MIN_CHUNK_TOKENS →
             MAX_CHUNK_TOKENS < count_tokens (text a +:+ " " +:+ text b))
            ∧ Spec.merge_refused ((b :: l) ++ [x])).
    rewrite IH.
    change (Spec.merge_refused (a :: b :: l))
      with ((token_count b < MIN_CHUNK_TOKENS →
             MAX_CHUNK_TOKENS < count_tokens (text a +:+ " " +:+ text b))
            ∧ Spec.merge_refused (b :: l)).
    change (last (a :: b :: l)) with (last (b :: l)). tauto.
Qed.

Lemma merge_refused_lookup l i p c :
  Spec.merge_refused l → l !! i = Some p → l !! S i = Some c →
  token_count c < MIN_CHUNK_TOKENS →
  MAX_CHUNK_TOKENS < count_tokens (text p +:+ " " +:+ text c).
Proof.
  revert i. induction l as [|a [|b l] IH]; intros i Hl Hp Hc; [done..|].
  destruct i as [|i].
  - simpl in Hp, Hc. simplify_eq. apply Hl.
  - apply (IH i); [apply Hl|done..].
Qed.

Section Additive.
(** The tokenizer treats the two sides of a space separately. *)
Hypothesis count_tokens_space : ∀ a b,
  count_tokens (a +:+ " " +:+ b) = count_tokens a + count_tokens b.

Lemma merge_loop_refused section source_file chunk_texts : ∀ idx chunks,
  (idx = 0 → chunks = []) →
  Forall (λ c, token_count c = count_tokens (text c)) chunks →
  Spec.merge_refused chunks →
  Spec.merge_refused (merge_loop section source_file idx chunk_texts chunks).
Proof.
  induction chunk_texts as [|chunk_text chunk_texts IH];
    intros idx chunks Hidx Htok Hinv; [done|].
  simpl.
  pose proof (merge_loop_token_count section source_file [chunk_text]
                idx chunks Htok) as Htok'.
  simpl in Htok'. apply IH; [done|done|].
  destruct (count_tokens chunk_text <? MIN_CHUNK_TOKENS) eqn:Hsmall.
  2:{ simpl. apply merge_refused_snoc. split; [done|].
      intros p _. simpl. apply Nat.ltb_ge in Hsmall. lia. }
  destruct idx as [|idx].
  { simpl. rewrite Hidx by done. simpl. done. }
  simpl. destruct (last chunks) as [prev|] eqn:Hlast.
  2:{ apply merge_refused_snoc. split; [done|]. by rewrite Hlast. }
  destruct (_ <=? MAX_CHUNK_TOKENS) eqn:Hfit.
  2:{ apply merge_refused_snoc. split; [done|].
      rewrite Hlast. intros ? [= <-] _. simpl.
      apply Nat.leb_gt in Hfit. done. }
  apply last_Some in Hlast as [l ->]. rewrite removelast_last.
  apply merge_refused_snoc in Hinv as [Hl Hprev].
  apply merge_refused_snoc. split; [done|].
  intros q Hq. simpl. intros Hlow.
  apply Forall_app in Htok as [_ Hp]. inversion_clear Hp as [|?? Hp' _].
  rewrite !count_tokens_space in *.
  specialize (Hprev q Hq). rewrite count_tokens_space in Hprev. lia.
Qed.

Lemma chunk_section_refused section source_file :
  Spec.merge_refused (chunk_section section source_file).
Proof.
  unfold chunk_section. case_match; [done|].
  by apply merge_loop_refused.
Qed.
End Additive.

End ChunkerFacts.

(** *** The token ceiling when no single word exceeds it *)

Section TokenCeiling.
Import Chunking.
Context `{Tokenizer, SentenceModel, UuidSource}.

Hypothesis count_tokens_space : ∀ a b,
  count_tokens (a +:+ " " +:+ b) = count_tokens a + count_tokens b.

Lemma count_tokens_join x l :
  count_tokens (Py.join " " (x :: l)) = sum_list_with count_tokens (x :: l).
Proof.
  revert x. induction l as [|y l IH]; intros x; [simpl; lia|].
  change (Py.join " " (x :: y :: l)) with (x +:+ " " +:+ Py.join " " (y :: l)).
  rewrite count_tokens_space, IH. done.
Qed.

Lemma append_joined_bound max_tokens chunks buf :
  Forall (λ t, count_tokens t ≤ max_tokens) chunks →
  sum_list_with count_tokens buf ≤ max_tokens →
  Forall (λ t, count_tokens t ≤ max_tokens) (append_joined chunks buf).
Proof.
  intros Hc Hb. destruct buf as [|x buf]; [done|].
  apply Forall_app. split; [done|]. apply Forall_singleton.
  by rewrite count_tokens_join.
Qed.

Lemma pack_words_bound max_tokens words : ∀ chunks temp_chunk temp_tokens,
  Forall (λ w, count_tokens w ≤ max_tokens) words →
  Forall (λ t, count_tokens t ≤ max_tokens) chunks →
  temp_tokens = sum_list_with count_tokens temp_chunk →
  temp_tokens ≤ max_tokens →
  let r := pack_words max_tokens words chunks temp_chunk temp_tokens in
  Forall (λ t, count_tokens t ≤ max_tokens) r.1
  ∧ sum_list_with count_tokens r.2 ≤ max_tokens.
Proof.
  induction words as [|word words IH]; intros chunks temp tok Hw Hc Htok Hle.
  { simpl. split; [done|]. by rewrite <-Htok. }
  inversion_clear Hw as [|?? Hword Hwords]. simpl.
  destruct (max_tokens <? tok + count_tokens word) eqn:Hover.
  - apply IH; [done| |simpl; lia|done].
    apply append_joined_bound; [done|]. by rewrite <-Htok.
  - apply Nat.ltb_ge in Hover. apply IH; [done|done| |done].
    rewrite sum_list_with_app. simpl. lia.
Qed.

Lemma pack_sentences_bound max_tokens sentences :
  ∀ chunks current_chunk current_tokens,
  Forall (λ s, Forall (λ w, count_tokens w ≤ max_tokens) (Py.split_ws s))
         sentences →
  Forall (λ t, count_tokens t ≤ max_tokens) chunks →
  current_tokens = sum_list_with count_tokens current_chunk →
  current_tokens ≤ max_tokens →
  Forall (λ t, count_tokens t ≤ max_tokens)
         (pack_sentences max_tokens sentences chunks current_chunk
                         current_tokens).
Proof.
  induction sentences as [|sentence sentences IH];
    intros chunks cur tok Hs Hc Htok Hle.
  { simpl. apply append_joined_bound; [done|]. by rewrite <-Htok. }
  inversion_clear Hs as [|?? Hsent Hsents]. simpl.
  destruct (max_tokens <? count_tokens sentence) eqn:Hlong.
  - destruct (pack_words _ _ _ _ _) as [chunks2 temp] eqn:Hp.
    pose proof (pack_words_bound max_tokens (Py.split_ws sentence)
                  (append_joined chunks cur) [] 0 Hsent) as Hpw.
    rewrite Hp in Hpw. simpl in Hpw.
    destruct Hpw as [Hc2 Htemp]; [|done|lia|].
    { apply append_joined_bound; [done|]. by rewrite <-Htok. }
    apply IH; [done| | |].
    + by apply append_joined_bound.
    + destruct cur; [by subst|done].
    + destruct cur; [done|lia].
  - apply Nat.ltb_ge in Hlong.
    destruct (max_tokens <? tok + count_tokens sentence) eqn:Hover.
    + apply IH; [done| |simpl; lia|done].
      apply append_joined_bound; [done|]. by rewrite <-Htok.
    + apply Nat.ltb_ge in Hover. apply IH; [done|done| |done].
      rewrite sum_list_with_app. simpl. lia.
Qed.

Lemma merge_loop_bound section source_file chunk_texts : ∀ idx chunks,
  Forall (λ t, count_tokens t ≤ MAX_CHUNK_TOKENS) chunk_texts →
  Forall (λ c, token_count c ≤ MAX_CHUNK_TOKENS) chunks →
  Forall (λ c, token_count c ≤ MAX_CHUNK_TOKENS)
         (merge_loop section source_file idx chunk_texts chunks).
Proof.
  induction chunk_texts as [|chunk_text chunk_texts IH];
    intros idx chunks Ht Hc; [done|].
  inversion_clear Ht as [|?? Htext Htexts]. simpl. apply IH; [done|].
  assert (∀ d i, Forall (λ c, token_count c ≤ MAX_CHUNK_TOKENS)
    (chunks ++ [new_chunk d section source_file chunk_text
                          (count_tokens chunk_text) i])) as Happ.
  { intros. apply Forall_app. split; [done|]. by apply Forall_singleton. }
  case_match; [|apply Happ].
  destruct (last chunks) as [prev|] eqn:Hlast; [|apply Happ].
  destruct (_ <=? MAX_CHUNK_TOKENS) eqn:Hfit; [|apply Happ].
  apply last_Some in Hlast as [l ->]. rewrite removelast_last.
  apply Forall_app in Hc as [Hl _]. apply Forall_app. split; [done|].
  apply Forall_singleton. simpl. by apply Nat.leb_le.
Qed.

(** Under an additive tokenizer, the ceiling holds for every passage as
    soon as no whitespace-free word of a sentence exceeds it by itself. *)
Lemma chunk_section_token_bound section source_file :
  Forall (λ s, Forall (λ w, count_tokens w ≤ MAX_CHUNK_TOKENS) (Py.split_ws s))
         (sentences_of (content section)) →
  Forall (λ c, token_count c ≤ MAX_CHUNK_TOKENS)
         (chunk_section section source_file).
Proof.
  intros Hwords. unfold chunk_section.
  destruct (_ <=? MAX_CHUNK_TOKENS) eqn:Hfit.
  { apply Forall_singleton. simpl. by apply Nat.leb_le. }
  apply merge_loop_bound; [|done].
  apply pack_sentences_bound; [done|done|done|lia].
Qed.

End TokenCeiling.

(** ** The example tokenizer *)

Lemma simple_count_space w a b :
  Fixture.simple_count w (a +:+ " " +:+ b)
  = Fixture.simple_count w a + Fixture.simple_count false b.
Proof.
  revert w. induction a as [|c a IH]; intros w; [done|].
  rewrite str_app_cons. simpl. rewrite !IH.
  destruct (Py.is_space c), (Fixture.is_alnum c), w; lia.
Qed.

(** ** Passages of a section *)

(** C1: the bound [token_count <= 512] is not kept when one whitespace-free
    word alone has more than 512 tokens: the word-level split starts a new
    buffer with the word whatever its size, and the section made of a rule
    of 513 hyphens comes out as one passage of 513 tokens. *)
Theorem C1_oversized_word_passage :
  let out := @Chunking.chunk_section Fixture.simple_tokenizer Fixture.no_spacy
               Fixture.counting_uuid
               (Fixture.section_with Fixture.long_rule) "chapter-3.md" in
  Chunking.text <$> out = [Fixture.long_rule]
  ∧ Chunking.token_count <$> out = [513]
  ∧ ¬ Forall (λ c, Chunking.token_count c ≤ Chunking.MAX_CHUNK_TOKENS) out.
Proof.
  set (out := Chunking.chunk_section _ _).
  assert (Chunking.token_count <$> out = [513]) as Htok by (vm_compute; reflexivity).
  split; [vm_compute; reflexivity|]. split; [done|]. clearbody out.
  destruct out as [|c [|]]; try discriminate Htok. injection Htok as Hc.
  intros Hall%Forall_inv.
  rewrite Hc in Hall. unfold Chunking.MAX_CHUNK_TOKENS in Hall. lia.
Qed.

(** ** What the chunker keeps of a section *)

Section SplitterFacts.
Import Chunking.
Context `{Tokenizer, SentenceModel, UuidSource}.

(** The words of the passages are those of the content, or of the
    sentences that the content was split into. *)
Lemma chunk_section_sentences section source_file :
  (text <$> chunk_section section source_file) ≫= Py.split_ws
  = if count_tokens (content section) <=? MAX_CHUNK_TOKENS
    then Py.split_ws (content section)
    else sentences_of (content section) ≫= Py.split_ws.
Proof.
  unfold chunk_section. case_match.
  { csimpl. by rewrite app_nil_r. }
  rewrite merge_loop_words. unfold split_text_by_sentences.
  by rewrite pack_sentences_words.
Qed.

Lemma drop_prefix_Some p : ∀ text rest,
  Spec.drop_prefix p text = Some rest → text = p +:+ rest.
Proof.
  induction p as [|a p IH]; intros text rest.
  - destruct text; by intros [= <-].
  - destruct text as [|b text]; [done|]. simpl.
    case_decide as Hab; [|done]. intros Hp%IH. by subst.
Qed.

Lemma after_sentence_Some sent : ∀ t rest,
  Spec.after_sentence sent t = Some rest →
  ∃ gap, Spec.remove_ws gap = "" ∧ t = gap +:+ sent +:+ rest.
Proof.
  induction t as [|c t IH]; intros rest.
  - simpl. destruct (Spec.drop_prefix sent "") as [r|] eqn:Hp; [|done].
    intros [= <-]. exists "". split; [done|].
      rewrite str_app_nil_l. by apply drop_prefix_Some.
  - change (Spec.after_sentence sent (String c t))
      with (match Spec.drop_prefix sent (String c t) with
            | Some rest => Some rest
            | None => if Py.is_space c then Spec.after_sentence sent t
                      else None
            end).
    destruct (Spec.drop_prefix sent (String c t)) as [r|] eqn:Hp.
    + intros [= <-]. exists "". split; [done|].
      rewrite str_app_nil_l. by apply drop_prefix_Some.
    + destruct (Py.is_space c) eqn:Hc; [|done].
      intros (gap & Hgap & ->)%IH. exists (String c gap).
      split; [simpl; by rewrite Hc|by rewrite str_app_cons].
Qed.

Lemma pieces_test_pieces sents : ∀ text,
  Spec.pieces_test text sents = true → Spec.pieces text sents.
Proof.
  induction sents as [|sent sents IH]; intros text; simpl.
  - intros Ht%bool_decide_eq_true. by constructor.
  - destruct (Spec.after_sentence sent text) as [rest|] eqn:Ha; [|done].
    intros Hrest%IH.
    apply after_sentence_Some in Ha as (gap & Hgap & ->). by constructor.
Qed.

Lemma pieces_remove_ws text sents :
  Spec.pieces text sents →
  Spec.remove_ws (Spec.concat_str sents) = Spec.remove_ws text.
Proof.
  induction 1 as [gap Hgap|gap sent rest sents Hgap _ IH]; [done|].
  simpl. by rewrite !remove_ws_app, Hgap, IH, str_app_nil_l.
Qed.

Lemma sentences_of_fallback text :
  nlp = None → sentences_of text ≫= Py.split_ws = Py.split_ws text.
Proof.
  intros Hnlp. unfold sentences_of. rewrite Hnlp.
  apply re_split_sentences_words.
Qed.

(** The sentences of a content have its characters other than
    whitespace. *)
Lemma sentences_of_chars text :
  (∀ sents, nlp = Some sents → Spec.pieces text (sents text)) →
  Spec.remove_ws (Spec.concat_str (sentences_of text)) = Spec.remove_ws text.
Proof.
  intros Hlaw. destruct nlp as [sents|] eqn:Hnlp.
  - unfold sentences_of. rewrite Hnlp. by apply pieces_remove_ws, Hlaw.
  - by rewrite remove_ws_concat, sentences_of_fallback, remove_ws_split_ws.
Qed.

End SplitterFacts.

(** C2: for a section whose content has at least one non-whitespace
    character, [chunk_section] returns at least one passage, and the
    passages put together carry the content up to whitespace:
    concatenated, they agree with the content once whitespace is removed.
    Joined by a space they also split into the same sequence of words when
    the sentences do, as those of the fallback splitter always do; the
    chunker itself never cuts or joins words.  The spaCy model, when it is
    loaded, is taken to return pieces of the content with only whitespace
    besides them in the content. *)
Theorem C2_passages_keep_every_word `{Tokenizer, SentenceModel, UuidSource}
    (section : Chunking.MdSection) (source_file : string) :
  Py.split_ws (Chunking.content section) ≠ [] →
  (∀ sents, nlp = Some sents →
     Spec.pieces (Chunking.content section) (sents (Chunking.content section))) →
  let out := Chunking.chunk_section section source_file in
  out ≠ []
  ∧ Spec.remove_ws (Spec.concat_str (Chunking.text <$> out))
    = Spec.remove_ws (Chunking.content section)
  ∧ (Chunking.sentences_of (Chunking.content section) ≫= Py.split_ws
       = Py.split_ws (Chunking.content section) →
     Py.split_ws (Py.join " " (Chunking.text <$> out))
     = Py.split_ws (Chunking.content section))
  ∧ (nlp = None →
     Py.split_ws (Py.join " " (Chunking.text <$> out))
     = Py.split_ws (Chunking.content section)).
Proof.
  intros Hne Hlaw out.
  pose proof (chunk_section_sentences section source_file) as Hw.
  fold out in Hw.
  assert (Spec.remove_ws (Spec.concat_str (Chunking.text <$> out))
          = Spec.remove_ws (Chunking.content section)) as Hchars.
  { rewrite remove_ws_concat, Hw. case_match.
    - by rewrite remove_ws_split_ws.
    - by rewrite <-remove_ws_concat, sentences_of_chars. }
  assert (Chunking.sentences_of (Chunking.content section) ≫= Py.split_ws
            = Py.split_ws (Chunking.content section) →
          Py.split_ws (Py.join " " (Chunking.text <$> out))
          = Py.split_ws (Chunking.content section)) as Hwords.
  { intros Hs. rewrite split_ws_join, Hw, Hs. by case_match. }
  split; [|split; [done|split; [done|]]].
  - intros Hout. rewrite Hout in Hchars. simpl in Hchars.
    rewrite remove_ws_split_ws in Hchars.
    destruct (Py.split_ws (Chunking.content section)) as [|w ws] eqn:Hc;
      [done|].
    pose proof (split_ws_words (Chunking.content section)) as Hall.
    rewrite Hc in Hall. apply Forall_cons in Hall as [[Hw0 _] _].
    destruct w; [done|]. done.
  - intros Hnlp. apply Hwords. by apply sentences_of_fallback.
Qed.

Lemma C2_passages_keep_every_word_witness :
  let out := @Chunking.chunk_section Fixture.simple_tokenizer Fixture.stop_cut
               Fixture.counting_uuid
               (Fixture.section_with Fixture.glued) "chapter-3.md" in
  length out = 4
  ∧ out ≠ []
  ∧ Spec.remove_ws (Spec.concat_str (Chunking.text <$> out))
    = Spec.remove_ws Fixture.glued.
Proof.
  intros out. split; [by vm_compute|].
  destruct (@C2_passages_keep_every_word Fixture.simple_tokenizer
              Fixture.stop_cut Fixture.counting_uuid
              (Fixture.section_with Fixture.glued) "chapter-3.md")
    as (Hout & Hchars & _).
  - vm_compute. discriminate.
  - intros sents [= <-]. apply pieces_test_pieces. by vm_compute.
  - split; [exact Hout|exact Hchars].
Defined.

(** With that sentence model the words "Stop.Go" of the content are cut
    in two, and with the fallback splitter they are not. *)
Example chunk_section_cut_in_word :
  let words nlp :=
    take 3 (Py.split_ws (Py.join " "
      (Chunking.text <$> @Chunking.chunk_section Fixture.simple_tokenizer nlp
                           Fixture.counting_uuid
                           (Fixture.section_with Fixture.glued) "chapter-3.md"))) in
  words Fixture.stop_cut = ["Stop."; "Go"; "on."]
  ∧ words Fixture.no_spacy = ["Stop.Go"; "on."; "a"].
Proof. vm_compute. done. Qed.

(** C3, as the code has it: a passage that follows another one and stays
    below [min_tokens] is one whose merge into its predecessor was refused,
    the merged text having more than [max_tokens] tokens.  Such a passage
    may stand anywhere after the first; the first passage is never merged.
    The tokenizer is assumed to count the two sides of a space separately. *)
Theorem C3_undersized_after_refused_merge `{Tokenizer, SentenceModel, UuidSource}
    (section : Chunking.MdSection) (source_file : string) (i : nat)
    (p c : Chunking.ChunkMetadata) :
  (∀ a b, count_tokens (a +:+ " " +:+ b) = count_tokens a + count_tokens b) →
  let out := Chunking.chunk_section section source_file in
  out !! i = Some p → out !! S i = Some c →
  Chunking.token_count c < Chunking.MIN_CHUNK_TOKENS →
  Chunking.token_count c = count_tokens (Chunking.text c)
  ∧ Chunking.MAX_CHUNK_TOKENS
    < count_tokens (Chunking.text p +:+ " " +:+ Chunking.text c).
Proof.
  intros Hadd out Hp Hc Hlow. split.
  - pose proof (chunk_section_token_count section source_file) as Htok.
    by eapply Forall_lookup_1 in Htok.
  - eapply merge_refused_lookup; [|done..].
    by apply chunk_section_refused.
Qed.

Lemma C3_undersized_after_refused_merge_witness :
  let out := @Chunking.chunk_section Fixture.simple_tokenizer Fixture.no_spacy
               Fixture.counting_uuid
               (Fixture.section_with Fixture.run_on) "chapter-3.md" in
  ∃ p c, out !! 0 = Some p ∧ out !! 1 = Some c
    ∧ Chunking.token_count c < Chunking.MIN_CHUNK_TOKENS
    ∧ Chunking.MAX_CHUNK_TOKENS
      < Fixture.simple_count false (Chunking.text p +:+ " " +:+ Chunking.text c).
Proof.
  intros out.
  destruct out as [|p [|c l]] eqn:Hout; [vm_compute in Hout; discriminate..|].
  assert (Chunking.token_count c = 4) as Hc.
  { assert (Chunking.token_count <$> out = [512; 4; 511]) as Htok
      by (vm_compute; reflexivity).
    rewrite Hout in Htok. by injection Htok. }
  exists p, c. split; [done|]. split; [done|].
  split; [rewrite Hc; unfold Chunking.MIN_CHUNK_TOKENS; lia|].
  refine (proj2 (@C3_undersized_after_refused_merge Fixture.simple_tokenizer
                   Fixture.no_spacy Fixture.counting_uuid
                   (Fixture.section_with Fixture.run_on) "chapter-3.md" 0 p c
                   (simple_count_space false) _ _ _)).
  - fold out. by rewrite Hout.
  - fold out. by rewrite Hout.
  - rewrite Hc. unfold Chunking.MIN_CHUNK_TOKENS. lia.
Defined.

Lemma C3_counterexample :
  ¬ Spec.floor_except_last
      (@Chunking.chunk_section Fixture.simple_tokenizer Fixture.no_spacy
         Fixture.counting_uuid
         (Fixture.section_with Fixture.short_then_long) "chapter-3.md").
Proof.
  set (out := Chunking.chunk_section _ _). intros Hfloor.
  assert (Chunking.token_count <$> out = [2; 511]) as Htok
    by (vm_compute; reflexivity).
  clearbody out. destruct out as [|c [|d [|]]]; try discriminate Htok.
  injection Htok as Hc _.
  specialize (Hfloor 0 c). simpl in Hfloor.
  unfold Chunking.MIN_CHUNK_TOKENS in Hfloor.
  specialize (Hfloor ltac:(lia) eq_refl). lia.
Qed.

(** C4: [chunk_index] is the position of the text in the list before the
    merge pass, and it is not renumbered: after the merge of the short
    sentence of the example into the passage before it, the three passages
    carry the indices 0, 1, 3. *)
Theorem C4_index_gap_after_merge :
  let out := @Chunking.chunk_section Fixture.simple_tokenizer Fixture.no_spacy
               Fixture.counting_uuid
               (Fixture.section_with Fixture.run_on) "chapter-3.md" in
  Chunking.token_count <$> out = [512; 4; 511]
  ∧ Chunking.chunk_index <$> out = [0; 1; 3]
  ∧ ¬ Spec.contiguous_index out.
Proof.
  set (out := Chunking.chunk_section _ _).
  assert (Chunking.chunk_index <$> out = [0; 1; 3]) as Hidx
    by (vm_compute; reflexivity).
  split; [vm_compute; reflexivity|]. split; [done|].
  intros Hcont. clearbody out.
  destruct out as [|a [|b [|c [|]]]]; try discriminate Hidx.
  injection Hidx as _ _ Hc.
  specialize (Hcont 2 c eq_refl). lia.
Qed.

(** ** The section parser *)

Section ParserFacts.
Import Chunking.
Context `{AnchorMaker}.

Lemma parse_lines_app chapter st l k :
  parse_lines chapter st (l ++ k)
  = parse_lines chapter (parse_lines chapter st l) k.
Proof. apply foldl_app. Qed.

(** Lines read before the first heading leave the state untouched. *)
Lemma parse_lines_before_heading chapter st lines :
  current_section st = None →
  Forall (λ l, header_match l = None) lines →
  parse_lines chapter st lines = st.
Proof.
  intros Hcur. induction 1 as [|line lines Hline _ IH]; [done|].
  unfold parse_lines. simpl. unfold parse_line at 2.
  by rewrite Hline, Hcur.
Qed.

Lemma split_lines_app pre rest :
  Py.split_on "010" (pre +:+ Py.NL +:+ rest)
  = Py.split_on "010" pre ++ Py.split_on "010" rest.
Proof. apply split_on_app. Qed.

(** *** Counters *)



(** *** Level-2 identifiers *)






Lemma header_match_level line lvl g :
  header_match line = Some (lvl, g) → 1 ≤ lvl ≤ 6.
Proof.
  unfold header_match. destruct (span_hashes line) as [h rest].
  case_match eqn:Hc; [|done]. intros [= <- _].
  apply andb_true_iff in Hc as [Hc _]. apply andb_true_iff in Hc as [Hc _].
  by apply bool_decide_eq_true in Hc.
Qed.

Lemma parse_line_body chapter st line :
  header_match line = None →
  Spec.pending (parse_line chapter st line) = Spec.pending st
  ∧ section_counters (parse_line chapter st line) = section_counters st.
Proof.
  intros Hm. unfold parse_line, Spec.pending. rewrite Hm.
  destruct (current_section st) eqn:Hcur; simpl; by rewrite ?Hcur.
Qed.






(** *** The form of the identifiers *)

Lemma save_section_Forall (P : MdSection → Prop) secs cur cc :
  (∀ s c, P s → P (set_content s c)) →
  Forall P secs → (∀ s, cur = Some s → P s) →
  Forall P (save_section secs cur cc).
Proof.
  intros Hset Hsecs Hcur. unfold save_section.
  destruct cur as [cur|]; [|done]. case_decide; [done|].
  apply Forall_app. split; [done|]. apply Forall_singleton. auto.
Qed.

Lemma new_section_id_form chapter lvl ttl (m : gmap nat nat) :
  Spec.id_form chapter (new_section chapter lvl ttl m).
Proof.
  unfold Spec.id_form. simpl. case_decide; [done|]. by eexists.
Qed.


End ParserFacts.

(** *** A level-1 heading starts afresh *)

Section FamilyFacts.
Import Chunking.
Context `{AnchorMaker}.











End FamilyFacts.




(** C10: the lines that come before the first heading line are dropped:
    the sections parsed from a text are those parsed from what follows
    these lines, and a text without any heading line gives no section.
    The parser is a total function, so nothing is raised. *)
Theorem C10_lines_before_first_heading_dropped `{AnchorMaker}
    (pre rest : string) (chapter : Z) (source_file : string) :
  Forall (λ l, Chunking.header_match l = None) (Py.split_on "010" pre) →
  Chunking.parse_markdown_sections (pre +:+ Py.NL +:+ rest) chapter source_file
  = Chunking.parse_markdown_sections rest chapter source_file
  ∧ Chunking.parse_markdown_sections pre chapter source_file = [].
Proof.
  intros Hpre. unfold Chunking.parse_markdown_sections.
  rewrite split_lines_app, parse_lines_app.
  by rewrite (parse_lines_before_heading chapter Chunking.initial_state
                (Py.split_on "010" pre)).
Qed.

Lemma C10_lines_before_first_heading_dropped_witness :
  @Chunking.parse_markdown_sections Fixture.plain_anchor
     (Fixture.front_matter +:+ Py.NL +:+ Fixture.two_parts) 3 "chapter-3.md"
  = @Chunking.parse_markdown_sections Fixture.plain_anchor
      Fixture.two_parts 3 "chapter-3.md"
  ∧ @Chunking.parse_markdown_sections Fixture.plain_anchor
      Fixture.front_matter 3 "chapter-3.md" = [].
Proof.
  apply (@C10_lines_before_first_heading_dropped Fixture.plain_anchor).
  vm_compute. repeat constructor.
Defined.

(** *** Parsed sections are not blank *)

Section NonBlank.
Import Chunking.
Context `{AnchorMaker}.

Lemma split_ws_nil_rstrip s : Py.split_ws s = [] → Py.rstrip s = "".
Proof.
  induction s as [|c s IH]; [done|]. simpl.
  destruct (Py.is_space c) eqn:Hc.
  - intros Hs. by rewrite IH.
  - destruct (Py.starts_word s); [|done]. by destruct (Py.split_ws s).
Qed.

Lemma rstrip_idem s : Py.rstrip (Py.rstrip s) = Py.rstrip s.
Proof.
  induction s as [|c s IH]; [done|]. simpl.
  destruct (Py.rstrip s) as [|d r] eqn:Hr.
  - destruct (Py.is_space c) eqn:Hc; [done|]. simpl. by rewrite Hc.
  - simpl in *. by rewrite IH.
Qed.

Lemma strip_has_word s : Py.strip s ≠ "" → Py.split_ws (Py.strip s) ≠ [].
Proof.
  unfold Py.strip. intros Hne Hw. apply Hne.
  apply split_ws_nil_rstrip in Hw. by rewrite rstrip_idem in Hw.
Qed.

Lemma save_section_nonblank secs cur cc :
  Forall (λ s, Py.split_ws (content s) ≠ []) secs →
  Forall (λ s, Py.split_ws (content s) ≠ []) (save_section secs cur cc).
Proof.
  intros Hs. unfold save_section. destruct cur as [cur|]; [|done].
  case_decide as Hc; [done|]. apply Forall_app. split; [done|].
  apply Forall_singleton. simpl. by apply strip_has_word.
Qed.

Lemma parse_lines_nonblank chapter lines : ∀ st,
  Forall (λ s, Py.split_ws (content s) ≠ []) (sections st) →
  Forall (λ s, Py.split_ws (content s) ≠ [])
         (sections (parse_lines chapter st lines)).
Proof.
  induction lines as [|line lines IH]; intros st Hst; [done|].
  apply IH. unfold parse_line.
  destruct (header_match line) as [[lvl g]|].
  - simpl. by apply save_section_nonblank.
  - by destruct (current_section st).
Qed.

(** Every section handed to the chunker has a non-whitespace character. *)
Lemma parse_markdown_sections_nonblank text chapter source_file :
  Forall (λ s, Py.split_ws (content s) ≠ [])
         (parse_markdown_sections text chapter source_file).
Proof.
  unfold parse_markdown_sections, finish.
  apply save_section_nonblank, parse_lines_nonblank. constructor.
Qed.

End NonBlank.

(** ** Sorting by descending score *)



Section SortFacts.
Context `{Score} {A : Type} (key : A → score).

Lemma insert_desc_perm x l : insert_desc key x l ≡ₚ x :: l.
Proof.
  induction l as [|y l IH]; [done|]. simpl. case_match; [|done].
  by rewrite IH, Permutation_swap.
Qed.

Lemma sort_desc_perm l : sort_desc key l ≡ₚ l.
Proof.
  induction l as [|x l IH]; [done|]. simpl.
  by rewrite insert_desc_perm, IH.
Qed.

Lemma sort_desc_singleton x : sort_desc key [x] = [x].
Proof. done. Qed.

Context `{!ScoreLaws}.






End SortFacts.

(** ** The ephemeral store *)

Section StoreFacts.
Import SelectedText.
Context `{Vectors}.

Lemma slice_to_sublist {A} (k : Z) (l : list A) : Py.slice_to k l `sublist_of` l.
Proof. unfold Py.slice_to. case_match; apply sublist_take. Qed.


Context `{!ScoreLaws}.


End StoreFacts.



(** A negative top_k is not a number of results but a slice bound counted
    from the end of the ranking: the last results are dropped. *)
Example search_negative_top_k :
  SelectedText.res_chunk_id
    <$> @SelectedText.search Fixture.milli Fixture.line_vectors
          Fixture.two_chunk_store 1%Z (-1)%Z 0%Z
  = ["selected-001"].
Proof. vm_compute. reflexivity. Qed.


(** ** Ephemeral identifiers *)

Section SelectedTextFacts.
Import SelectedText.
Context `{Tokenizer, SentenceModel, Embedder, !AgentService}.

Lemma create_ephemeral_store_ids max_chunk_tokens selected_text store i c :
  create_ephemeral_store max_chunk_tokens selected_text = Some store →
  chunks store !! i = Some c →
  chunk_id c = "selected-" +:+ Py.format_03d i ∧ chunk_index c = i.
Proof.
  unfold create_ephemeral_store. intros Hstore Hc.
  destruct (embed_texts _) as [embeddings|]; [|done].
  injection Hstore as <-. simpl in Hc.
  rewrite list_lookup_imap in Hc.
  destruct (zip _ _ !! i) as [[t e]|]; [|done].
  by injection Hc as <-.
Qed.

Lemma answer_query_citations max_chunk_tokens query selected_text top_k
    answer citations :
  answer_query max_chunk_tokens query selected_text top_k
    = Some (answer, citations) →
  Forall (λ c, Py.startswith "selected-" (Schemas.chunk_id c) = true) citations.
Proof.
  unfold answer_query. intros Hq.
  destruct (create_ephemeral_store _ _) as [store|]; [|done].
  destruct (embed_text query) as [q|]; [|done]. simpl in Hq.
  destruct (search _ _ _ _) as [|r rs].
  { injection Hq as _ <-. constructor. }
  destruct (agent_generate_answer _ _ _) as [[a cs]|]; [|done].
  injection Hq as _ <-. apply Forall_forall. intros c Hc.
  by apply list_elem_of_filter in Hc as [Hc _].
Qed.

End SelectedTextFacts.

(** With the agent of [agent.py] behind a language model that cites
    nothing, the answer is the stripped completion and the citation is the
    fallback one, of the only chunk. *)
Example answer_query_with_agent :
  (λ r : string * list (@Schemas.Citation Fixture.milli),
     (r.1, @Schemas.chunk_id Fixture.milli <$> r.2))
    <$> @SelectedText.answer_query Fixture.simple_tokenizer Fixture.no_spacy
          Fixture.milli Fixture.line_vectors Fixture.length_embedder
          (@agent_service Fixture.milli Fixture.canned_llm)
          512 "What?" Fixture.short_selection 5
  = Some ("It is stated in the text.", ["selected-000"]).
Proof. vm_compute. reflexivity. Qed.

(** A selection that is split gets consecutive identifiers. *)
Example create_ephemeral_store_run_on :
  (λ store, SelectedText.chunk_id <$> SelectedText.chunks store)
    <$> @SelectedText.create_ephemeral_store Fixture.simple_tokenizer
          Fixture.no_spacy Fixture.milli Fixture.line_vectors
          Fixture.length_embedder 512 Fixture.run_on
  = Some ["selected-000"; "selected-001"; "selected-002"; "selected-003"].
Proof. vm_compute. reflexivity. Qed.

(** ** The citation pattern *)

Section MarkerFacts.
Import Agent.








Lemma to_lower_lbracket c : Py.to_lower c = "["%char → c = "["%char.
Proof.
  destruct c as [[] [] [] [] [] [] [] []]; vm_compute; intros; done.
Qed.










End MarkerFacts.

(** *** Letter case *)

Section CaseFacts.
Import Agent.

Local Arguments span1 : simpl never.
Local Arguments match_section : simpl never.
Local Arguments eat_ci : simpl never.
Local Arguments eat_char : simpl never.

Lemma to_lower_idem c : Py.to_lower (Py.to_lower c) = Py.to_lower c.
Proof. by destruct c as [[] [] [] [] [] [] [] []]. Qed.

Lemma is_space_lower c : Py.is_space (Py.to_lower c) = Py.is_space c.
Proof. by destruct c as [[] [] [] [] [] [] [] []]. Qed.

Lemma is_digit_lower c : Py.is_digit (Py.to_lower c) = Py.is_digit c.
Proof. by destruct c as [[] [] [] [] [] [] [] []]. Qed.

Lemma is_section_char_lower c :
  is_section_char (Py.to_lower c) = is_section_char c.
Proof. by destruct c as [[] [] [] [] [] [] [] []]. Qed.

Lemma digit_lower_fixed c : Py.is_digit c = true → Py.to_lower c = c.
Proof. by destruct c as [[] [] [] [] [] [] [] []]. Qed.

Lemma section_char_lower_fixed c : is_section_char c = true → Py.to_lower c = c.
Proof. by destruct c as [[] [] [] [] [] [] [] []]. Qed.

Lemma to_lower_rbracket c : Py.to_lower c = "]"%char ↔ c = "]"%char.
Proof. destruct c as [[] [] [] [] [] [] [] []]; by split. Qed.

Lemma to_lower_comma c : Py.to_lower c = ","%char ↔ c = ","%char.
Proof. destruct c as [[] [] [] [] [] [] [] []]; by split. Qed.

Lemma lower_str_length s : String.length (Spec.lower_str s) = String.length s.
Proof. induction s as [|c s IH]; [done|]. simpl. by rewrite IH. Qed.

Lemma eat_ci_lower lit s :
  eat_ci lit (Spec.lower_str s) = Spec.lower_str <$> eat_ci lit s.
Proof.
  revert s. induction lit as [|a lit IH]; intros s; [done|].
  destruct s as [|c s]; [done|].
  change (eat_ci (String a lit) (Spec.lower_str (String c s)))
    with (if decide (Py.to_lower (Py.to_lower c) = a)
          then eat_ci lit (Spec.lower_str s) else None).
  change (eat_ci (String a lit) (String c s))
    with (if decide (Py.to_lower c = a) then eat_ci lit s else None).
  rewrite to_lower_idem, IH. by case_decide.
Qed.

Lemma eat_char_lower d s :
  (∀ c, Py.to_lower c = d ↔ c = d) →
  eat_char d (Spec.lower_str s) = Spec.lower_str <$> eat_char d s.
Proof.
  intros Hd. destruct s as [|c s]; [done|]. unfold eat_char. simpl.
  destruct (decide (c = d)) as [Hc|Hc].
  - by rewrite decide_True by by apply Hd.
  - by rewrite decide_False by by rewrite Hd.
Qed.

Lemma span_lower p s :
  (∀ c, p (Py.to_lower c) = p c) →
  span p (Spec.lower_str s)
  = (Spec.lower_str (span p s).1, Spec.lower_str (span p s).2).
Proof.
  intros Hp. induction s as [|c s IH]; [done|]. simpl.
  rewrite Hp, IH. destruct (p c); [|done]. by destruct (span p s).
Qed.

Lemma span_fixed p s :
  (∀ c, p c = true → Py.to_lower c = c) →
  Spec.lower_str (span p s).1 = (span p s).1.
Proof.
  intros Hp. induction s as [|c s IH]; [done|]. simpl.
  destruct (p c) eqn:Hc; [|done].
  destruct (span p s) as [a b]. simpl in *. by rewrite Hp, IH.
Qed.

Lemma lower_str_nil s : Spec.lower_str s = "" ↔ s = "".
Proof. by destruct s. Qed.

Lemma span1_lower p s :
  (∀ c, p (Py.to_lower c) = p c) →
  span1 p (Spec.lower_str s)
  = (λ ab, (Spec.lower_str ab.1, Spec.lower_str ab.2)) <$> span1 p s.
Proof.
  intros Hp. unfold span1. rewrite span_lower by done.
  destruct (span p s) as [a b]. simpl.
  destruct (decide (a = "")) as [->|Ha]; [done|].
  by rewrite decide_False by by rewrite lower_str_nil.
Qed.

Lemma span1_fixed p s a b :
  (∀ c, p c = true → Py.to_lower c = c) →
  span1 p s = Some (a, b) → Spec.lower_str a = a.
Proof.
  intros Hp. unfold span1. pose proof (span_fixed p s Hp) as Hs.
  destruct (span p s) as [a' b']. case_decide; [done|]. by intros [= <- _].
Qed.

Lemma match_section_lower s :
  match_section (Spec.lower_str s)
  = (λ sr, (sr.1, Spec.lower_str sr.2)) <$> match_section s.
Proof.
  unfold match_section.
  rewrite !eat_char_lower by (apply to_lower_rbracket || apply to_lower_comma).
  destruct (eat_char "]" s) as [r|]; [done|]. simpl.
  destruct (eat_char "," s) as [r1|]; [|done]. simpl.
  rewrite (span_lower Py.is_space r1 is_space_lower). simpl.
  rewrite eat_ci_lower.
  destruct (eat_ci "section" (span Py.is_space r1).2) as [r2|]; [|done]. simpl.
  rewrite (span1_lower Py.is_space r2 is_space_lower).
  destruct (span1 Py.is_space r2) as [[ws r3]|]; [|done]. simpl.
  rewrite (span1_lower is_section_char r3 is_section_char_lower).
  destruct (span1 is_section_char r3) as [[sc r4]|] eqn:H4; [|done]. simpl.
  rewrite (eat_char_lower "]" r4 to_lower_rbracket).
  destruct (eat_char "]" r4) as [r5|]; [|done]. simpl.
  by rewrite (span1_fixed _ _ _ _ section_char_lower_fixed H4).
Qed.

Lemma match_marker_lower s :
  match_marker (Spec.lower_str s)
  = (λ mr, (mr.1, Spec.lower_str mr.2)) <$> match_marker s.
Proof.
  unfold match_marker. rewrite eat_ci_lower.
  destruct (eat_ci "[chapter" s) as [r1|]; [|done]. simpl.
  rewrite (span1_lower Py.is_space r1 is_space_lower).
  destruct (span1 Py.is_space r1) as [[ws r2]|]; [|done]. simpl.
  rewrite (span1_lower Py.is_digit r2 is_digit_lower).
  destruct (span1 Py.is_digit r2) as [[ds r3]|] eqn:H3; [|done]. simpl.
  rewrite match_section_lower.
  destruct (match_section r3) as [[sec r4]|]; [|done]. simpl.
  by rewrite (span1_fixed _ _ _ _ digit_lower_fixed H3).
Qed.

(** The pattern is matched without regard to letter case. *)
Lemma find_matches_go_lower s : ∀ skip,
  find_matches_go skip (Spec.lower_str s) = find_matches_go skip s.
Proof.
  induction s as [|c s IH]; intros skip; [done|].
  change (Spec.lower_str (String c s))
    with (String (Py.to_lower c) (Spec.lower_str s)).
  simpl find_matches_go. destruct skip as [|k]; [|apply IH].
  change (String (Py.to_lower c) (Spec.lower_str s))
    with (Spec.lower_str (String c s)).
  rewrite match_marker_lower.
  destruct (match_marker (String c s)) as [[m rest]|]; simpl; [|apply IH].
  by rewrite IH, !lower_str_length.
Qed.

Lemma find_matches_lower s :
  find_matches (Spec.lower_str s) = find_matches s.
Proof. apply find_matches_go_lower. Qed.


Lemma readable_lower s : Spec.readable (Spec.lower_str s) ↔ Spec.readable s.
Proof. unfold Spec.readable. by rewrite find_matches_lower. Qed.

End CaseFacts.

(** ** Citations *)

Section CitationFacts.
Import VectorStore Agent.
Context `{Score}.

Lemma foldM_nil {S X} (f : S → X → option S) s : foldM f [] s = Some s.
Proof. done. Qed.

Lemma foldM_cons {S X} (f : S → X → option S) x l s :
  foldM f (x :: l) s = f s x ≫= foldM f l.
Proof.
  unfold foldM. simpl. destruct (f s x) as [s'|]; [done|]. simpl.
  induction l as [|y l IH]; [done|]. done.
Qed.

Lemma prefix_chars_length n s : String.length (Py.prefix_chars n s) ≤ n.
Proof.
  unfold Py.prefix_chars. revert s.
  induction n as [|n IH]; intros [|c s]; simpl; try lia.
  specialize (IH s). lia.
Qed.

Lemma citation_of_citable chunk :
  Spec.citable chunk → citation_of chunk = Some (Spec.citation_record chunk).
Proof.
  intros (Hch & H0 & H1). unfold citation_of, Schemas.make_Citation.
  rewrite bool_decide_true by done. rewrite H0, H1.
  by rewrite bool_decide_true by apply prefix_chars_length.
Qed.

Lemma citation_of_Some chunk cit :
  citation_of chunk = Some cit → cit = Spec.citation_record chunk.
Proof.
  unfold citation_of, Schemas.make_Citation. case_match; [|done].
  by intros [= <-].
Qed.

(** *** The numerals of the markers *)

Lemma int_readable ds :
  String.length ds ≤ 4300 → Py.int ds = Some (Py.int_of_digits ds).
Proof.
  intros Hlen. unfold Py.int, Py.int_max_str_digits.
  by rewrite (proj2 (Nat.leb_le _ _)).
Qed.

Lemma int_unreadable ds : 4300 < String.length ds → Py.int ds = None.
Proof.
  intros Hlen. unfold Py.int, Py.int_max_str_digits.
  by rewrite (proj2 (Nat.leb_gt _ _)).
Qed.

Lemma cite_match_unfold chunks st (g : groups) :
  cite_match chunks st g
  = match Py.int g.1 with
    | Some chapter_num => cite_marker chunks st (chapter_num, g.2)
    | None => None
    end.
Proof. unfold cite_match, marker_of. by destruct (Py.int g.1). Qed.

(** While every numeral can be read, the loop over the matches is the
    loop over the markers. *)
Lemma cite_matches_readable chunks (gs : list groups) : ∀ st,
  Forall (λ g : groups, String.length g.1 ≤ 4300) gs →
  foldM (cite_match chunks) gs st
  = foldM (cite_marker chunks)
          ((λ g : groups, (Py.int_of_digits g.1, g.2)) <$> gs) st.
Proof.
  induction gs as [|g gs IH]; intros st Hgs; [done|].
  apply Forall_cons in Hgs as [Hg Hgs]. rewrite fmap_cons, !foldM_cons.
  rewrite cite_match_unfold, int_readable by done. simpl.
  destruct (cite_marker chunks st _) as [st1|]; [|done]. simpl. by apply IH.
Qed.

(** A numeral that is too long makes the loop raise. *)
Lemma cite_matches_Some chunks (gs : list groups) : ∀ st st',
  foldM (cite_match chunks) gs st = Some st' →
  Forall (λ g : groups, String.length g.1 ≤ 4300) gs.
Proof.
  induction gs as [|g gs IH]; intros st st'; [done|].
  rewrite foldM_cons. intros (st1 & Hst1 & Hst')%bind_Some.
  constructor; [|by eapply IH].
  rewrite cite_match_unfold in Hst1.
  destruct (decide (String.length g.1 ≤ 4300)) as [|Hlong]; [done|].
  rewrite int_unreadable in Hst1 by lia. done.
Qed.

Lemma marked_citations_readable answer chunks :
  Spec.readable answer →
  marked_citations answer chunks
  = snd <$> foldM (cite_marker chunks) (Spec.markers answer) (∅, []).
Proof.
  intros Hr. unfold marked_citations. by rewrite cite_matches_readable.
Qed.

Lemma marked_citations_Some_readable answer chunks citations :
  marked_citations answer chunks = Some citations → Spec.readable answer.
Proof.
  unfold marked_citations. intros (st & Hst & _)%fmap_Some.
  by eapply cite_matches_Some.
Qed.

Lemma extract_citations_Some_readable answer chunks citations :
  _extract_citations answer chunks = Some citations → Spec.readable answer.
Proof.
  unfold _extract_citations, emitted_citations.
  intros (emitted & (marked & Hmarked & _)%bind_Some & _)%fmap_Some.
  by eapply marked_citations_Some_readable.
Qed.




(** *** Markers that select no candidate *)




(** *** The fallback *)

Lemma mapM_citation_of chunks :
  Forall Spec.citable chunks →
  mapM citation_of chunks = Some (Spec.citation_record <$> chunks).
Proof.
  intros Hc. apply mapM_Some. induction Hc; constructor; [|done].
  by apply citation_of_citable.
Qed.



(** *** One candidate selected among others *)



Section OneSelected.
Variable c1 : SearchResult.
Variables before after : list SearchResult.
Hypothesis c1_citable : Spec.citable c1.

Let cited : cite_state := ({[ chunk_key c1 ]}, [Spec.citation_record c1]).



End OneSelected.

End CitationFacts.






(** * Further properties *)

(** ** Regular expressions: the matcher decides the language *)

Section ReFacts.
Import Re.

Lemma str_app_eq_nil u v : u +:+ v = "" → u = "" ∧ v = "".
Proof. destruct u; [done|discriminate]. Qed.

Lemma nullable_Matches r : nullable r = true ↔ Matches r "".
Proof.
  split.
  - induction r as [| |p|r IHr s IHs|r IHr s IHs|r IHr]; simpl; intros Hn;
      try discriminate.
    + constructor.
    + apply andb_true_iff in Hn as [Hr Hs].
      change "" with ("" +:+ ""). constructor; auto.
    + apply orb_true_iff in Hn as [Hr|Hs];
        [apply Matches_alt_l|apply Matches_alt_r]; auto.
    + constructor.
  - intros Hm. remember "" as e eqn:He.
    induction Hm as [|p c Hp|r s u v _ IHr _ IHs|r s u _ IH|r s u _ IH|r
                     |r u v _ _ _ _]; simpl; try done.
    + apply str_app_eq_nil in He as [-> ->]. by rewrite IHr, IHs.
    + by rewrite IH.
    + rewrite IH by done. apply orb_true_r.
Qed.

Lemma Matches_star_inv r c s :
  Matches (Star r) (String c s) →
  ∃ u v, s = u +:+ v ∧ Matches r (String c u) ∧ Matches (Star r) v.
Proof.
  intros Hm. remember (Star r) as q eqn:Hq. remember (String c s) as t eqn:Ht.
  revert Hq Ht.
  induction Hm as [| | | | | |r' u v Hu _ Hv IHv]; try discriminate.
  intros [= ->] Ht. destruct u as [|d u];
    rewrite ?str_app_nil_l, ?str_app_cons in Ht.
  - by apply IHv.
  - injection Ht as -> <-. by exists u, v.
Qed.

Lemma Matches_cat_inv r q t :
  Matches (Cat r q) t → ∃ u v, t = u +:+ v ∧ Matches r u ∧ Matches q v.
Proof. inversion 1; subst; eauto. Qed.

Lemma Matches_alt_inv r q t : Matches (Alt r q) t → Matches r t ∨ Matches q t.
Proof. inversion 1; subst; eauto. Qed.

Lemma Matches_chr_inv p t :
  Matches (Chr p) t → ∃ c, t = String c "" ∧ p c = true.
Proof. inversion 1; subst; eauto. Qed.

Lemma Matches_eps_inv t : Matches Eps t → t = "".
Proof. by inversion 1. Qed.

Lemma deriv_Matches c r : ∀ s, Matches (deriv c r) s ↔ Matches r (String c s).
Proof.
  induction r as [| |p|r IHr q IHq|r IHr q IHq|r IHr]; intros s; simpl.
  - split; inversion 1.
  - split; inversion 1.
  - destruct (p c) eqn:Hp; split; inversion 1; subst.
    + by constructor.
    + constructor.
    + congruence.
  - assert (Matches (Cat (deriv c r) q) s → Matches (Cat r q) (String c s))
      as Hcat.
    { intros (u & v & -> & Hu & Hv)%Matches_cat_inv.
      apply IHr in Hu. change (String c (u +:+ v)) with (String c u +:+ v).
      by constructor. }
    assert (Matches (Cat r q) (String c s) →
            Matches (Cat (deriv c r) q) s
            ∨ nullable r = true ∧ Matches (deriv c q) s) as Hinv.
    { intros (u & v & Heq & Hu & Hv)%Matches_cat_inv.
      destruct u as [|d u]; rewrite ?str_app_nil_l, ?str_app_cons in Heq.
      - subst v. right. split; [by apply nullable_Matches|by apply IHq].
      - injection Heq as <- ->. left. constructor; [by apply IHr|done]. }
    destruct (nullable r) eqn:Hn; split.
    + intros [Hl|Hr]%Matches_alt_inv; [by apply Hcat|].
      apply IHq in Hr. change (String c s) with ("" +:+ String c s).
      constructor; [by apply nullable_Matches|done].
    + intros [Hl|[_ Hr]]%Hinv; [by apply Matches_alt_l|by apply Matches_alt_r].
    + apply Hcat.
    + intros [Hl|[? _]]%Hinv; [done|discriminate].
  - split.
    + intros [Hl|Hr]%Matches_alt_inv;
        [apply Matches_alt_l; by apply IHr|apply Matches_alt_r; by apply IHq].
    + intros [Hl|Hr]%Matches_alt_inv;
        [apply Matches_alt_l; by apply IHr|apply Matches_alt_r; by apply IHq].
  - split.
    + intros (u & v & -> & Hu & Hv)%Matches_cat_inv. apply IHr in Hu.
      change (String c (u +:+ v)) with (String c u +:+ v). by constructor.
    + intros (u & v & -> & Hu & Hv)%Matches_star_inv.
      constructor; [by apply IHr|done].
Qed.

Lemma fullmatch_Matches r s : fullmatch r s = true ↔ Matches r s.
Proof.
  revert r. induction s as [|c s IH]; intros r; simpl.
  - apply nullable_Matches.
  - rewrite IH. apply deriv_Matches.
Qed.

End ReFacts.

Example validate_query_request_ex :
  (λ q, (Validators.validate_query_request (Some q) None 1 1000).1) <$>
    ["What is inverse kinematics?"; ""; "   "; "' OR '1'='1'";
     "<script>alert('xss')</script>"; "a -- b"; "x; drop  table t"; "onclick = 1";
     "Union" +:+ Py.NL +:+ "select"; "exec ("; "<script"; "on =1";
     "' or " +:+ String (ascii_of_N 223) "=1"]
  = [true; false; false; false; false; false; false; false; false; false; true; true; false].
Proof. vm_compute. reflexivity. Qed.

Example validate_session_id_ex :
  (λ s, (Validators.validate_session_id s).1) <$>
    [Some "550e8400-e29b-41d4-a716-446655440000"; Some "session_123";
     Some "session-abc-def"; Some "session@123"; Some ""; None;
     Some (" ab" +:+ Py.NL); Some "a b"]
  = [true; true; true; false; false; true; true; false].
Proof. vm_compute. reflexivity. Qed.

Example validate_section_identifier_ex :
  (λ s, (Validators.validate_section_identifier (Some s)).1) <$>
    ["3.2"; "3.2.1"; "3"; "3."; ".3"; "3..2"; ""; "3.2" +:+ Py.NL;
     "3.2" +:+ Py.NL +:+ Py.NL; " 3.2"; "-3.1"]
  = [true; true; true; false; false; false; false; true; false; false; false].
Proof. vm_compute. reflexivity. Qed.

Example sanitize_query_ex :
  Validators.sanitize_query <$>
    ["  What   is   kinematics?  "; "Query with <script>alert('xss')</script>";
     String "000" " a" +:+ String "000" "b"; "a & b"]
  = ["What is kinematics?";
     "Query with &lt;script&gt;alert(&#x27;xss&#x27;)&lt;/script&gt;"; " ab";
     "a &amp; b"].
Proof. vm_compute. reflexivity. Qed.

Example sanitize_selected_text_ex :
  Validators.sanitize_selected_text
    ("  a <b>  " +:+ String "013" (String "010" " c ") +:+ String "013" "d  "
     +:+ Py.NL +:+ Py.NL)
  = "a &lt;b&gt;" +:+ Py.NL +:+ " c" +:+ Py.NL +:+ "d".
Proof. vm_compute. reflexivity. Qed.

Example create_url_anchor_ex :
  Chapter.create_url_anchor
    <$> ["3.1 Forward Kinematics"; "  What's New?  "; "--- ***"; "a_b -- c";
         "C++ & Rust"]
  = ["31-forward-kinematics"; "whats-new"; ""; "a-b-c"; "c-rust"].
Proof. vm_compute. reflexivity. Qed.

Example extract_chapter_number_ex :
  Chapter.extract_chapter_number
    <$> ["docs/Chapter-3.md"; "ch12-basics.md"; "03-kinematics.md";
         "notes/2024-ch5.md"; "Preface.md"; "notes.md"; "v2/intro.md";
         "12a3-x.md"]
  = [Some 3; Some 12; Some 3; Some 5; Some 0; None; Some 0; Some 3]%Z.
Proof. vm_compute. reflexivity. Qed.

(** ** Character classes and the text operations *)

Section TextFacts.
Import Shape.

Lemma all_chars_impl (p q : ascii → bool) s :
  (∀ c, p c = true → q c = true) → all_chars p s = true → all_chars q s = true.
Proof.
  intros Hpq. induction s as [|c s IH]; simpl; [done|].
  intros [Hc Hs]%andb_true_iff. by rewrite (Hpq c Hc), IH.
Qed.

Lemma all_chars_and (p q : ascii → bool) s :
  all_chars (λ c, p c && q c) s = all_chars p s && all_chars q s.
Proof.
  induction s as [|c s IH]; simpl; [done|]. rewrite IH.
  destruct (p c), (q c), (all_chars p s), (all_chars q s); done.
Qed.

Lemma all_chars_app p s t :
  all_chars p (s +:+ t) = all_chars p s && all_chars p t.
Proof.
  induction s as [|c s IH]; [done|].
  rewrite str_app_cons. simpl. by rewrite IH, andb_assoc.
Qed.

Lemma all_chars_lstrip p s :
  all_chars p s = true → all_chars p (Py.lstrip s) = true.
Proof.
  induction s as [|c s IH]; simpl; [done|].
  intros [Hc Hs]%andb_true_iff. destruct (Py.is_space c); [by apply IH|].
  simpl. by rewrite Hc, Hs.
Qed.

Lemma all_chars_rstrip p s :
  all_chars p s = true → all_chars p (Py.rstrip s) = true.
Proof.
  induction s as [|c s IH]; simpl; [done|].
  intros [Hc Hs]%andb_true_iff. specialize (IH Hs).
  destruct (Py.rstrip s) as [|d r].
  - destruct (Py.is_space c); simpl; [done|by rewrite Hc].
  - change (all_chars p (String c (String d r))) with
      (p c && all_chars p (String d r)). by rewrite Hc, IH.
Qed.

Lemma all_chars_strip p s :
  all_chars p s = true → all_chars p (Py.strip s) = true.
Proof. intros. by apply all_chars_rstrip, all_chars_lstrip. Qed.

Lemma all_chars_keep p keep s :
  all_chars p s = true →
  all_chars (λ c, keep c && p c) (Text.keep_chars keep s) = true.
Proof.
  induction s as [|c s IH]; simpl; [done|].
  intros [Hc Hs]%andb_true_iff. destruct (keep c) eqn:Hk; [|by apply IH].
  simpl. by rewrite Hk, Hc, IH.
Qed.

Lemma all_chars_sub_runs (p0 p q : ascii → bool) r s :
  (∀ c, p0 c = true → p c = false → q c = true) → q r = true →
  all_chars p0 s = true → all_chars q (Text.sub_runs p r s) = true.
Proof.
  intros Hq Hr. induction s as [|c s IH]; simpl; [done|].
  intros [Hc Hs]%andb_true_iff. specialize (IH Hs).
  destruct (p c) eqn:Hp.
  - destruct (Text.starts_in p s); [done|]. simpl. by rewrite Hr, IH.
  - simpl. by rewrite (Hq c Hc Hp), IH.
Qed.

Lemma starts_in_sub_runs p r s :
  Text.starts_in p (Text.sub_runs p r s) = Text.starts_in p s && p r.
Proof.
  induction s as [|c s IH]; simpl; [done|].
  destruct (p c) eqn:Hp; simpl; [|done].
  destruct (Text.starts_in p s); [done|]. done.
Qed.

Lemma no_run_sub_runs p r s : no_run p (Text.sub_runs p r s) = true.
Proof.
  induction s as [|c s IH]; simpl; [done|].
  destruct (p c) eqn:Hp.
  - destruct (Text.starts_in p s) eqn:Hs; [done|]. simpl.
    by rewrite starts_in_sub_runs, Hs, andb_false_r, IH.
  - simpl. by rewrite Hp, IH.
Qed.

Lemma all_chars_lstrip_by p q s :
  all_chars p s = true → all_chars p (Text.lstrip_by q s) = true.
Proof.
  induction s as [|c s IH]; simpl; [done|].
  intros [Hc Hs]%andb_true_iff. destruct (q c); [by apply IH|].
  simpl. by rewrite Hc, Hs.
Qed.

Lemma all_chars_rstrip_by p q s :
  all_chars p s = true → all_chars p (Text.rstrip_by q s) = true.
Proof.
  induction s as [|c s IH]; simpl; [done|].
  intros [Hc Hs]%andb_true_iff. specialize (IH Hs).
  destruct (Text.rstrip_by q s) as [|d r].
  - destruct (q c); simpl; [done|by rewrite Hc].
  - change (all_chars p (String c (String d r))) with
      (p c && all_chars p (String d r)). by rewrite Hc, IH.
Qed.

Lemma no_run_lstrip_by p q s :
  no_run p s = true → no_run p (Text.lstrip_by q s) = true.
Proof.
  induction s as [|c s IH]; simpl; [done|].
  intros [Hc Hs]%andb_true_iff. destruct (q c); [by apply IH|].
  simpl. by rewrite Hc, Hs.
Qed.

Lemma starts_in_rstrip_by p q s :
  Text.starts_in p (Text.rstrip_by q s) = true → Text.starts_in p s = true.
Proof.
  destruct s as [|c s]; simpl; [done|].
  destruct (Text.rstrip_by q s); [destruct (q c)|]; done.
Qed.

Lemma no_run_rstrip_by p q s :
  no_run p s = true → no_run p (Text.rstrip_by q s) = true.
Proof.
  induction s as [|c s IH]; simpl; [done|].
  intros [Hc Hs]%andb_true_iff. specialize (IH Hs).
  destruct (Text.rstrip_by q s) as [|d r] eqn:Hr.
  - destruct (q c); simpl; [done|]. by rewrite andb_false_r.
  - change (no_run p (String c (String d r))) with
      (negb (p c && Text.starts_in p (String d r)) && no_run p (String d r)).
    rewrite IH, andb_true_r. apply negb_true_iff.
    apply negb_true_iff in Hc. destruct (p c); [|done]. simpl in *.
    destruct (Text.starts_in p (String d r)) eqn:Hd; [|done].
    rewrite <-Hr in Hd. apply starts_in_rstrip_by in Hd. congruence.
Qed.

Lemma starts_in_lstrip_by p s : Text.starts_in p (Text.lstrip_by p s) = false.
Proof.
  induction s as [|c s IH]; simpl; [done|].
  destruct (p c) eqn:Hp; [done|]. simpl. done.
Qed.

Lemma ends_in_rstrip_by p s : ends_in p (Text.rstrip_by p s) = false.
Proof.
  induction s as [|c s IH]; simpl; [done|].
  destruct (Text.rstrip_by p s) as [|d r] eqn:Hr.
  - destruct (p c) eqn:Hp; simpl; [done|by rewrite Hp].
  - done.
Qed.

End TextFacts.

(** ** [create_url_anchor] *)

(** A fact about every character, checked on the 256 of them. *)
Ltac by_chars :=
  let c := fresh "c" in
  intros c; destruct c as [[] [] [] [] [] [] [] []]; vm_compute;
  repeat split; intros; congruence.

Section AnchorFacts.
Import Shape.
Import Chapter (anchor_keep, anchor_gap).

Lemma lower_char_idem : ∀ c, low_fixed (Text.lower_char c) = true.
Proof. by_chars. Qed.

Lemma keep_low_slug : ∀ c,
  anchor_keep c && low_fixed c = true → anchor_gap c = false →
  slug_or_hyphen c = true.
Proof. by_chars. Qed.

Lemma slug_or_hyphen_facts : ∀ c,
  slug_or_hyphen c = true →
  low_fixed c = true ∧ Py.is_space c = false ∧ anchor_keep c = true
  ∧ anchor_gap c = false.
Proof. by_chars. Qed.

Lemma is_hyphen_eq c : is_hyphen c = true → c = "-"%char.
Proof. unfold is_hyphen. by intros ?%bool_decide_eq_true. Qed.

Lemma all_chars_lower s : all_chars low_fixed (Text.lower s) = true.
Proof.
  induction s as [|c s IH]; simpl; [done|]. by rewrite lower_char_idem, IH.
Qed.

Lemma create_url_anchor_unfold title :
  Chapter.create_url_anchor title
  = Text.strip_by is_hyphen
      (Text.sub_runs is_hyphen "-"
         (Text.sub_runs anchor_gap "-"
            (Text.keep_chars anchor_keep (Py.strip (Text.lower title))))).
Proof. reflexivity. Qed.

Lemma create_url_anchor_slug title : slug (Chapter.create_url_anchor title).
Proof.
  rewrite create_url_anchor_unfold.
  set (a1 := Text.keep_chars anchor_keep (Py.strip (Text.lower title))).
  assert (all_chars (λ c, anchor_keep c && low_fixed c) a1 = true) as H1.
  { apply all_chars_keep, all_chars_strip, all_chars_lower. }
  set (a2 := Text.sub_runs anchor_gap "-" a1).
  assert (all_chars slug_or_hyphen a2 = true) as H2.
  { eapply all_chars_sub_runs; [|done|exact H1]. apply keep_low_slug. }
  set (a3 := Text.sub_runs is_hyphen "-" a2).
  assert (all_chars slug_or_hyphen a3 = true) as H3.
  { eapply all_chars_sub_runs; [|done|exact H2]. auto. }
  assert (no_run is_hyphen a3 = true) as H3' by apply no_run_sub_runs.
  unfold Text.strip_by. repeat split.
  - by apply all_chars_rstrip_by, all_chars_lstrip_by.
  - by apply no_run_rstrip_by, no_run_lstrip_by.
  - apply not_true_is_false. intros Hs%starts_in_rstrip_by.
    by rewrite starts_in_lstrip_by in Hs.
  - apply ends_in_rstrip_by.
Qed.

Lemma lower_fixed s : all_chars low_fixed s = true → Text.lower s = s.
Proof.
  induction s as [|c s IH]; simpl; [done|].
  intros [Hc%bool_decide_eq_true Hs]%andb_true_iff. by rewrite Hc, IH.
Qed.

Lemma rstrip_no_space s : Spec.no_space s = true → Py.rstrip s = s.
Proof.
  induction s as [|c s IH]; simpl; [done|].
  intros [Hc%negb_true_iff Hs]%andb_true_iff. rewrite IH by done.
  destruct s; [by rewrite Hc|done].
Qed.

Lemma strip_no_space s : Spec.no_space s = true → Py.strip s = s.
Proof.
  intros Hs. unfold Py.strip.
  assert (Py.lstrip s = s) as ->; [|by apply rstrip_no_space].
  destruct s as [|c s]; simpl in *; [done|].
  apply andb_true_iff in Hs as [Hc%negb_true_iff _]. by rewrite Hc.
Qed.

Lemma keep_chars_fixed keep s :
  all_chars keep s = true → Text.keep_chars keep s = s.
Proof.
  induction s as [|c s IH]; simpl; [done|].
  intros [Hc Hs]%andb_true_iff. by rewrite Hc, IH.
Qed.

Lemma sub_runs_none p r s :
  all_chars (λ c, negb (p c)) s = true → Text.sub_runs p r s = s.
Proof.
  induction s as [|c s IH]; simpl; [done|].
  intros [Hc%negb_true_iff Hs]%andb_true_iff. by rewrite Hc, IH.
Qed.

Lemma sub_runs_single p r s :
  (∀ c, p c = true → c = r) → no_run p s = true → Text.sub_runs p r s = s.
Proof.
  intros Hp. induction s as [|c s IH]; simpl; [done|].
  intros [Hc%negb_true_iff Hs]%andb_true_iff. rewrite IH by done.
  destruct (p c) eqn:Hpc; [|done]. simpl in Hc. rewrite Hc.
  by rewrite (Hp c Hpc).
Qed.

Lemma lstrip_by_fixed p s : Text.starts_in p s = false → Text.lstrip_by p s = s.
Proof. destruct s as [|c s]; simpl; [done|]. by intros ->. Qed.

Lemma rstrip_by_fixed p s : ends_in p s = false → Text.rstrip_by p s = s.
Proof.
  induction s as [|c s IH]; [done|].
  intros Hs. change (Text.rstrip_by p (String c s)) with
    (match Text.rstrip_by p s with
     | "" => if p c then "" else String c ""
     | r => String c r
     end).
  destruct s as [|d s].
  - simpl in *. by rewrite Hs.
  - rewrite IH by done. done.
Qed.

Lemma slug_fixed s : slug s → Chapter.create_url_anchor s = s.
Proof.
  intros (Hall & Hrun & Hstart & Hend). rewrite create_url_anchor_unfold.
  pose proof (λ c Hc, proj1 (slug_or_hyphen_facts c Hc)) as Hlow.
  pose proof (λ c Hc, proj1 (proj2 (slug_or_hyphen_facts c Hc))) as Hsp.
  pose proof (λ c Hc, proj1 (proj2 (proj2 (slug_or_hyphen_facts c Hc)))) as Hkeep.
  pose proof (λ c Hc, proj2 (proj2 (proj2 (slug_or_hyphen_facts c Hc)))) as Hgap.
  rewrite lower_fixed by (by eapply all_chars_impl; [|exact Hall]).
  rewrite strip_no_space.
  2:{ clear -Hall Hsp. induction s as [|c s IH]; simpl in *; [done|].
      apply andb_true_iff in Hall as [Hc Hs]. by rewrite (Hsp c Hc), IH. }
  rewrite keep_chars_fixed by (by eapply all_chars_impl; [|exact Hall]).
  rewrite (sub_runs_none anchor_gap).
  2:{ eapply all_chars_impl; [|exact Hall].
      intros c Hc. apply negb_true_iff. by apply Hgap. }
  rewrite (sub_runs_single is_hyphen) by (done || apply is_hyphen_eq).
  unfold Text.strip_by. by rewrite lstrip_by_fixed, rstrip_by_fixed.
Qed.

End AnchorFacts.

Section AnchorEmpty.
Import Shape.
Import Chapter (anchor_keep, anchor_gap).

Lemma slug_char_lower : ∀ c, is_slug_char (Text.lower_char c) = is_alnum_char c.
Proof. by_chars. Qed.

Lemma slug_char_facts : ∀ c,
  is_slug_char c = true →
  Py.is_space c = false ∧ anchor_keep c = true ∧ anchor_gap c = false
  ∧ is_hyphen c = false.
Proof. by_chars. Qed.

Lemma has_char_lower s :
  has_char is_slug_char (Text.lower s) = has_char is_alnum_char s.
Proof.
  induction s as [|c s IH]; [done|].
  cbn [has_char Text.lower]. by rewrite slug_char_lower, IH.
Qed.

Lemma has_char_lstrip_by p q s :
  (∀ c, p c = true → q c = false) →
  has_char p (Text.lstrip_by q s) = has_char p s.
Proof.
  intros Hpq. induction s as [|c s IH]; simpl; [done|].
  destruct (q c) eqn:Hq; [|done]. rewrite IH.
  destruct (p c) eqn:Hp; [|done]. rewrite (Hpq c Hp) in Hq. discriminate.
Qed.

Lemma has_char_rstrip_by p q s :
  (∀ c, p c = true → q c = false) →
  has_char p (Text.rstrip_by q s) = has_char p s.
Proof.
  intros Hpq. induction s as [|c s IH]; simpl; [done|].
  destruct (Text.rstrip_by q s) as [|d r].
  - rewrite <-IH. simpl. destruct (q c) eqn:Hq; simpl.
    + destruct (p c) eqn:Hp; [|done]. rewrite (Hpq c Hp) in Hq. discriminate.
    + done.
  - rewrite <-IH. done.
Qed.

Lemma lstrip_as_by s : Py.lstrip s = Text.lstrip_by Py.is_space s.
Proof. induction s as [|c s IH]; simpl; [done|]. by rewrite IH. Qed.

Lemma rstrip_as_by s : Py.rstrip s = Text.rstrip_by Py.is_space s.
Proof. induction s as [|c s IH]; simpl; [done|]. by rewrite IH. Qed.

Lemma strip_as_by s : Py.strip s = Text.strip_by Py.is_space s.
Proof. unfold Py.strip, Text.strip_by. by rewrite lstrip_as_by, rstrip_as_by. Qed.

Lemma has_char_strip_by p q s :
  (∀ c, p c = true → q c = false) →
  has_char p (Text.strip_by q s) = has_char p s.
Proof.
  intros. unfold Text.strip_by.
  by rewrite has_char_rstrip_by, has_char_lstrip_by.
Qed.

Lemma has_char_keep p keep s :
  (∀ c, p c = true → keep c = true) →
  has_char p (Text.keep_chars keep s) = has_char p s.
Proof.
  intros Hpk. induction s as [|c s IH]; simpl; [done|].
  destruct (keep c) eqn:Hk; simpl; rewrite IH; [done|].
  destruct (p c) eqn:Hp; [|done]. rewrite (Hpk c Hp) in Hk. discriminate.
Qed.

Lemma has_char_sub_runs p q r s :
  (∀ c, p c = true → q c = false) → p r = false →
  has_char p (Text.sub_runs q r s) = has_char p s.
Proof.
  intros Hpq Hr. induction s as [|c s IH]; simpl; [done|].
  destruct (q c) eqn:Hq.
  - assert (p c = false) as ->.
    { destruct (p c) eqn:Hp; [|done]. rewrite (Hpq c Hp) in Hq. discriminate. }
    destruct (Text.starts_in q s); simpl; by rewrite ?Hr, IH.
  - simpl. by rewrite IH.
Qed.

Lemma slug_empty s : slug s → s = "" ↔ has_char is_slug_char s = false.
Proof.
  intros (Hall & _ & Hstart & _). split; [by intros ->|].
  destruct s as [|c s]; [done|]. simpl in *.
  apply andb_true_iff in Hall as [Hc _]. unfold slug_or_hyphen in Hc.
  rewrite Hstart, orb_false_r in Hc.
  by rewrite Hc.
Qed.

Lemma create_url_anchor_has_char title :
  has_char is_slug_char (Chapter.create_url_anchor title)
  = has_char is_alnum_char title.
Proof.
  pose proof (λ c Hc, proj1 (slug_char_facts c Hc)) as Hsp.
  pose proof (λ c Hc, proj1 (proj2 (slug_char_facts c Hc))) as Hkeep.
  pose proof (λ c Hc, proj1 (proj2 (proj2 (slug_char_facts c Hc)))) as Hgap.
  pose proof (λ c Hc, proj2 (proj2 (proj2 (slug_char_facts c Hc)))) as Hhy.
  rewrite create_url_anchor_unfold, strip_as_by.
  rewrite has_char_strip_by, !has_char_sub_runs, has_char_keep,
    has_char_strip_by by done.
  apply has_char_lower.
Qed.

End AnchorEmpty.

(** X1: the anchor of any title is a slug: it is made of lower-case
    letters, digits and marks of [\w] other than the underscore, and of
    hyphens; no two hyphens are neighbours, and it neither starts nor ends
    with a hyphen.  An anchor is its own anchor. *)
Theorem create_url_anchor_is_slug (title : string) :
  Shape.slug (Chapter.create_url_anchor title)
  ∧ Chapter.create_url_anchor (Chapter.create_url_anchor title)
    = Chapter.create_url_anchor title.
Proof.
  split; [apply create_url_anchor_slug|].
  apply slug_fixed, create_url_anchor_slug.
Qed.

(** X2: the anchor is empty exactly for the titles without a letter, digit
    or other character of [\w] besides the underscore. *)
Theorem create_url_anchor_empty (title : string) :
  Chapter.create_url_anchor title = ""
  ↔ Shape.has_char Shape.is_alnum_char title = false.
Proof.
  rewrite <-create_url_anchor_has_char.
  apply slug_empty, create_url_anchor_slug.
Qed.

(** ** Decimal numerals *)

Section DigitFacts.
Import Shape.

Lemma int_go_cons acc c s :
  int_go acc (String c s) = int_go (10 * acc + Py.digit_val c) s.
Proof. reflexivity. Qed.

Lemma int_go_shift s : ∀ acc,
  int_go acc s = (acc * 10 ^ Z.of_nat (String.length s) + int_go 0 s)%Z.
Proof.
  induction s as [|c s IH]; intros acc.
  - unfold int_go. simpl. lia.
  - rewrite !int_go_cons, (IH (10 * acc + _)%Z), (IH (10 * 0 + _)%Z).
    change (String.length (String c s)) with (S (String.length s)).
    rewrite Nat2Z.inj_succ, Z.pow_succ_r by lia. lia.
Qed.

Lemma int_of_digits_go s : Py.int_of_digits s = int_go 0 s.
Proof. reflexivity. Qed.

Lemma pretty_N_char_digit x :
  (x < 10)%N →
  Py.is_digit (pretty_N_char x) = true
  ∧ Py.digit_val (pretty_N_char x) = Z.of_N x.
Proof.
  intros Hx.
  assert (x = 0 ∨ x = 1 ∨ x = 2 ∨ x = 3 ∨ x = 4 ∨ x = 5 ∨ x = 6 ∨ x = 7
          ∨ x = 8 ∨ x = 9)%N as Hcases by lia.
  repeat destruct Hcases as [->|Hcases]; try subst x; by vm_compute.
Qed.

Lemma pretty_N_go_digits x : ∀ s,
  all_chars Py.is_digit s = true →
  all_chars Py.is_digit (pretty_N_go x s) = true
  ∧ int_go 0 (pretty_N_go x s)
    = (Z.of_N x * 10 ^ Z.of_nat (String.length s) + int_go 0 s)%Z.
Proof.
  induction (N.lt_wf_0 x) as [x _ IH]; intros s Hs.
  assert (x = 0 ∨ 0 < x)%N as [->|Hx] by lia.
  - rewrite pretty_N_go_0. split; [done|lia].
  - rewrite pretty_N_go_step by done.
    destruct (pretty_N_char_digit (x `mod` 10)) as [Hd Hv];
      [by apply N.mod_lt|].
    destruct (IH (x `div` 10)%N (N.div_lt x 10 Hx eq_refl)
                 (String (pretty_N_char (x `mod` 10)) s)) as [IH1 IH2].
    { simpl. by rewrite Hd, Hs. }
    split; [done|]. rewrite IH2, int_go_cons, int_go_shift, Hv.
    change (String.length (String _ s)) with (S (String.length s)).
    rewrite Nat2Z.inj_succ, Z.pow_succ_r by lia.
    rewrite N2Z.inj_div, N2Z.inj_mod.
    pose proof (Z.div_mod (Z.of_N x) 10). change (Z.of_N 10) with 10%Z. nia.
Qed.

Lemma pretty_N_go_nonempty x s : (0 < x)%N → pretty_N_go x s ≠ "".
Proof.
  intros Hx. cut (∀ y t, t ≠ "" → pretty_N_go y t ≠ "").
  { intros Hcut. rewrite pretty_N_go_step by done. by apply Hcut. }
  clear. intros y. induction (N.lt_wf_0 y) as [y _ IH]; intros t Ht.
  assert (y = 0 ∨ 0 < y)%N as [->|Hy] by lia.
  - by rewrite pretty_N_go_0.
  - rewrite pretty_N_go_step by done. apply IH; [by apply N.div_lt|done].
Qed.

(** [str(n)] of a natural number is a numeral, and [int] reads it back. *)
Lemma str_numeral (z : Z) :
  (0 ≤ z)%Z →
  Py.str z ≠ "" ∧ all_chars Py.is_digit (Py.str z) = true
  ∧ Py.int_of_digits (Py.str z) = z.
Proof.
  intros Hz. destruct z as [|p|p]; [by vm_compute| |lia].
  unfold Py.str, pretty, pretty_Z, pretty, pretty_positive, pretty, pretty_N.
  rewrite decide_False by done.
  destruct (pretty_N_go_digits (N.pos p) "") as [Hd Hv]; [done|].
  split; [by apply pretty_N_go_nonempty|]. split; [done|].
  rewrite int_of_digits_go, Hv. unfold int_go. simpl. lia.
Qed.

End DigitFacts.

(** ** [extract_chapter_number] *)

Section ChapterNumberFacts.
Import Shape Agent Chapter.

Local Arguments eat_ci : simpl never.
Local Arguments span1 : simpl never.

Lemma lower_str_app s t :
  Spec.lower_str (s +:+ t) = Spec.lower_str s +:+ Spec.lower_str t.
Proof.
  induction s as [|c s IH]; [done|].
  rewrite str_app_cons. simpl. by rewrite IH.
Qed.

Lemma lower_str_app_inv s a b :
  Spec.lower_str s = a +:+ b →
  ∃ s1 s2, s = s1 +:+ s2 ∧ Spec.lower_str s1 = a ∧ Spec.lower_str s2 = b.
Proof.
  revert s. induction a as [|c a IH]; intros s Hs.
  - by exists "", s.
  - destruct s as [|d s]; [done|]. rewrite str_app_cons in Hs.
    injection Hs as Hd Hs. destruct (IH s Hs) as (s1 & s2 & -> & H1 & H2).
    exists (String d s1), s2. simpl. by rewrite Hd, H1.
Qed.

Lemma eat_ci_cons a lit c s :
  eat_ci (String a lit) (String c s)
  = if decide (Py.to_lower c = a) then eat_ci lit s else None.
Proof. reflexivity. Qed.

Lemma eat_ci_app lit stem x :
  Spec.lower_str stem = lit → eat_ci lit (stem +:+ x) = Some x.
Proof.
  revert lit. induction stem as [|c stem IH]; intros lit <-; [done|].
  rewrite str_app_cons. simpl Spec.lower_str.
  rewrite eat_ci_cons, decide_True by done. by apply IH.
Qed.

Lemma eat_ci_starts lit c s p :
  (∀ d, p d = true → Py.to_lower d ≠ c) → Text.starts_in p s = true →
  eat_ci (String c lit) s = None.
Proof.
  intros Hp Hs. destruct s as [|d s]; [done|]. simpl in Hs.
  rewrite eat_ci_cons, decide_False; [done|]. by apply Hp.
Qed.

Lemma span_app p ds rest :
  all_chars p ds = true → Text.starts_in p rest = false →
  span p (ds +:+ rest) = (ds, rest).
Proof.
  intros Hds Hrest. induction ds as [|c ds IH].
  - rewrite str_app_nil_l. destruct rest as [|d rest]; [done|].
    simpl in *. by rewrite Hrest.
  - simpl in Hds. apply andb_true_iff in Hds as [Hc Hds].
    rewrite str_app_cons. simpl. by rewrite Hc, IH.
Qed.

Lemma span1_app p ds rest :
  ds ≠ "" → all_chars p ds = true → Text.starts_in p rest = false →
  span1 p (ds +:+ rest) = Some (ds, rest).
Proof.
  intros Hne Hds Hrest. unfold span1. rewrite span_app by done.
  by rewrite decide_False.
Qed.

Lemma to_lower_digit : ∀ d,
  Py.is_digit d = true →
  Py.to_lower d ≠ "c"%char ∧ Py.to_lower d ≠ "a"%char ∧ d ≠ "-"%char.
Proof. by_chars. Qed.

Lemma to_lower_hyphen : ∀ c, Py.to_lower c = "-"%char → c = "-"%char.
Proof. by_chars. Qed.

Lemma starts_in_app p ds rest :
  ds ≠ "" → all_chars p ds = true → Text.starts_in p (ds +:+ rest) = true.
Proof.
  destruct ds as [|c ds]; [done|]. intros _. simpl.
  by intros [-> _]%andb_true_iff.
Qed.

Lemma eat_char_starts c s p :
  (∀ d, p d = true → d ≠ c) → Text.starts_in p s = true → eat_char c s = None.
Proof.
  intros Hp Hs. destruct s as [|d s]; [done|]. simpl in *.
  rewrite decide_False; [done|]. by apply Hp.
Qed.

Lemma eat_char_app c x : eat_char c (String c x) = Some x.
Proof. simpl. by rewrite decide_True. Qed.

(** The four spellings in front of the number. *)
Lemma match_chapter_stem stem ds rest :
  Spec.lower_str stem ∈ ["ch"; "ch-"; "chapter"; "chapter-"] →
  ds ≠ "" → all_chars Py.is_digit ds = true →
  Text.starts_in Py.is_digit rest = false →
  match_chapter (stem +:+ ds +:+ rest) = Some ds.
Proof.
  intros Hstem Hne Hds Hrest.
  pose proof (starts_in_app Py.is_digit ds rest Hne Hds) as Hstart.
  assert (eat_ci "apter" (ds +:+ rest) = None) as Hno_apter.
  { eapply eat_ci_starts; [|exact Hstart]. intros d Hd. by apply to_lower_digit. }
  assert (eat_char "-" (ds +:+ rest) = None) as Hno_hyphen.
  { eapply eat_char_starts; [|exact Hstart]. intros d Hd. by apply to_lower_digit. }
  assert (∀ b, Spec.lower_str b = "-" → b = "-") as Hhy.
  { intros [|c [|??]] Hb; try done. simpl in Hb. injection Hb as Hc.
    by apply to_lower_hyphen in Hc as ->. }
  unfold match_chapter.
  repeat (apply elem_of_cons in Hstem as [Hstem|Hstem]);
    [..|by apply elem_of_nil in Hstem].
  - rewrite (eat_ci_app "ch" stem) by done. simpl.
    rewrite Hno_apter. simpl. rewrite Hno_hyphen. simpl.
    by rewrite (span1_app _ ds rest).
  - apply (lower_str_app_inv stem "ch" "-") in Hstem
      as (s1 & s2 & -> & H1 & ->%Hhy).
    rewrite str_app_assoc, (eat_ci_app "ch" s1) by done. simpl.
    by rewrite (span1_app _ ds rest).
  - apply (lower_str_app_inv stem "ch" "apter") in Hstem
      as (s1 & s2 & -> & H1 & H2).
    rewrite str_app_assoc, (eat_ci_app "ch" s1) by done. simpl.
    rewrite (eat_ci_app "apter" s2) by done. simpl.
    rewrite Hno_hyphen. simpl. by rewrite (span1_app _ ds rest).
  - apply (lower_str_app_inv stem "ch" "apter-") in Hstem
      as (s1 & s2 & -> & H1 & H2).
    apply (lower_str_app_inv s2 "apter" "-") in H2
      as (s3 & s4 & -> & H3 & ->%Hhy).
    rewrite !str_app_assoc, (eat_ci_app "ch" s1) by done. simpl.
    rewrite (eat_ci_app "apter" s3) by done. simpl.
    rewrite ?str_app_cons, ?str_app_nil_l, ?eat_char_app. simpl.
    by rewrite (span1_app _ ds rest).
Qed.

End ChapterNumberFacts.

Section SearchFacts.
Import Re.

Lemma Matches_star_any s : Matches (Star any) s.
Proof.
  induction s as [|c s IH]; [constructor|].
  change (String c s) with (String c "" +:+ s).
  constructor; [by constructor|done].
Qed.

Lemma search_Matches r s :
  search r s = true ↔ ∃ a u b, s = a +:+ u +:+ b ∧ Matches r u.
Proof.
  unfold search. rewrite fullmatch_Matches. split.
  - intros (a & ub & -> & _ & (u & b & -> & Hu & _)%Matches_cat_inv)%Matches_cat_inv.
    by exists a, u, b.
  - intros (a & u & b & -> & Hu).
    constructor; [apply Matches_star_any|].
    constructor; [done|apply Matches_star_any].
Qed.

Lemma Matches_lit_ci k u :
  Matches (lit_ci k) u ↔ Spec.lower_str u = Spec.lower_str k.
Proof.
  revert u. induction k as [|c k IH]; intros u; simpl.
  - split; [by intros ->%Matches_eps_inv|].
    intros ->%lower_str_nil. constructor.
  - split.
    + intros (v & w & -> & (d & -> & Hd%bool_decide_eq_true)%Matches_chr_inv
              & Hw%IH)%Matches_cat_inv.
      rewrite str_app_cons, str_app_nil_l. simpl. by rewrite Hd, Hw.
    + destruct u as [|d u]; [done|]. simpl. intros [= Hd Hu].
      change (String d u) with (String d "" +:+ u).
      constructor; [|by apply IH].
      constructor. by apply bool_decide_eq_true.
Qed.

Lemma Matches_alts rs u : Matches (alts rs) u ↔ ∃ r, r ∈ rs ∧ Matches r u.
Proof.
  induction rs as [|r rs IH]; simpl.
  - split; [inversion 1|]. by intros (r & ?%elem_of_nil & _).
  - split.
    + intros [Hr|(q & Hq & Hm)%IH]%Matches_alt_inv.
      * exists r. split; [left|done].
      * exists q. split; [by right|done].
    + intros (q & [->|Hq]%elem_of_cons & Hm).
      * by apply Matches_alt_l.
      * apply Matches_alt_r, IH. by exists q.
Qed.

Lemma prefix_spec t s : String.prefix t s = true ↔ ∃ b, s = t +:+ b.
Proof.
  revert s. induction t as [|c t IH]; intros [|d s]; simpl.
  - split; [by exists ""|done].
  - split; [by exists (String d s)|done].
  - split; [done|]. by intros (b & ?).
  - destruct (ascii_dec c d) as [->|Hcd].
    + rewrite IH. split; intros (b & Hb); exists b.
      * by rewrite str_app_cons, Hb.
      * rewrite str_app_cons in Hb. by injection Hb.
    + split; [done|]. intros (b & Hb). rewrite str_app_cons in Hb.
      injection Hb as ??. congruence.
Qed.

Lemma contains_spec t s :
  Text.contains t s = true ↔ ∃ a b, s = a +:+ t +:+ b.
Proof.
  induction s as [|c s IH].
  - unfold Text.contains. rewrite orb_false_r, prefix_spec. split.
    + intros (b & Hb). by exists "", b.
    + intros (a & b & Hab). destruct a; [by exists b|discriminate].
  - change (Text.contains t (String c s))
      with (String.prefix t (String c s) || Text.contains t s).
    rewrite orb_true_iff, prefix_spec, IH. split.
    + intros [(b & Hb)|(a & b & ->)]; [by exists "", b|].
      by exists (String c a), b.
    + intros ([|d a] & b & Hab).
      * left. by exists b.
      * right. rewrite str_app_cons in Hab. injection Hab as -> ->.
        by exists a, b.
Qed.

(** A search for one of several words, whatever the letter case, is a
    search for the words in the lower-cased text. *)
Lemma search_words_ci ks s :
  Forall (λ k, Spec.lower_str k = k) ks →
  search (alts (lit_ci <$> ks)) s
  = existsb (λ k, Text.contains k (Spec.lower_str s)) ks.
Proof.
  intros Hks. apply eq_true_iff_eq.
  rewrite search_Matches, existsb_exists. split.
  - intros (a & u & b & -> & (r & (k & -> & Hk)%list_elem_of_fmap & Hm)%Matches_alts).
    apply Matches_lit_ci in Hm. exists k. split; [by apply list_elem_of_In|].
    apply contains_spec. exists (Spec.lower_str a), (Spec.lower_str b).
    rewrite !lower_str_app, Hm.
    by rewrite (proj1 (Forall_forall _ _) Hks k Hk).
  - intros (k & Hk%list_elem_of_In & (a & b & Hab)%contains_spec).
    apply lower_str_app_inv in Hab as (a' & ub & -> & Ha & Hub).
    apply lower_str_app_inv in Hub as (u & b' & -> & Hu & Hb).
    exists a', u, b'. split; [done|]. apply Matches_alts.
    exists (lit_ci k). split; [by apply list_elem_of_fmap_2|].
    apply Matches_lit_ci. by rewrite (proj1 (Forall_forall _ _) Hks k Hk).
Qed.

End SearchFacts.

Section ChapterNumberFacts2.
Import Shape Agent Chapter.

Local Arguments eat_ci : simpl never.
Local Arguments span1 : simpl never.

Lemma search_group_here m s g : m s = Some g → search_group m s = Some g.
Proof. intros Hm. destruct s; simpl; by rewrite Hm. Qed.

Lemma span1_starts p s run rest :
  span1 p s = Some (run, rest) → Text.starts_in p s = true.
Proof.
  unfold span1. destruct s as [|c s]; simpl; [done|].
  destruct (p c); [done|]. simpl. done.
Qed.

Lemma starts_has_char p s : Text.starts_in p s = true → has_char p s = true.
Proof. destruct s; simpl; [done|]. by intros ->. Qed.

Lemma eat_ci_has_char p lit : ∀ s r,
  eat_ci lit s = Some r → has_char p r = true → has_char p s = true.
Proof.
  induction lit as [|a lit IH]; intros s r.
  - destruct s; by intros [= ->].
  - destruct s as [|c s]; [done|]. rewrite eat_ci_cons.
    destruct (decide _); [|done]. intros Hr Hp. simpl.
    rewrite (IH s r) by done. apply orb_true_r.
Qed.

Lemma eat_char_has_char p c s r :
  eat_char c s = Some r → has_char p r = true → has_char p s = true.
Proof.
  destruct s as [|d s]; simpl; [done|]. destruct (decide _); [|done].
  intros [= ->] ->. apply orb_true_r.
Qed.

Lemma match_chapter_no_digit s :
  has_char Py.is_digit s = false → match_chapter s = None.
Proof.
  intros Hs. unfold match_chapter.
  destruct (eat_ci "ch" s) as [r1|] eqn:H1; [simpl|done].
  destruct (span1 Py.is_digit _) as [[run rest]|] eqn:Hspan; [|done].
  apply span1_starts, starts_has_char in Hspan.
  assert (has_char Py.is_digit r1 = true) as Hr1;
    [|pose proof (eat_ci_has_char Py.is_digit _ _ _ H1 Hr1); congruence].
  destruct (eat_ci "apter" r1) as [r2|] eqn:H2; simpl in Hspan.
  - eapply eat_ci_has_char; [exact H2|].
    destruct (eat_char "-" r2) as [r3|] eqn:H3; simpl in Hspan; [|done].
    by eapply eat_char_has_char.
  - destruct (eat_char "-" r1) as [r3|] eqn:H3; simpl in Hspan; [|done].
    by eapply eat_char_has_char.
Qed.

Lemma match_leading_no_digit s :
  has_char Py.is_digit s = false → match_leading s = None.
Proof.
  intros Hs. unfold match_leading.
  destruct (span1 Py.is_digit s) as [[run rest]|] eqn:Hspan; [|done].
  apply span1_starts, starts_has_char in Hspan. congruence.
Qed.

Lemma search_group_no_digit m s :
  (∀ t, has_char Py.is_digit t = false → m t = None) →
  has_char Py.is_digit s = false → search_group m s = None.
Proof.
  intros Hm. induction s as [|c s IH]; intros Hs; simpl.
  - by rewrite Hm.
  - rewrite Hm by done. simpl in Hs. apply orb_false_iff in Hs as [_ Hs]. auto.
Qed.

Lemma match_chapter_digit_start s :
  Text.starts_in Py.is_digit s = true → match_chapter s = None.
Proof.
  intros Hs. unfold match_chapter.
  rewrite (eat_ci_starts _ _ _ Py.is_digit); [done| |done].
  intros d Hd. by apply to_lower_digit.
Qed.

Lemma search_chapter_skip_digits ds y :
  all_chars Py.is_digit ds = true →
  search_group match_chapter (ds +:+ y) = search_group match_chapter y.
Proof.
  induction ds as [|c ds IH]; [done|].
  intros [Hc Hds]%andb_true_iff. rewrite str_app_cons.
  change (search_group match_chapter (String c (ds +:+ y))) with
    (match match_chapter (String c (ds +:+ y)) with
     | Some g => Some g
     | None => search_group match_chapter (ds +:+ y)
     end).
  rewrite match_chapter_digit_start by done. auto.
Qed.

End ChapterNumberFacts2.

(** X3: a file name made of [ch] or [chapter], in any letter case, an
    optional hyphen and a number gives that number, whatever follows the
    number, when the numeral has at most 4300 digits; with a longer
    numeral [int] raises. *)
Theorem extract_chapter_number_named (stem : string) (n : nat) (rest : string) :
  Spec.lower_str stem ∈ ["ch"; "ch-"; "chapter"; "chapter-"] →
  Text.starts_in Py.is_digit rest = false →
  Chapter.extract_chapter_number (stem +:+ Py.str (Z.of_nat n) +:+ rest)
  = if String.length (Py.str (Z.of_nat n)) <=? 4300 then Some (Z.of_nat n)
    else None.
Proof.
  intros Hstem Hrest.
  destruct (str_numeral (Z.of_nat n)) as (Hne & Hds & Hint); [lia|].
  unfold Chapter.extract_chapter_number.
  rewrite (search_group_here _ _ (Py.str (Z.of_nat n)))
    by by apply match_chapter_stem.
  destruct (Nat.leb_spec (String.length (Py.str (Z.of_nat n))) 4300).
  - by rewrite int_readable, Hint.
  - by rewrite int_unreadable.
Qed.

Lemma extract_chapter_number_named_witness :
  Chapter.extract_chapter_number "Chapter-12_dynamics.md" = Some 12%Z.
Proof.
  refine (eq_trans
            (extract_chapter_number_named "Chapter-" 12 "_dynamics.md" _ _) _).
  - vm_compute. do 3 right. left.
  - reflexivity.
  - reflexivity.
Defined.

(** X4: a path that starts with digits and a hyphen and has no further
    digit gives the number that the digits spell, leading zeros
    notwithstanding, when there are at most 4300 digits; with more digits
    [int] raises. *)
Theorem extract_chapter_number_leading (ds title : string) :
  ds ≠ "" → Shape.all_chars Py.is_digit ds = true →
  Shape.has_char Py.is_digit title = false →
  Chapter.extract_chapter_number (ds +:+ "-" +:+ title)
  = if String.length ds <=? 4300 then Some (Py.int_of_digits ds) else None.
Proof.
  intros Hne Hds Htitle. unfold Chapter.extract_chapter_number.
  rewrite search_chapter_skip_digits by done.
  rewrite search_group_no_digit; [|apply match_chapter_no_digit|done].
  rewrite (search_group_here _ _ ds).
  - destruct (Nat.leb_spec (String.length ds) 4300).
    + by rewrite int_readable.
    + by rewrite int_unreadable.
  - unfold Chapter.match_leading.
    rewrite (span1_app _ ds ("-" +:+ title)) by done. simpl.
    by rewrite ?decide_True.
Qed.

Lemma extract_chapter_number_leading_witness :
  Chapter.extract_chapter_number "03-kinematics.md" = Some 3%Z
  ∧ Chapter.extract_chapter_number (Fixture.rep 4301 "0" +:+ "-x.md") = None.
Proof.
  split.
  - refine (eq_trans
              (extract_chapter_number_leading "03" "kinematics.md" _ _ _) _);
      [discriminate|reflexivity|reflexivity|reflexivity].
  - refine (eq_trans
              (extract_chapter_number_leading (Fixture.rep 4301 "0") "x.md"
                 _ _ _) _).
    + by vm_compute.
    + by vm_compute.
    + reflexivity.
    + by vm_compute.
Defined.

(** X5: for a path without any digit the chapter number is 0 when the
    path contains, in any letter case, one of the words for front and
    back matter, and extraction fails otherwise. *)
Theorem extract_chapter_number_no_digit (file_path : string) :
  Shape.has_char Py.is_digit file_path = false →
  Chapter.extract_chapter_number file_path
  = if existsb (λ k, Text.contains k (Spec.lower_str file_path))
               Chapter.front_back_matter
    then Some 0%Z else None.
Proof.
  intros Hpath. unfold Chapter.extract_chapter_number.
  rewrite search_group_no_digit; [|apply match_chapter_no_digit|done].
  rewrite search_group_no_digit; [|apply match_leading_no_digit|done].
  rewrite search_words_ci; [done|].
  repeat constructor.
Qed.

Lemma extract_chapter_number_no_digit_witness :
  Chapter.extract_chapter_number "docs/Glossary.md" = Some 0%Z
  ∧ Chapter.extract_chapter_number "docs/notes.md" = None.
Proof.
  split.
  - by rewrite (extract_chapter_number_no_digit "docs/Glossary.md").
  - by rewrite (extract_chapter_number_no_digit "docs/notes.md").
Defined.

(** ** [chunk_textbook_chapter] *)

Section PipelineFacts.
Import Chunking Shape.
Context `{Tokenizer, SentenceModel}.

Lemma merge_loop_from_section `{UuidSource} s source_file chunk_texts :
  ∀ idx chunks,
  Forall (from_section s source_file) chunks →
  Forall (from_section s source_file)
         (merge_loop s source_file idx chunk_texts chunks).
Proof.
  induction chunk_texts as [|chunk_text chunk_texts IH]; intros idx chunks Hc;
    [done|].
  simpl. apply IH.
  assert (∀ d n i, Forall (from_section s source_file)
    (chunks ++ [new_chunk d s source_file chunk_text n i])) as Happ.
  { intros. apply Forall_app. by repeat constructor. }
  case_match; [|apply Happ].
  destruct (last chunks) as [prev|] eqn:Hlast; [|apply Happ].
  case_match; [|apply Happ].
  apply last_Some in Hlast as [l ->]. rewrite removelast_last.
  apply Forall_app in Hc as [Hl Hprev]. apply Forall_inv in Hprev.
  apply Forall_app. split; [done|]. by apply Forall_singleton.
Qed.

Lemma chunk_section_from_section `{UuidSource} s source_file :
  Forall (from_section s source_file) (chunk_section s source_file).
Proof.
  unfold chunk_section. case_match; [by repeat constructor|].
  by apply merge_loop_from_section.
Qed.

Context `{U : UuidSource}.

Lemma chunk_sections_snoc sections s source_file :
  Chapter.chunk_sections (sections ++ [s]) source_file
  = Chapter.chunk_sections sections source_file
    ++ @chunk_section _ _
         (λ n, uuid4 (length (Chapter.chunk_sections sections source_file) + n))
         s source_file.
Proof. unfold Chapter.chunk_sections. by rewrite foldl_app. Qed.

Lemma chunk_sections_Forall (P : ChunkMetadata → Prop) sections source_file :
  (∀ (V : UuidSource) s, s ∈ sections →
     Forall P (@chunk_section _ _ V s source_file)) →
  Forall P (Chapter.chunk_sections sections source_file).
Proof.
  induction sections as [|s sections IH] using rev_ind; intros HP; [done|].
  rewrite chunk_sections_snoc. apply Forall_app. split.
  - apply IH. intros V s' Hs'. apply HP. apply elem_of_app. by left.
  - apply HP. apply elem_of_app. right. by apply list_elem_of_singleton.
Qed.

Lemma chunk_sections_words sections source_file :
  (∀ sents, nlp = Some sents → ∀ t, sents t ≫= Py.split_ws = Py.split_ws t) →
  (text <$> Chapter.chunk_sections sections source_file) ≫= Py.split_ws
  = sections ≫= (λ s, Py.split_ws (content s)).
Proof.
  intros Hnlp. induction sections as [|s sections IH] using rev_ind; [done|].
  rewrite chunk_sections_snoc, fmap_app, !bind_app, IH. csimpl.
  by rewrite app_nil_r, chunk_section_words.
Qed.

End PipelineFacts.

Section ParserInvariants.
Import Chunking Shape.
Context `{AnchorMaker}.

(** A property of the sections that holds for each new section and does
    not depend on the content holds for all sections of the result. *)
Lemma parse_lines_pending_Forall (P : MdSection → Prop) chapter lines :
  (∀ s c, P s → P (set_content s c)) →
  (∀ lvl ttl m, 1 ≤ lvl ≤ 6 → P (new_section chapter lvl ttl m)) →
  ∀ st, Forall P (Spec.pending st) →
        Forall P (Spec.pending (parse_lines chapter st lines)).
Proof.
  intros Hset Hnew.
  induction lines as [|line lines IH]; intros st Hst; [done|].
  apply IH. destruct (header_match line) as [[lvl g]|] eqn:Hm.
  2:{ by destruct (parse_line_body chapter st line Hm) as [-> _]. }
  pose proof (header_match_level _ _ _ Hm) as Hlvl.
  unfold parse_line. rewrite Hm. unfold Spec.pending in *. simpl.
  apply Forall_app in Hst as [Hsecs Hcur].
  apply Forall_app. split; [|by apply Forall_singleton, Hnew].
  apply save_section_Forall; [done|done|].
  intros s Hs. rewrite Hs in Hcur. by apply Forall_inv in Hcur.
Qed.

Lemma parse_markdown_sections_Forall (P : MdSection → Prop) text chapter
    source_file :
  (∀ s c, P s → P (set_content s c)) →
  (∀ lvl ttl m, 1 ≤ lvl ≤ 6 → P (new_section chapter lvl ttl m)) →
  Forall P (parse_markdown_sections text chapter source_file).
Proof.
  intros Hset Hnew. unfold parse_markdown_sections, finish.
  pose proof (parse_lines_pending_Forall P chapter (Py.split_on "010" text)
                Hset Hnew initial_state (Forall_nil_2 _)) as HP.
  apply Forall_app in HP as [Hsecs Hcur].
  apply save_section_Forall; [done|done|].
  intros s Hs. rewrite Hs in Hcur. by apply Forall_inv in Hcur.
Qed.

End ParserInvariants.

(** X6: a chapter text without any heading line gives no chunk at all,
    whatever it contains; the result is the empty list when the chapter
    number is given or can be read from the path, and the error of
    [extract_chapter_number] otherwise. *)
Theorem chunk_textbook_chapter_no_heading `{Tokenizer, SentenceModel, UuidSource}
    (markdown_text source_file : string) (chapter : option Z) :
  Forall (λ l, Chunking.header_match l = None)
         (Py.split_on "010" markdown_text) →
  Chapter.chunk_textbook_chapter markdown_text source_file chapter
  = match chapter with
    | Some _ => Some []
    | None => (λ _, []) <$> Chapter.extract_chapter_number source_file
    end.
Proof.
  intros Hlines.
  assert (∀ c, @Chunking.parse_markdown_sections Chapter.slug_anchor
                 markdown_text c source_file = []) as Hparse.
  { intros c. unfold Chunking.parse_markdown_sections.
    by rewrite parse_lines_before_heading. }
  unfold Chapter.chunk_textbook_chapter.
  destruct chapter as [c|]; simpl; [by rewrite Hparse|].
  destruct (Chapter.extract_chapter_number source_file) as [c|]; simpl;
    [by rewrite Hparse|done].
Qed.

Lemma chunk_textbook_chapter_no_heading_witness :
  @Chapter.chunk_textbook_chapter Fixture.simple_tokenizer Fixture.no_spacy
    Fixture.counting_uuid Fixture.front_matter "intro.md" None = Some []
  ∧ @Chapter.chunk_textbook_chapter Fixture.simple_tokenizer Fixture.no_spacy
      Fixture.counting_uuid Fixture.front_matter "notes.md" None = None.
Proof.
  split.
  - rewrite (@chunk_textbook_chapter_no_heading Fixture.simple_tokenizer
               Fixture.no_spacy Fixture.counting_uuid Fixture.front_matter
               "intro.md" None); [reflexivity|].
    apply (bool_decide_unpack _). by vm_compute.
  - rewrite (@chunk_textbook_chapter_no_heading Fixture.simple_tokenizer
               Fixture.no_spacy Fixture.counting_uuid Fixture.front_matter
               "notes.md" None); [reflexivity|].
    apply (bool_decide_unpack _). by vm_compute.
Defined.

(** X7: every chunk of a chapter carries the chapter number and the source
    file that were given, the token count of its own text, the anchor of
    its section, which is a slug, and a section identifier that is the
    chapter number or the chapter number, a dot and a counter value. *)
Theorem chunk_textbook_chapter_metadata `{Tokenizer, SentenceModel, UuidSource}
    (markdown_text source_file : string) (chapter : Z)
    (chunks : list Chunking.ChunkMetadata) :
  Chapter.chunk_textbook_chapter markdown_text source_file (Some chapter)
    = Some chunks →
  Forall (Shape.chunk_of_chapter chapter source_file) chunks.
Proof.
  intros [= <-]. apply chunk_sections_Forall. intros V s Hs.
  assert (Chunking.sec_chapter s = chapter
          ∧ Shape.slug (Chunking.sec_url_anchor s)
          ∧ Spec.id_form chapter s) as (Hch & Hslug & Hid).
  { revert s Hs. apply Forall_forall.
    apply (@parse_markdown_sections_Forall Chapter.slug_anchor
             (λ s, Chunking.sec_chapter s = chapter
                   ∧ Shape.slug (Chunking.sec_url_anchor s)
                   ∧ Spec.id_form chapter s)).
    - by intros s c.
    - intros lvl ttl m _. split; [done|]. split.
      + apply create_url_anchor_slug.
      + apply (@new_section_id_form Chapter.slug_anchor). }
  pose proof (@chunk_section_from_section _ _ V s source_file) as Hfrom.
  pose proof (@chunk_section_token_count _ _ V s source_file) as Hcount.
  rewrite Forall_forall in Hfrom, Hcount. apply Forall_forall. intros c Hc.
  destruct (Hfrom c Hc) as (Hc1 & Hc2 & _ & Hc4 & Hc5).
  split; [congruence|]. split; [done|]. split; [by apply Hcount|].
  split; [by rewrite Hc4|].
  rewrite Hc2. unfold Spec.id_form in Hid. case_decide; [by left|by right].
Qed.

Lemma chunk_textbook_chapter_metadata_witness :
  ∃ chunks,
    @Chapter.chunk_textbook_chapter Fixture.simple_tokenizer Fixture.no_spacy
      Fixture.counting_uuid Fixture.one_part "chapter-3.md" (Some 3%Z)
    = Some chunks
    ∧ Chunking.section <$> chunks = ["3"; "3.1"; "3.1"; "3.2"]
    ∧ Chunking.url_anchor <$> chunks
      = ["kinematics"; "forward"; "detail"; "inverse"]
    ∧ Forall (@Shape.chunk_of_chapter Fixture.simple_tokenizer 3 "chapter-3.md")
             chunks.
Proof.
  eexists. split; [reflexivity|]. split; [by vm_compute|].
  split; [by vm_compute|].
  by apply (@chunk_textbook_chapter_metadata Fixture.simple_tokenizer
              Fixture.no_spacy Fixture.counting_uuid Fixture.one_part
              "chapter-3.md" 3%Z).
Defined.

Section WordFacts.
Import Chunking Shape.

Lemma split_ws_lstrip s : Py.split_ws (Py.lstrip s) = Py.split_ws s.
Proof.
  induction s as [|c s IH]; [done|]. simpl.
  destruct (Py.is_space c) eqn:Hc; [done|]. simpl. by rewrite Hc.
Qed.

Lemma starts_word_rstrip s : Py.starts_word (Py.rstrip s) = Py.starts_word s.
Proof.
  destruct s as [|c s]; [done|]. simpl.
  destruct (Py.rstrip s); [|done].
  destruct (Py.is_space c) eqn:Hc; simpl; by rewrite ?Hc.
Qed.

Lemma split_ws_rstrip s : Py.split_ws (Py.rstrip s) = Py.split_ws s.
Proof.
  induction s as [|c s IH]; [done|].
  change (Py.rstrip (String c s)) with
    (match Py.rstrip s with
     | "" => if Py.is_space c then "" else String c ""
     | r => String c r
     end).
  destruct (Py.rstrip s) as [|d r] eqn:Hr.
  - pose proof (starts_word_rstrip s) as Hsw. rewrite Hr in Hsw.
    simpl in IH, Hsw. simpl.
    destruct (Py.is_space c) eqn:Hc; simpl; [done|].
    by rewrite Hc, <-Hsw, <-IH.
  - apply split_ws_cons_congr; [done|].
    rewrite <-Hr. apply starts_word_rstrip.
Qed.

Lemma split_ws_strip s : Py.split_ws (Py.strip s) = Py.split_ws s.
Proof. unfold Py.strip. by rewrite split_ws_rstrip, split_ws_lstrip. Qed.

Lemma join_cons sep x y l :
  Py.join sep (x :: y :: l) = x +:+ sep +:+ Py.join sep (y :: l).
Proof. reflexivity. Qed.

Lemma split_ws_join_lines l :
  Py.split_ws (Py.join Py.NL l) = l ≫= Py.split_ws.
Proof.
  induction l as [|x [|y l] IH]; [done|..].
  - csimpl. by rewrite app_nil_r.
  - rewrite join_cons. unfold Py.NL at 1.
    rewrite str_app_cons, str_app_nil_l.
    rewrite split_ws_app_space, IH by done. done.
Qed.

Lemma join_split_on sep s :
  Py.join (String sep "") (Py.split_on sep s) = s.
Proof.
  induction s as [|c s IH]; [done|]. simpl.
  pose proof (split_on_nonempty sep s) as Hne.
  destruct (Py.split_on sep s) as [|x l] eqn:Hl; [done|].
  case_decide as Hc.
  - subst c. rewrite join_cons, IH. done.
  - simpl Py.cons_head. destruct l as [|y l].
    + simpl in *. by rewrite IH.
    + rewrite join_cons in *. rewrite str_app_cons. by rewrite IH.
Qed.

Lemma split_ws_lines text :
  Py.split_on "010" text ≫= Py.split_ws = Py.split_ws text.
Proof.
  rewrite <-split_ws_join_lines. unfold Py.NL. by rewrite join_split_on.
Qed.

Context `{AnchorMaker}.

Lemma save_section_words secs cur cc :
  save_section secs cur cc ≫= (λ s, Py.split_ws (content s))
  = (secs ≫= λ s, Py.split_ws (content s))
    ++ match cur with Some _ => cc ≫= Py.split_ws | None => [] end.
Proof.
  unfold save_section. destruct cur as [cur|]; [|by rewrite app_nil_r].
  rewrite <-split_ws_join_lines, <-split_ws_strip.
  case_decide as Hc; [by rewrite Hc, app_nil_r|].
  rewrite bind_app. csimpl. by rewrite app_nil_r.
Qed.

Lemma parse_line_words chapter st line :
  (current_section st = None → current_content st = []) →
  words_read (parse_line chapter st line)
  = words_read st ++ (body_lines (in_section st) [line] ≫= Py.split_ws).
Proof.
  intros Hcc. unfold parse_line, words_read, in_section. simpl.
  destruct (header_match line) as [[lvl g]|]; simpl.
  - rewrite save_section_words. by csimpl.
  - destruct (current_section st) as [cur|] eqn:Hcur; simpl; rewrite ?Hcur.
    + rewrite bind_app. csimpl. by rewrite !app_nil_r, app_assoc.
    + by rewrite !app_nil_r.
Qed.

Lemma body_lines_cons b line lines :
  body_lines b (line :: lines)
  = body_lines b [line]
    ++ body_lines (b || is_heading line) lines.
Proof.
  unfold is_heading. simpl. destruct (header_match line) as [p|].
  - by rewrite orb_true_r.
  - rewrite orb_false_r. by destruct b.
Qed.

Lemma parse_line_in_section chapter st line :
  in_section (parse_line chapter st line)
  = in_section st || is_heading line.
Proof.
  unfold parse_line, in_section, is_heading.
  destruct (header_match line) as [[lvl g]|]; simpl.
  - by rewrite orb_true_r.
  - rewrite orb_false_r.
    destruct (current_section st) eqn:Hcur; simpl; by rewrite ?Hcur.
Qed.

Lemma parse_line_content chapter st line :
  (current_section st = None → current_content st = []) →
  current_section (parse_line chapter st line) = None →
  current_content (parse_line chapter st line) = [].
Proof.
  unfold parse_line. destruct (header_match line) as [[lvl g]|]; [done|].
  destruct (current_section st) eqn:Hcur; [done|auto].
Qed.

Lemma parse_lines_words chapter lines : ∀ st,
  (current_section st = None → current_content st = []) →
  words_read (parse_lines chapter st lines)
  = words_read st ++ (body_lines (in_section st) lines ≫= Py.split_ws).
Proof.
  induction lines as [|line lines IH]; intros st Hcc.
  - simpl. by rewrite app_nil_r.
  - change (parse_lines chapter st (line :: lines))
      with (parse_lines chapter (parse_line chapter st line) lines).
    rewrite IH by by apply parse_line_content.
    rewrite parse_line_words, parse_line_in_section by done.
    rewrite (body_lines_cons _ line lines), bind_app. by rewrite app_assoc.
Qed.

Lemma parse_markdown_sections_words text chapter source_file :
  parse_markdown_sections text chapter source_file
    ≫= (λ s, Py.split_ws (content s))
  = body_lines false (Py.split_on "010" text) ≫= Py.split_ws.
Proof.
  unfold parse_markdown_sections, finish. rewrite save_section_words.
  pose proof (parse_lines_words chapter (Py.split_on "010" text) initial_state
                (λ _, eq_refl)) as Hw.
  unfold words_read in Hw at 1. by rewrite Hw.
Qed.

Lemma body_lines_sublist b lines : body_lines b lines `sublist_of` lines.
Proof.
  revert b. induction lines as [|line lines IH]; intros b; simpl; [done|].
  destruct (header_match line); [by apply sublist_cons|].
  destruct b; [by apply sublist_skip|by apply sublist_cons].
Qed.

Lemma section_words_of_text text chapter source_file s w :
  s ∈ parse_markdown_sections text chapter source_file →
  w ∈ Py.split_ws (content s) → w ∈ Py.split_ws text.
Proof.
  intros Hs Hw.
  assert (w ∈ parse_markdown_sections text chapter source_file
                ≫= (λ s, Py.split_ws (content s))) as Hin.
  { apply list_elem_of_bind. by exists s. }
  rewrite parse_markdown_sections_words in Hin.
  apply list_elem_of_bind in Hin as (line & Hwl & Hline).
  rewrite <-split_ws_lines. apply list_elem_of_bind. exists line.
  split; [done|]. eapply elem_of_sublist; [done|apply body_lines_sublist].
Qed.

End WordFacts.

(** X8: chunking a chapter keeps, in order, exactly the words of the lines
    that come after the first heading and are not headings themselves. *)
Theorem chunk_textbook_chapter_words `{Tokenizer, SentenceModel, UuidSource}
    (markdown_text source_file : string) (chapter : Z)
    (chunks : list Chunking.ChunkMetadata) :
  (∀ sents, nlp = Some sents → ∀ t, sents t ≫= Py.split_ws = Py.split_ws t) →
  Chapter.chunk_textbook_chapter markdown_text source_file (Some chapter)
    = Some chunks →
  (Chunking.text <$> chunks) ≫= Py.split_ws
  = Shape.body_lines false (Py.split_on "010" markdown_text) ≫= Py.split_ws.
Proof.
  intros Hnlp [= <-]. rewrite chunk_sections_words by done.
  apply (@parse_markdown_sections_words Chapter.slug_anchor).
Qed.

Lemma chunk_textbook_chapter_words_witness :
  ∃ chunks,
    @Chapter.chunk_textbook_chapter Fixture.simple_tokenizer Fixture.no_spacy
      Fixture.counting_uuid Fixture.one_part "chapter-3.md" (Some 3%Z)
    = Some chunks
    ∧ (Chunking.text <$> chunks) ≫= Py.split_ws = ["intro"; "fk"; "dh"; "ik"].
Proof.
  eexists. split; [reflexivity|].
  rewrite (@chunk_textbook_chapter_words Fixture.simple_tokenizer
             Fixture.no_spacy Fixture.counting_uuid Fixture.one_part
             "chapter-3.md" 3%Z _ (λ sents (Hs : None = Some sents), 
               match Hs with end) eq_refl).
  reflexivity.
Defined.

Lemma sentences_of_words `{SentenceModel} (t : string) :
  (∀ sents, nlp = Some sents → ∀ t, sents t ≫= Py.split_ws = Py.split_ws t) →
  Chunking.sentences_of t ≫= Py.split_ws = Py.split_ws t.
Proof.
  intros Hnlp. unfold Chunking.sentences_of.
  destruct nlp as [sents|] eqn:Hs; [by apply Hnlp|].
  apply re_split_sentences_words.
Qed.

(** X9: when the tokenizer counts the two sides of a space separately and
    no single word of the chapter has more than 512 tokens, no chunk of the
    chapter has more than 512 tokens. *)
Theorem chunk_textbook_chapter_token_ceiling
    `{Tokenizer, SentenceModel, UuidSource}
    (markdown_text source_file : string) (chapter : Z)
    (chunks : list Chunking.ChunkMetadata) :
  (∀ a b, count_tokens (a +:+ " " +:+ b) = count_tokens a + count_tokens b) →
  (∀ sents, nlp = Some sents → ∀ t, sents t ≫= Py.split_ws = Py.split_ws t) →
  Forall (λ w, count_tokens w ≤ Chunking.MAX_CHUNK_TOKENS)
         (Py.split_ws markdown_text) →
  Chapter.chunk_textbook_chapter markdown_text source_file (Some chapter)
    = Some chunks →
  Forall (λ c, Chunking.token_count c ≤ Chunking.MAX_CHUNK_TOKENS) chunks.
Proof.
  intros Hadd Hnlp Hwords [= <-]. apply chunk_sections_Forall. intros V s Hs.
  apply (@chunk_section_token_bound _ _ V Hadd).
  apply Forall_forall. intros sentence Hsentence.
  apply Forall_forall. intros w Hw.
  rewrite Forall_forall in Hwords. apply Hwords.
  eapply (@section_words_of_text Chapter.slug_anchor); [exact Hs|].
  rewrite <-(sentences_of_words _ Hnlp). apply list_elem_of_bind.
  by exists sentence.
Qed.

Lemma chunk_textbook_chapter_token_ceiling_witness :
  ∃ chunks,
    @Chapter.chunk_textbook_chapter Fixture.simple_tokenizer Fixture.no_spacy
      Fixture.counting_uuid Fixture.one_part "chapter-3.md" (Some 3%Z)
    = Some chunks
    ∧ Chunking.token_count <$> chunks = [1; 1; 1; 1]
    ∧ Forall (λ c, Chunking.token_count c ≤ Chunking.MAX_CHUNK_TOKENS) chunks.
Proof.
  eexists. split; [reflexivity|]. split; [by vm_compute|].
  apply (@chunk_textbook_chapter_token_ceiling Fixture.simple_tokenizer
           Fixture.no_spacy Fixture.counting_uuid Fixture.one_part
           "chapter-3.md" 3%Z).
  - intros a b. apply simple_count_space.
  - intros sents Hs. discriminate Hs.
  - apply (bool_decide_unpack _). by vm_compute.
  - reflexivity.
Defined.

(** ** [validators.py] *)

(** X10: for a minimum length of at least 1 the flag [allow_empty] has no
    effect on the verdict of [validate_query_text]: a query is accepted
    exactly when its length after stripping lies between the two bounds,
    and [None] is never accepted. *)
Theorem validate_query_text_verdict (query : option string)
    (min_length max_length : Z) (allow_empty : bool) :
  (1 ≤ min_length)%Z →
  (Validators.validate_query_text query min_length max_length allow_empty).1
    = true
  ↔ ∃ q, query = Some q
         ∧ (min_length ≤ Z.of_nat (String.length (Py.strip q)) ≤ max_length)%Z.
Proof.
  intros Hmin. unfold Validators.validate_query_text.
  destruct query as [q|]; [|split; [done|by intros (q & ? & _)]].
  remember (Z.of_nat (String.length (Py.strip q))) as n eqn:Hn.
  split.
  - intros Hv. exists q. split; [done|]. rewrite <-Hn.
    destruct (Z.eqb_spec n 0), (Z.ltb_spec n min_length),
      (Z.ltb_spec max_length n), allow_empty; simpl in Hv; try done; lia.
  - intros (q' & [= <-] & Hb). rewrite <-Hn in Hb.
    destruct (Z.eqb_spec n 0), (Z.ltb_spec n min_length),
      (Z.ltb_spec max_length n), allow_empty; simpl; try done; lia.
Qed.

Lemma validate_query_text_verdict_witness :
  (Validators.validate_query_text (Some "  What is IK?  ") 1 1000 true).1 = true
  ∧ (Validators.validate_query_text (Some "   ") 1 1000 true).1 = false.
Proof.
  split.
  - apply (validate_query_text_verdict (Some "  What is IK?  ") 1 1000 true);
      [lia|].
    eexists. split; [reflexivity|]. vm_compute. split; discriminate.
  - apply not_true_is_false.
    intros (q & [= <-] & Hq)%(validate_query_text_verdict _ 1 1000 true);
      [|lia].
    vm_compute in Hq. destruct Hq as [Hq _]. by apply Hq.
Defined.

Section SanitizeFacts.
Import Shape.

Lemma escape_char_plain : ∀ c,
  all_chars is_plain (Text.escape_char c) = negb (bool_decide (c = "000"%char)).
Proof. by_chars. Qed.

Lemma html_escape_plain s :
  all_chars (λ c, negb (bool_decide (c = "000"%char))) s = true →
  all_chars is_plain (Text.html_escape s) = true.
Proof.
  induction s as [|c s IH]; [done|]. cbn [all_chars Text.html_escape].
  intros [Hc Hs]%andb_true_iff.
  by rewrite all_chars_app, escape_char_plain, Hc, IH.
Qed.

Lemma escape_char_lt : ∀ c,
  all_chars (λ d, negb (bool_decide (d = "<"%char))) (Text.escape_char c) = true.
Proof. by_chars. Qed.

Lemma is_plain_not_lt : ∀ c,
  is_plain c = true → negb (bool_decide (c = "<"%char)) = true.
Proof. by_chars. Qed.

(** A pattern that starts with [<] finds nothing in a text without [<]. *)
Lemma search_no_lt r s :
  all_chars (λ d, negb (bool_decide (d = "<"%char))) s = true →
  Re.search (Re.Cat (Re.chr_ci "<") r) s = false.
Proof.
  intros Hs. apply not_true_is_false.
  intros (a & u & b & -> & (v & w & -> & (c & -> & Hc)%Matches_chr_inv & _)
          %Matches_cat_inv)%search_Matches.
  rewrite !all_chars_app in Hs.
  apply andb_true_iff in Hs as [_ [Hs _]%andb_true_iff].
  apply andb_true_iff in Hs as [Hs _].
  apply andb_true_iff in Hs as [Hs _].
  apply bool_decide_eq_true in Hc.
  apply negb_true_iff, bool_decide_eq_false in Hs. apply Hs.
  revert Hc. clear. revert c. by_chars.
Qed.

Lemma tag_pattern_no_lt tag s :
  all_chars (λ d, negb (bool_decide (d = "<"%char))) s = true →
  Re.search (Validators.tag_pattern (String "<" tag)) s = false.
Proof.
  intros Hs. apply not_true_is_false.
  intros (a & u & b & -> & Hu)%search_Matches.
  unfold Validators.tag_pattern in Hu. simpl in Hu.
  apply Matches_cat_inv in Hu as (v & w & -> & Hv & Hw).
  apply Matches_cat_inv in Hv as (v1 & v2 & -> & Hv1 & Hv2).
  assert (Re.search (Re.Cat (Re.chr_ci "<") (Re.lit_ci tag))
                    (a +:+ ((v1 +:+ v2) +:+ w) +:+ b) = true) as Hsearch.
  { apply search_Matches. exists a, (v1 +:+ v2), (w +:+ b).
    split; [by rewrite !str_app_assoc|]. by constructor. }
  by rewrite search_no_lt in Hsearch.
Qed.

End SanitizeFacts.

(** X11: a sanitized query contains none of [<], [>], the two quote
    characters and NUL; its only whitespace is the space character, and no
    two spaces are neighbours.  Hence none of the tag patterns of
    [check_for_xss] matches it. *)
Theorem sanitize_query_shape (query : string) :
  let sanitized := Validators.sanitize_query query in
  Shape.all_chars Shape.is_plain sanitized = true
  ∧ Shape.all_chars Shape.space_only sanitized = true
  ∧ Shape.no_run Py.is_space sanitized = true
  ∧ ∀ tag, Re.search (Validators.tag_pattern (String "<" tag)) sanitized
           = false.
Proof.
  intros sanitized. unfold Validators.sanitize_query in sanitized.
  set (s3 := Text.keep_chars _ _) in sanitized.
  assert (Shape.all_chars Shape.is_plain s3 = true) as H3.
  { clear. subst s3. generalize (Py.strip query). intros s.
    induction s as [|c s IH]; [done|].
    cbn [Text.html_escape]. generalize (escape_char_plain c).
    destruct (bool_decide (c = "000"%char)) eqn:Hc.
    - apply bool_decide_eq_true in Hc as ->. done.
    - intros He. simpl in He.
      assert (∀ a b, Shape.all_chars Shape.is_plain a = true →
                Text.keep_chars (λ c, bool_decide (c ≠ "000"%char)) (a +:+ b)
                = a +:+ Text.keep_chars (λ c, bool_decide (c ≠ "000"%char)) b)
        as Hkeep.
      { clear. induction a as [|d a IHa]; intros b; [done|].
        cbn [Shape.all_chars]. intros [Hd Ha]%andb_true_iff.
        rewrite str_app_cons. cbn [Text.keep_chars].
        rewrite bool_decide_eq_true_2; [by rewrite IHa|].
        intros ->. done. }
      by rewrite Hkeep, all_chars_app, He, IH. }
  assert (Shape.all_chars Shape.is_plain sanitized = true) as Hplain.
  { eapply all_chars_sub_runs; [|done|exact H3]. auto. }
  split; [done|]. split.
  { eapply (all_chars_sub_runs (λ _, true) Py.is_space); [|done|].
    - intros c _ Hc. unfold Shape.space_only. by rewrite Hc.
    - clear. induction s3; [done|]. done. }
  split; [apply no_run_sub_runs|].
  intros tag. apply tag_pattern_no_lt.
  eapply all_chars_impl; [|exact Hplain]. apply is_plain_not_lt.
Qed.

Section PatternFacts.
Import Re Shape.

Lemma Matches_star_chars p s :
  Matches (Star (Chr p)) s ↔ all_chars p s = true.
Proof.
  split.
  - intros Hm. remember (Star (Chr p)) as r eqn:Hr. revert Hr.
    induction Hm as [| | | | | |r' u v Hu _ Hv IHv]; try discriminate; [done|].
    intros [= ->]. apply Matches_chr_inv in Hu as (c & -> & Hc).
    rewrite str_app_cons, str_app_nil_l. simpl. by rewrite Hc, IHv.
  - induction s as [|c s IH]; [constructor|]. simpl.
    intros [Hc Hs]%andb_true_iff.
    change (String c s) with (String c "" +:+ s).
    constructor; [by constructor|by apply IH].
Qed.

Lemma Matches_plus_chars p s :
  Matches (Plus (Chr p)) s ↔ s ≠ "" ∧ all_chars p s = true.
Proof.
  unfold Plus. split.
  - intros (u & v & -> & (c & -> & Hc)%Matches_chr_inv
            & Hv%Matches_star_chars)%Matches_cat_inv.
    rewrite str_app_cons, str_app_nil_l. simpl. by rewrite Hc, Hv.
  - destruct s as [|c s]; [by intros [? _]|]. simpl.
    intros [_ [Hc Hs]%andb_true_iff].
    change (String c s) with (String c "" +:+ s).
    constructor; [by constructor|by apply Matches_star_chars].
Qed.

Lemma Matches_eol s : Matches eol s ↔ s = "" ∨ s = Py.NL.
Proof.
  unfold eol, Opt. split.
  - intros [->%Matches_eps_inv|(c & -> & Hc%bool_decide_eq_true)%Matches_chr_inv]
      %Matches_alt_inv; [by left|right]. by rewrite Hc.
  - intros [->| ->]; [apply Matches_alt_l; constructor|].
    apply Matches_alt_r. constructor. by apply bool_decide_eq_true.
Qed.

Lemma Matches_star_parts r s :
  Matches (Star r) s ↔
  ∃ parts, s = Spec.concat_str parts ∧ Forall (Matches r) parts.
Proof.
  split.
  - intros Hm. remember (Star r) as q eqn:Hq. revert Hq.
    induction Hm as [| | | | | |r' u v Hu _ Hv IHv]; try discriminate.
    + intros _. by exists [].
    + intros [= ->]. destruct (IHv eq_refl) as (parts & -> & Hparts).
      exists (u :: parts). split; [done|]. by constructor.
  - intros (parts & -> & Hparts).
    induction Hparts as [|u parts Hu _ IH]; simpl; [constructor|].
    by constructor.
Qed.

Lemma ends_in_app_nl s : ends_in Py.is_space (s +:+ Py.NL) = true.
Proof.
  induction s as [|c s IH]; [done|]. rewrite str_app_cons.
  destruct s; [done|]. exact IH.
Qed.

Lemma rstrip_fixed_ends s : Py.rstrip s = s → ends_in Py.is_space s = false.
Proof.
  intros Hs. rewrite <-Hs, rstrip_as_by. apply ends_in_rstrip_by.
Qed.

(** The dotted numerals. *)
Lemma Matches_section_body x :
  Matches (Cat (Plus (Chr Py.is_digit))
               (Star (Cat (chr ".") (Plus (Chr Py.is_digit))))) x
  ↔ ∃ g gs, numeral g ∧ Forall numeral gs ∧ x = Py.join "." (g :: gs).
Proof.
  split.
  - intros (u & v & -> & Hu%Matches_plus_chars
            & (parts & -> & Hparts)%Matches_star_parts)%Matches_cat_inv.
    exists u. revert u Hu.
    induction Hparts as [|part parts Hpart _ IH]; intros u Hu.
    + exists []. split; [done|]. split; [done|]. by rewrite str_app_nil_r.
    + apply Matches_cat_inv in Hpart
        as (d & g & -> & (c & -> & ->%bool_decide_eq_true)%Matches_chr_inv
            & Hg%Matches_plus_chars).
      destruct (IH g Hg) as (gs & _ & Hgs & Heq).
      exists (g :: gs). split; [done|]. split; [by constructor|].
      rewrite join_cons. simpl Spec.concat_str.
      by rewrite <-Heq, !str_app_assoc.
  - intros (g & gs & Hg & Hgs & ->). revert g Hg.
    induction Hgs as [|g' gs Hg' _ IH]; intros g Hg.
    + rewrite <-(str_app_nil_r (Py.join "." [g])).
      constructor; [by apply Matches_plus_chars|constructor].
    + rewrite join_cons. specialize (IH g' Hg').
      apply Matches_cat_inv in IH as (u & v & -> & Hu & Hv).
      constructor; [by apply Matches_plus_chars|].
      rewrite <-str_app_assoc. constructor; [|done].
      change "." with (String "." ""). 
      constructor; [constructor; by apply bool_decide_eq_true|done].
Qed.

End PatternFacts.

Lemma session_id_pattern_spec s :
  Py.rstrip s = s →
  Re.fullmatch Validators.session_id_pattern s = true
  ↔ s ≠ "" ∧ Shape.all_chars Validators.is_id_char s = true.
Proof.
  intros Hstripped.
  rewrite fullmatch_Matches. unfold Validators.session_id_pattern. split.
  - intros (u & v & Hs & Hu%Matches_plus_chars & [->| ->]%Matches_eol)
      %Matches_cat_inv.
    + by rewrite str_app_nil_r in Hs; subst u.
    + apply rstrip_fixed_ends in Hstripped.
      by rewrite Hs, ends_in_app_nl in Hstripped.
  - intros Hs. rewrite <-(str_app_nil_r s).
    constructor; [by apply Matches_plus_chars|]. apply Matches_eol. by left.
Qed.

Lemma section_pattern_spec section :
  Re.fullmatch Validators.section_pattern section = true
  ↔ ∃ g gs, Shape.numeral g ∧ Forall Shape.numeral gs
            ∧ (section = Py.join "." (g :: gs)
               ∨ section = Py.join "." (g :: gs) +:+ Py.NL).
Proof.
  rewrite fullmatch_Matches. unfold Validators.section_pattern. split.
  - intros (u & vw & -> & Hu & (v & w & -> & Hv & Hw)%Matches_cat_inv)
      %Matches_cat_inv.
    destruct (proj1 (Matches_section_body (u +:+ v))) as (g & gs & Hg & Hgs & Heq).
    { by constructor. }
    exists g, gs. split; [done|]. split; [done|].
    rewrite <-str_app_assoc, Heq.
    apply Matches_eol in Hw as [->| ->];
      [left; by rewrite str_app_nil_r|by right].
  - intros (g & gs & Hg & Hgs & Hsec).
    assert (Re.Matches
              (Re.Cat (Re.Plus (Re.Chr Py.is_digit))
                 (Re.Star (Re.Cat (Re.chr ".") (Re.Plus (Re.Chr Py.is_digit)))))
              (Py.join "." (g :: gs))) as Hm
      by (apply Matches_section_body; eauto).
    apply Matches_cat_inv in Hm as (u & v & Huv & Hu & Hv).
    assert (∀ e, Re.Matches Re.eol e →
              Re.Matches
                (Re.Cat (Re.Plus (Re.Chr Py.is_digit))
                   (Re.Cat (Re.Star (Re.Cat (Re.chr ".")
                                       (Re.Plus (Re.Chr Py.is_digit))))
                           Re.eol))
                (Py.join "." (g :: gs) +:+ e)) as Hall.
    { intros e He. rewrite Huv, str_app_assoc.
      apply Re.Matches_cat; [done|]. by apply Re.Matches_cat. }
    destruct Hsec as [-> | ->].
    + rewrite <-(str_app_nil_r (Py.join _ _)). apply Hall, Matches_eol. by left.
    + apply Hall, Matches_eol. by right.
Qed.

(** X12: a session identifier is accepted exactly when, after stripping,
    it has between 1 and 128 characters, all of them letters A..Z or a..z,
    digits, underscores or hyphens. *)
Theorem validate_session_id_verdict (session_id : string) :
  (Validators.validate_session_id (Some session_id)).1 = true
  ↔ 1 ≤ String.length (Py.strip session_id) ≤ 128
    ∧ Shape.all_chars Validators.is_id_char (Py.strip session_id) = true.
Proof.
  unfold Validators.validate_session_id.
  pose proof (session_id_pattern_spec (Py.strip session_id)
                (rstrip_idem _)) as Hre.
  set (s := Py.strip session_id) in *.
  destruct (Nat.ltb_spec (String.length s) 1), (Nat.ltb_spec 128 (String.length s));
    simpl; try (split; [done|lia]).
  destruct (Re.fullmatch _ s) eqn:Hm; simpl.
  - split; [|done]. intros _. split; [lia|]. by apply Hre.
  - split; [done|]. intros [_ Hs]. apply Hre. split; [|done].
    intros Hnil. rewrite Hnil in *. simpl in *. lia.
Qed.

(** X13: a section identifier is accepted exactly when it is a sequence
    of numerals joined by dots, or such a sequence followed by one newline. *)
Theorem validate_section_identifier_verdict (section : string) :
  (Validators.validate_section_identifier (Some section)).1 = true
  ↔ ∃ g gs, Shape.numeral g ∧ Forall Shape.numeral gs
            ∧ (section = Py.join "." (g :: gs)
               ∨ section = Py.join "." (g :: gs) +:+ Py.NL).
Proof.
  unfold Validators.validate_section_identifier.
  pose proof (section_pattern_spec section) as Hre.
  destruct (Re.fullmatch _ section); simpl.
  - split; [intros _; by apply Hre|done].
  - split; [done|]. intros Hex. by apply Hre in Hex.
Qed.

Section IdFacts.
Import Chunking Shape.

Lemma section_identifier_accepted g gs :
  numeral g → Forall numeral gs →
  Validators.validate_section_identifier (Some (Py.join "." (g :: gs)))
  = (true, None).
Proof.
  intros Hg Hgs. unfold Validators.validate_section_identifier.
  rewrite (proj2 (section_pattern_spec _)); [done|].
  exists g, gs. auto.
Qed.

Lemma str_is_numeral z : (0 ≤ z)%Z → numeral (Py.str z).
Proof. intros Hz. by destruct (str_numeral z Hz) as (? & ? & _). Qed.

Lemma new_section_ids_accepted `{AnchorMaker} chapter lvl ttl
    (m : gmap nat nat) :
  (0 ≤ chapter)%Z → 1 ≤ lvl ≤ 6 →
  ids_accepted (new_section chapter lvl ttl m).
Proof.
  intros Hch Hlvl. unfold ids_accepted, new_section. simpl.
  pose proof (str_is_numeral chapter Hch) as Hc.
  assert (∀ i, numeral (counter_str m i)) as Hctr.
  { intros i. apply str_is_numeral. lia. }
  split.
  - case_decide.
    + by apply (section_identifier_accepted _ []).
    + by apply (section_identifier_accepted _ [counter_str m 2]); [|constructor].
  - case_decide; [done|]. case_decide; [done|].
    assert (∃ k, lvl + 1 - 2 = S k) as [k ->] by (exists (lvl - 2); lia).
    cbn [seq fmap list_fmap]. rewrite <-join_cons.
    apply section_identifier_accepted; [done|].
    constructor; [apply Hctr|].
    apply Forall_fmap, Forall_forall. intros i _. apply Hctr.
Qed.

End IdFacts.

(** X14: for a chapter number that is not negative, every section
    identifier and every subsection identifier that the section parser
    issues is accepted by [validate_section_identifier]. *)
Theorem parsed_ids_are_accepted `{AnchorMaker}
    (markdown_text : string) (chapter : Z) (source_file : string) :
  (0 ≤ chapter)%Z →
  Forall Shape.ids_accepted
         (Chunking.parse_markdown_sections markdown_text chapter source_file).
Proof.
  intros Hch. apply parse_markdown_sections_Forall.
  - by intros s c.
  - intros lvl ttl m Hlvl. by apply new_section_ids_accepted.
Qed.

Lemma parsed_ids_are_accepted_witness :
  (λ s, (Chunking.section_id s, Chunking.subsection_id s))
    <$> @Chunking.parse_markdown_sections Fixture.plain_anchor
          Fixture.one_part 3 "chapter-3.md"
  = [("3", None); ("3.1", None); ("3.1", Some "3.1.1"); ("3.2", None)]
  ∧ Forall Shape.ids_accepted
           (@Chunking.parse_markdown_sections Fixture.plain_anchor
              Fixture.one_part 3 "chapter-3.md").
Proof.
  split; [by vm_compute|].
  apply (@parsed_ids_are_accepted Fixture.plain_anchor). lia.
Defined.

Section InjectionFacts.
Import Shape.

Lemma upper_app a b : Text.upper (a +:+ b) = Text.upper a +:+ Text.upper b.
Proof.
  induction a as [|c a IH]; [done|].
  rewrite str_app_cons. cbn [Text.upper]. by rewrite IH, str_app_assoc.
Qed.

Lemma double_hyphen_detected text :
  Text.contains "--" text = true →
  Validators.check_for_sql_injection text = true.
Proof.
  intros (a & b & ->)%contains_spec.
  unfold Validators.check_for_sql_injection. apply existsb_exists.
  exists (Re.lit_ci "--"). split; [right; by left|].
  apply search_Matches. exists (Text.upper a), "--", (Text.upper b).
  split; [by rewrite !upper_app|]. by apply Matches_lit_ci.
Qed.

End InjectionFacts.

(** X15: a selected-text request whose query or whose selected text
    contains two hyphens in a row is rejected. *)
Theorem double_hyphen_rejected (query selected_text : string)
    (session_id : option string) :
  Text.contains "--" query = true ∨ Text.contains "--" selected_text = true →
  (Validators.validate_selected_text_request
     (Some query) (Some selected_text) session_id).1 = false.
Proof.
  intros Hdash. unfold Validators.validate_selected_text_request.
  destruct (Validators.validate_query_text _ _ _ _) as [[] e1]; [|done].
  destruct (Validators.validate_selected_text _ _ _) as [[] e2]; [|done].
  simpl negb. cbn iota.
  unfold Validators.is_safe_input, Validators.text_of. simpl default.
  destruct (Validators.check_for_sql_injection query) eqn:Hq; [done|].
  destruct Hdash as [Hd%double_hyphen_detected|Hd%double_hyphen_detected];
    [congruence|].
  rewrite Hd. by destruct (Validators.check_for_xss query).
Qed.

Lemma double_hyphen_rejected_witness :
  Validators.validate_selected_text_request
    (Some "What does this flag do?")
    (Some "Run the planner with --verbose to log every step.") None
  = (false, Some "Selected text security check failed: Potential SQL injection").
Proof.
  pose proof (double_hyphen_rejected "What does this flag do?"
                "Run the planner with --verbose to log every step." None
                (or_intror eq_refl)) as Hrej.
  revert Hrej. by vm_compute.
Defined.

Section LineFacts.
Import Shape.

Lemma strip_idem s : Py.strip (Py.strip s) = Py.strip s.
Proof.
  unfold Py.strip.
  assert (∀ y, Py.starts_word y = true ∨ y = "" → Py.lstrip y = y) as Hl.
  { intros [|c y] [Hy|Hy]; try done. simpl in *.
    apply negb_true_iff in Hy. by rewrite Hy. }
  rewrite (Hl (Py.rstrip _)), rstrip_idem; [done|].
  rewrite starts_word_rstrip. induction s as [|c s IH]; [by right|].
  simpl. destruct (Py.is_space c) eqn:Hc; [done|]. left. simpl. by rewrite Hc.
Qed.

Lemma rstripped_tail c w : rstripped (String c w) → rstripped w.
Proof.
  unfold rstripped. simpl. destruct (Py.rstrip w) as [|d r] eqn:Hr.
  - destruct (Py.is_space c); [done|]. by intros [= <-].
  - by intros [= <-].
Qed.

Lemma rstripped_cons c w : rstripped w → w ≠ "" → rstripped (String c w).
Proof.
  unfold rstripped. intros Hw Hne. simpl. rewrite Hw. by destruct w.
Qed.

Lemma rstripped_single c : rstripped (String c "") ↔ Py.is_space c = false.
Proof. unfold rstripped. simpl. by destruct (Py.is_space c). Qed.

Lemma split_on_cons sep c s :
  Py.split_on sep (String c s)
  = if decide (c = sep) then "" :: Py.split_on sep s
    else Py.cons_head c (Py.split_on sep s).
Proof. reflexivity. Qed.

Lemma split_on_tail sep c s :
  Forall rstripped (Py.split_on sep (String c s)) →
  Forall rstripped (Py.split_on sep s).
Proof.
  simpl. case_decide; [by intros ?%Forall_inv_tail|].
  destruct (Py.split_on sep s) as [|w ws]; [done|]. simpl.
  intros Hall. apply Forall_cons in Hall as [Hw Hws].
  constructor; [by eapply rstripped_tail|done].
Qed.

Lemma lines_lstrip s :
  Forall rstripped (Py.split_on "010" s) →
  Forall rstripped (Py.split_on "010" (Py.lstrip s)).
Proof.
  induction s as [|c s IH]; [done|]. intros Hall.
  cbn [Py.lstrip]. destruct (Py.is_space c); [|done].
  by apply IH, (split_on_tail _ c).
Qed.

Lemma rstrip_first s d r : Py.rstrip s = String d r → ∃ s', s = String d s'.
Proof.
  destruct s as [|c s]; [done|]. simpl.
  destruct (Py.rstrip s); [destruct (Py.is_space c)|]; intros [= <- _]; eauto.
Qed.

Lemma lines_rstrip s :
  Forall rstripped (Py.split_on "010" s) →
  Forall rstripped (Py.split_on "010" (Py.rstrip s)).
Proof.
  induction s as [|c s IH]; [done|]. intros Hall.
  specialize (IH (split_on_tail _ _ _ Hall)).
  change (Py.rstrip (String c s)) with
    (match Py.rstrip s with
     | "" => if Py.is_space c then "" else String c ""
     | r => String c r
     end).
  destruct (Py.rstrip s) as [|d r] eqn:Hr.
  - destruct (Py.is_space c) eqn:Hc; [by repeat constructor|].
    simpl. case_decide as Hnl; [by subst c|].
    repeat constructor. by apply rstripped_single.
  - rewrite split_on_cons. case_decide as Hnl; [by constructor|].
    destruct (Py.split_on "010" (String d r)) as [|w ws] eqn:Hsplit;
      [by apply split_on_nonempty in Hsplit|].
    apply Forall_cons in IH as [Hw Hws]. cbn [Py.cons_head].
    constructor; [|done]. destruct w as [|e w]; [|by apply rstripped_cons].
    apply rstripped_single.
    assert (d = "010"%char) as ->.
    { rewrite split_on_cons in Hsplit. case_decide; [done|].
      destruct (Py.split_on "010" r); discriminate. }
    apply rstrip_first in Hr as [s' ->].
    rewrite !split_on_cons, decide_False, decide_True in Hall by done.
    apply Forall_inv in Hall. by apply rstripped_single.
Qed.

Lemma lines_strip s :
  Forall rstripped (Py.split_on "010" s) →
  Forall rstripped (Py.split_on "010" (Py.strip s)).
Proof. intros. by apply lines_rstrip, lines_lstrip. Qed.

Lemma all_chars_cons_head p c l :
  p c = true → Forall (λ w, all_chars p w = true) l →
  Forall (λ w, all_chars p w = true) (Py.cons_head c l).
Proof.
  intros Hc [|w ws Hw Hws]; simpl.
  - repeat constructor. simpl. by rewrite Hc.
  - constructor; [|done]. simpl. by rewrite Hc, Hw.
Qed.

Lemma split_on_no_sep sep s :
  Forall (λ w, all_chars (λ c, bool_decide (c ≠ sep)) w = true)
         (Py.split_on sep s).
Proof.
  induction s as [|c s IH]; simpl; [by repeat constructor|].
  case_decide; [by constructor|].
  apply all_chars_cons_head; [by apply bool_decide_eq_true|done].
Qed.

Lemma all_chars_split_on p sep s :
  all_chars p s = true →
  Forall (λ w, all_chars p w = true) (Py.split_on sep s).
Proof.
  induction s as [|c s IH]; simpl; [by repeat constructor|].
  intros [Hc Hs]%andb_true_iff. case_decide; [constructor; auto|].
  apply all_chars_cons_head; auto.
Qed.

Lemma all_chars_join p sep l :
  all_chars p sep = true → Forall (λ w, all_chars p w = true) l →
  all_chars p (Py.join sep l) = true.
Proof.
  intros Hsep. induction 1 as [|w [|y l] Hw Hl IH]; [done|done|].
  rewrite join_cons, !all_chars_app, Hw, Hsep. by rewrite IH.
Qed.

Lemma split_on_word sep w :
  all_chars (λ c, bool_decide (c ≠ sep)) w = true → Py.split_on sep w = [w].
Proof.
  induction w as [|c w IH]; [done|]. simpl.
  intros [Hc%bool_decide_eq_true Hw]%andb_true_iff.
  rewrite decide_False by done. by rewrite IH.
Qed.

Lemma split_on_join sep l :
  l ≠ [] → Forall (λ w, all_chars (λ c, bool_decide (c ≠ sep)) w = true) l →
  Py.split_on sep (Py.join (String sep "") l) = l.
Proof.
  intros Hne Hl. induction Hl as [|w [|y l] Hw Hl IH]; [done|..].
  - by apply split_on_word.
  - rewrite join_cons, str_app_cons, str_app_nil_l, split_on_app.
    rewrite split_on_word by done. by rewrite IH.
Qed.

Lemma replace_crlf_chars p s :
  all_chars p s = true → all_chars p (Text.replace_crlf s) = true.
Proof.
  induction s as [|c s IH]; [done|]. cbn [all_chars Text.replace_crlf].
  intros [Hc Hs]%andb_true_iff.
  destruct (_ && _); [auto|]. cbn [all_chars]. by rewrite Hc, IH.
Qed.

Lemma replace_cr_chars p s :
  all_chars p s = true → p "010"%char = true →
  all_chars (λ c, p c && bool_decide (c ≠ "013"%char)) (Text.replace_cr s)
  = true.
Proof.
  intros Hs Hnl. induction s as [|c s IH]; [done|].
  cbn [all_chars Text.replace_cr] in *.
  apply andb_true_iff in Hs as [Hc Hs]. rewrite IH by done.
  case_decide as Hcr; [by rewrite Hnl|].
  rewrite Hc. by rewrite bool_decide_eq_true_2.
Qed.

End LineFacts.

(** X16: a sanitized selected text contains none of [<], [>], the two
    quote characters, NUL and carriage return; it is stripped, and none of
    its lines ends with whitespace.  Hence none of the tag patterns of
    [check_for_xss] matches it. *)
Theorem sanitize_selected_text_shape (text : string) :
  let sanitized := Validators.sanitize_selected_text text in
  Shape.all_chars
    (λ c, Shape.is_plain c && bool_decide (c ≠ "013"%char)) sanitized = true
  ∧ Py.strip sanitized = sanitized
  ∧ Forall Shape.rstripped (Py.split_on "010" sanitized)
  ∧ ∀ tag, Re.search (Validators.tag_pattern (String "<" tag)) sanitized
           = false.
Proof.
  intros sanitized. unfold Validators.sanitize_selected_text in sanitized.
  set (s1 := Text.keep_chars _ text) in sanitized.
  set (s3 := Text.replace_cr _) in sanitized.
  set (lines := Py.rstrip <$> Py.split_on "010" s3) in sanitized.
  assert (Shape.all_chars
            (λ c, Shape.is_plain c && bool_decide (c ≠ "013"%char)) s3 = true)
    as H3.
  { apply replace_cr_chars; [|done]. apply replace_crlf_chars.
    apply html_escape_plain. subst s1.
    eapply all_chars_impl; [|apply (all_chars_keep (λ _, true))].
    - intros c [Hc _]%andb_true_iff. apply negb_true_iff.
      apply bool_decide_eq_true in Hc. by apply bool_decide_eq_false.
    - clear. induction text; [done|]. done. }
  assert (Shape.all_chars
            (λ c, Shape.is_plain c && bool_decide (c ≠ "013"%char)) sanitized
          = true) as Hchars.
  { apply all_chars_strip, all_chars_join; [done|].
    apply Forall_fmap, Forall_forall. intros l Hl. simpl.
    apply all_chars_rstrip. revert l Hl. apply Forall_forall.
    by apply all_chars_split_on. }
  split; [done|]. split; [apply strip_idem|]. split.
  - apply lines_strip. unfold Py.NL. rewrite split_on_join.
    + apply Forall_fmap, Forall_forall. intros l _. apply rstrip_idem.
    + subst lines. pose proof (split_on_nonempty "010" s3).
      by destruct (Py.split_on "010" s3).
    + apply Forall_fmap, Forall_forall. intros l Hl. simpl.
      apply all_chars_rstrip. revert l Hl. apply Forall_forall.
      apply split_on_no_sep.
  - intros tag. apply tag_pattern_no_lt.
    eapply all_chars_impl; [|exact Hchars].
    intros c [Hc _]%andb_true_iff. by apply is_plain_not_lt.
Qed.

(** ** [_extract_citations] on any answer *)

Section ExtractFacts.
Import VectorStore Agent Shape.
Context `{Score}.

Lemma cit_key_record c : cit_key (Spec.citation_record c) = chunk_key c.
Proof. reflexivity. Qed.

Lemma foldM_cons_Some {S X} (f : S → X → option S) x l s s' :
  foldM f (x :: l) s = Some s' →
  ∃ s1, f s x = Some s1 ∧ foldM f l s1 = Some s'.
Proof.
  rewrite foldM_cons. intros (s1 & Hs1 & Hs')%bind_Some. by exists s1.
Qed.

Lemma cite_chunk_total m st chunk :
  Spec.citable chunk → is_Some (cite_chunk m st chunk).
Proof.
  intros Hcit. destruct st as [cited citations]. unfold cite_chunk.
  destruct (marker_selects m chunk); [|done].
  destruct (decide _); [done|].
  by rewrite (citation_of_citable chunk Hcit).
Qed.

Lemma cite_chunk_inv markers chunks m st chunk st' :
  cite_inv markers chunks st → m ∈ markers → chunk ∈ chunks →
  cite_chunk m st chunk = Some st' →
  cite_inv markers chunks st' ∧ st.1 ⊆ st'.1
  ∧ (marker_selects m chunk = true → chunk_key chunk ∈ st'.1).
Proof.
  intros (Hnd & Hset & Hall) Hm Hchunk.
  destruct st as [cited citations]. unfold cite_chunk. simpl in *.
  destruct (marker_selects m chunk) eqn:Hsel.
  2:{ intros [= <-]. split; [done|]. by split. }
  destruct (decide (chunk_key chunk ∈ cited)) as [Hin|Hnin].
  { intros [= <-]. split; [done|]. by split. }
  intros (cit & ->%citation_of_Some & [= <-])%bind_Some. simpl.
  split; [|split].
  - unfold cite_inv. simpl. split; [|split].
    + rewrite fmap_app. simpl. rewrite cit_key_record.
      apply NoDup_app. split; [done|]. split; [|apply NoDup_singleton].
      intros k Hk ->%list_elem_of_singleton. apply Hnin. by apply Hset.
    + intros k. rewrite fmap_app, elem_of_app, elem_of_union, Hset. simpl.
      by rewrite cit_key_record, list_elem_of_singleton, elem_of_singleton.
    + apply Forall_app. split; [done|]. apply Forall_singleton.
      by exists m, chunk.
  - apply union_subseteq_l.
  - intros _. apply elem_of_union. right. by apply elem_of_singleton.
Qed.

Lemma cite_chunks_total m l : ∀ st,
  Forall Spec.citable l → is_Some (foldM (cite_chunk m) l st).
Proof.
  induction l as [|chunk l IH]; intros st Hl; [by rewrite foldM_nil|].
  apply Forall_cons in Hl as [Hcit Hl]. rewrite foldM_cons.
  destruct (cite_chunk_total m st chunk Hcit) as [st1 ->]. by apply IH.
Qed.

Lemma cite_chunks_inv markers chunks m l : ∀ st st',
  cite_inv markers chunks st → m ∈ markers → Forall (λ c, c ∈ chunks) l →
  foldM (cite_chunk m) l st = Some st' →
  cite_inv markers chunks st' ∧ st.1 ⊆ st'.1
  ∧ ∀ c, c ∈ l → marker_selects m c = true → chunk_key c ∈ st'.1.
Proof.
  induction l as [|chunk l IH]; intros st st' Hinv Hm Hl.
  { rewrite foldM_nil. intros [= <-]. split; [done|]. split; [done|].
    by intros c ?%elem_of_nil. }
  apply Forall_cons in Hl as [Hchunk Hl].
  intros (st1 & Hst1 & Hst')%foldM_cons_Some.
  destruct (cite_chunk_inv markers chunks m st chunk st1 Hinv Hm Hchunk Hst1)
    as (Hinv1 & Hsub1 & Hsel1).
  destruct (IH st1 st' Hinv1 Hm Hl Hst') as (Hinv2 & Hsub2 & Hsel2).
  split; [done|]. split; [by etrans|].
  intros c [->|Hc]%elem_of_cons Hsel; [|by apply Hsel2].
  apply Hsub2. by apply Hsel1.
Qed.

Lemma cite_markers_total chunks ms : ∀ st,
  Forall Spec.citable chunks → is_Some (foldM (cite_marker chunks) ms st).
Proof.
  induction ms as [|m ms IH]; intros st Hcit; [by rewrite foldM_nil|].
  rewrite foldM_cons.
  change (cite_marker chunks st m) with (foldM (cite_chunk m) chunks st).
  destruct (cite_chunks_total m chunks st Hcit) as [st1 ->]. by apply IH.
Qed.

Lemma cite_markers_inv markers chunks ms : ∀ st st',
  cite_inv markers chunks st → Forall (λ m, m ∈ markers) ms →
  foldM (cite_marker chunks) ms st = Some st' →
  cite_inv markers chunks st' ∧ st.1 ⊆ st'.1
  ∧ ∀ m c, m ∈ ms → c ∈ chunks → marker_selects m c = true →
      chunk_key c ∈ st'.1.
Proof.
  induction ms as [|m ms IH]; intros st st' Hinv Hms.
  { rewrite foldM_nil. intros [= <-]. split; [done|]. split; [done|].
    by intros m c ?%elem_of_nil. }
  apply Forall_cons in Hms as [Hm Hms].
  intros (st1 & Hst1 & Hst')%foldM_cons_Some.
  destruct (cite_chunks_inv markers chunks m chunks st st1 Hinv Hm)
    as (Hinv1 & Hsub1 & Hsel1); [by apply Forall_forall|done|].
  destruct (IH st1 st' Hinv1 Hms Hst') as (Hinv2 & Hsub2 & Hsel2).
  split; [done|]. split; [by etrans|].
  intros m' c [->|Hm']%elem_of_cons Hc Hsel; [|by eapply Hsel2].
  apply Hsub2. by apply Hsel1.
Qed.

(** The citations found from the markers: one for each key of a chunk
    that some marker selects. *)
Lemma marked_citations_inv answer chunks citations :
  marked_citations answer chunks = Some citations →
  NoDup (cit_key <$> citations)
  ∧ Forall (λ cit, ∃ m c, m ∈ Spec.markers answer ∧ c ∈ chunks
                          ∧ marker_selects m c = true
                          ∧ cit = Spec.citation_record c) citations
  ∧ ∀ m c, m ∈ Spec.markers answer → c ∈ chunks →
      marker_selects m c = true → chunk_key c ∈ cit_key <$> citations.
Proof.
  intros Hmarked.
  pose proof (marked_citations_Some_readable _ _ _ Hmarked) as Hr.
  rewrite marked_citations_readable in Hmarked by done. revert Hmarked.
  intros ([cited cits] & Hst & ->)%fmap_Some.
  destruct (cite_markers_inv (Spec.markers answer) chunks (Spec.markers answer)
              (∅, []) (cited, cits)) as ((Hnd & Hset & Hall) & _ & Hsel).
  { split; [constructor|]. split; [|constructor].
    intros k. simpl. split; [by intros ?%elem_of_empty|by intros ?%elem_of_nil]. }
  { by apply Forall_forall. }
  { done. }
  simpl in *. split; [done|]. split; [done|].
  intros m c Hm Hc Hs. apply Hset. by eapply Hsel.
Qed.

Lemma marked_citations_total answer chunks :
  Spec.readable answer →
  Forall Spec.citable chunks → is_Some (marked_citations answer chunks).
Proof.
  intros Hr Hcit. rewrite marked_citations_readable by done.
  destruct (cite_markers_total chunks (Spec.markers answer) (∅, []) Hcit)
    as [st Hst].
  by rewrite Hst.
Qed.

Lemma mapM_citation_of_Some chunks fallback :
  mapM citation_of chunks = Some fallback →
  fallback = Spec.citation_record <$> chunks.
Proof.
  revert fallback. induction chunks as [|c chunks IH]; intros fallback.
  - by intros [= <-].
  - csimpl. intros (cit & ->%citation_of_Some & (rest & ->%IH & [= <-])%bind_Some)
      %bind_Some. done.
Qed.

Lemma length_NoDup_incl {A} (l k : list A) :
  NoDup l → (∀ x, x ∈ l → x ∈ k) → length l ≤ length k.
Proof.
  intros Hnd Hincl. apply submseteq_length. by apply NoDup_submseteq.
Qed.

Lemma emitted_citations_inv answer chunks emitted :
  emitted_citations answer chunks = Some emitted →
  Forall (λ cit, ∃ c, c ∈ chunks ∧ cit = Spec.citation_record c) emitted
  ∧ length emitted ≤ length chunks
  ∧ (NoDup (chunk_key <$> chunks) → NoDup (cit_key <$> emitted)).
Proof.
  unfold emitted_citations.
  intros (marked & Hmarked & Hemitted)%bind_Some.
  destruct (marked_citations_inv answer chunks marked Hmarked)
    as (Hnd & Hall & _).
  destruct marked as [|cit marked].
  - destruct chunks as [|c chunks'] eqn:Hchunks.
    { injection Hemitted as <-. split; [done|]. split; [done|].
      intros _. constructor. }
    rewrite <-Hchunks in *.
    apply bind_Some in Hemitted
      as (fallback & ->%mapM_citation_of_Some & [= <-]).
    simpl. split; [|split].
    + apply Forall_fmap, Forall_forall. intros c' Hc'. exists c'.
      split; [|done]. eapply elem_of_sublist; [done|apply sublist_take].
    + rewrite length_fmap, length_take. lia.
    + intros Hk. rewrite <-list_fmap_compose.
      eapply sublist_NoDup; [exact Hk|].
      change (chunk_key <$> take 3 chunks `sublist_of` chunk_key <$> chunks).
      apply fmap_sublist, sublist_take.
  - assert (emitted = cit :: marked) as ->.
    { destruct chunks; by injection Hemitted as <-. }
    split; [|split; [|done]].
    + eapply Forall_impl; [exact Hall|].
      intros cit' (m & c & _ & Hc & _ & ->). by exists c.
    + rewrite <-(length_fmap cit_key (cit :: marked)),
        <-(length_fmap chunk_key chunks).
      apply length_NoDup_incl; [done|].
      intros k (cit' & -> & Hin)%list_elem_of_fmap.
      apply (proj1 (Forall_forall _ _) Hall) in Hin
        as (m & c & _ & Hc & _ & ->).
      rewrite cit_key_record. by apply list_elem_of_fmap_2.
Qed.

Lemma extract_citations_inv answer chunks citations :
  _extract_citations answer chunks = Some citations →
  Forall (λ cit, ∃ c, c ∈ chunks ∧ cit = Spec.citation_record c) citations
  ∧ length citations ≤ length chunks
  ∧ (NoDup (chunk_key <$> chunks) → NoDup (cit_key <$> citations)).
Proof.
  unfold _extract_citations. intros (emitted & Hemitted & ->)%fmap_Some.
  destruct (emitted_citations_inv answer chunks emitted Hemitted)
    as (Hall & Hlen & Hnd).
  pose proof (sort_desc_perm Schemas.relevance_score emitted) as Hperm.
  split; [by rewrite Hperm|]. split; [by rewrite Hperm|].
  intros Hk. rewrite Hperm. by apply Hnd.
Qed.

Lemma extract_citations_total answer chunks :
  Spec.readable answer →
  Forall Spec.citable chunks → is_Some (_extract_citations answer chunks).
Proof.
  intros Hr Hcit. unfold _extract_citations, emitted_citations.
  destruct (marked_citations_total answer chunks Hr Hcit) as [marked ->]. simpl.
  destruct marked as [|cit marked]; [|by destruct chunks].
  destruct chunks as [|c chunks'] eqn:Hchunks; [done|]. rewrite <-Hchunks in *.
  by rewrite mapM_citation_of by by apply Forall_take.
Qed.

End ExtractFacts.

Lemma marker_selects_key `{Score} (m : Agent.marker)
    (c c' : VectorStore.SearchResult) :
  Agent.chunk_key c = Agent.chunk_key c' →
  Agent.marker_selects m c = Agent.marker_selects m c'.
Proof. unfold Agent.chunk_key, Agent.marker_selects. by intros [= _ -> ->]. Qed.

(** X17: each citation that [_extract_citations] returns is the one of a
    candidate; there are at most as many citations as candidates, and no
    key is cited twice when the candidates have distinct keys.  It returns
    when every candidate passes the validators of [Citation] and no marker
    of the answer has a numeral of more than 4300 digits; with such a
    numeral it raises. *)
Theorem extract_citations_from_candidates `{Score}
    (answer : string) (chunks : list VectorStore.SearchResult) :
  (∀ citations,
     Agent._extract_citations answer chunks = Some citations →
     Forall (λ cit, ∃ c, c ∈ chunks ∧ cit = Spec.citation_record c) citations
     ∧ length citations ≤ length chunks
     ∧ (NoDup (Agent.chunk_key <$> chunks) →
        NoDup (Shape.cit_key <$> citations)))
  ∧ (Spec.readable answer → Forall Spec.citable chunks →
     is_Some (Agent._extract_citations answer chunks))
  ∧ (¬ Spec.readable answer →
     Agent._extract_citations answer chunks = None).
Proof.
  split; [apply extract_citations_inv|].
  split; [apply extract_citations_total|].
  intros Hlong.
  destruct (Agent._extract_citations answer chunks) as [citations|] eqn:Hex;
    [|done].
  by apply extract_citations_Some_readable in Hex.
Qed.

Lemma extract_citations_from_candidates_witness :
  ∃ citations,
    @Agent._extract_citations Fixture.milli
      "See [Chapter 3] and [Chapter 3, Section 3.2]."
      [Fixture.hit "ch3-s3.2-001" 890 3 "3.2"; Fixture.hit "ch4-s4.1-000" 950 4 "4.1";
       Fixture.hit "ch3-s3.3-000" 910 3 "3.3"]
    = Some citations
    ∧ Schemas.chunk_id <$> citations = ["ch3-s3.3-000"; "ch3-s3.2-001"]
    ∧ length citations ≤ 3.
Proof.
  assert (∃ citations,
            @Agent._extract_citations Fixture.milli
              "See [Chapter 3] and [Chapter 3, Section 3.2]."
              [Fixture.hit "ch3-s3.2-001" 890 3 "3.2";
               Fixture.hit "ch4-s4.1-000" 950 4 "4.1";
               Fixture.hit "ch3-s3.3-000" 910 3 "3.3"]
            = Some citations
            ∧ Schemas.chunk_id <$> citations = ["ch3-s3.3-000"; "ch3-s3.2-001"])
    as (citations & Hrun & Hids).
  { eexists. split; [vm_compute; reflexivity|]. reflexivity. }
  exists citations. split; [done|]. split; [done|].
  destruct (@extract_citations_from_candidates Fixture.milli
              "See [Chapter 3] and [Chapter 3, Section 3.2]."
              [Fixture.hit "ch3-s3.2-001" 890 3 "3.2";
               Fixture.hit "ch4-s4.1-000" 950 4 "4.1";
               Fixture.hit "ch3-s3.3-000" 910 3 "3.3"])
    as [Hinv _].
  exact (proj1 (proj2 (Hinv citations Hrun))).
Defined.

(** X18: when no marker of the answer has a numeral of more than 4300
    digits and some marker selects some candidate, the keys cited are
    exactly the keys of the candidates that a marker selects, each of them
    once; there is no fallback. *)
Theorem extract_citations_marked `{Score}
    (answer : string) (chunks : list VectorStore.SearchResult) :
  Spec.readable answer →
  Forall Spec.citable chunks →
  (∃ m c, m ∈ Spec.markers answer ∧ c ∈ chunks
          ∧ Agent.marker_selects m c = true) →
  ∃ citations,
    Agent._extract_citations answer chunks = Some citations
    ∧ NoDup (Shape.cit_key <$> citations)
    ∧ ∀ c, c ∈ chunks →
        (Agent.chunk_key c ∈ Shape.cit_key <$> citations
         ↔ ∃ m, m ∈ Spec.markers answer
                ∧ Agent.marker_selects m c = true).
Proof.
  intros Hr Hcit (m0 & c0 & Hm0 & Hc0 & Hsel0).
  destruct (marked_citations_total answer chunks Hr Hcit) as [marked Hmarked].
  destruct (marked_citations_inv answer chunks marked Hmarked)
    as (Hnd & Hall & Hsel).
  assert (marked ≠ []) as Hne.
  { intros ->. specialize (Hsel m0 c0 Hm0 Hc0 Hsel0). by apply elem_of_nil in Hsel. }
  exists (sort_desc Schemas.relevance_score marked).
  pose proof (sort_desc_perm Schemas.relevance_score marked) as Hperm.
  split.
  - unfold Agent._extract_citations, Agent.emitted_citations.
    rewrite Hmarked. simpl. by destruct marked, chunks.
  - split; [by rewrite Hperm|]. intros c Hc. rewrite Hperm. split.
    + intros (cit & Hkey & Hin)%list_elem_of_fmap.
      apply (proj1 (Forall_forall _ _) Hall) in Hin
        as (m & c' & Hm & Hc' & Hs & ->).
      exists m. split; [done|]. rewrite <-Hs. by apply marker_selects_key.
    + intros (m & Hm & Hs). by eapply Hsel.
Qed.

Lemma extract_citations_marked_witness :
  ∃ citations,
    @Agent._extract_citations Fixture.milli "As [chapter 3] shows."
      [Fixture.hit "ch3-s3.2-001" 890 3 "3.2"; Fixture.hit "ch4-s4.1-000" 950 4 "4.1";
       Fixture.hit "ch3-s3.3-000" 910 3 "3.3"]
    = Some citations
    ∧ NoDup (Shape.cit_key <$> citations)
    ∧ ("ch3-s3.3-000", 3%Z, "3.3") ∈ Shape.cit_key <$> citations
    ∧ ("ch4-s4.1-000", 4%Z, "4.1") ∉ Shape.cit_key <$> citations.
Proof.
  destruct (@extract_citations_marked Fixture.milli "As [chapter 3] shows."
              [Fixture.hit "ch3-s3.2-001" 890 3 "3.2";
               Fixture.hit "ch4-s4.1-000" 950 4 "4.1";
               Fixture.hit "ch3-s3.3-000" 910 3 "3.3"])
    as (citations & Hcit & Hnd & Hiff).
  { vm_compute. repeat constructor. }
  { repeat (constructor; [by vm_compute|]). constructor. }
  { exists (3%Z, None), (Fixture.hit "ch3-s3.2-001" 890 3 "3.2").
    split; [vm_compute; left|]. split; [left|reflexivity]. }
  exists citations. split; [exact Hcit|]. split; [exact Hnd|]. split.
  - assert (Fixture.hit "ch3-s3.3-000" 910 3 "3.3"
            ∈ [Fixture.hit "ch3-s3.2-001" 890 3 "3.2";
               Fixture.hit "ch4-s4.1-000" 950 4 "4.1";
               Fixture.hit "ch3-s3.3-000" 910 3 "3.3"]) as Hc.
    { right. right. left. }
    apply (proj2 (Hiff _ Hc)).
    exists (3%Z, None). split; [vm_compute; left|reflexivity].
  - intros Hin.
    assert (Fixture.hit "ch4-s4.1-000" 950 4 "4.1"
            ∈ [Fixture.hit "ch3-s3.2-001" 890 3 "3.2";
               Fixture.hit "ch4-s4.1-000" 950 4 "4.1";
               Fixture.hit "ch3-s3.3-000" 910 3 "3.3"]) as Hc.
    { right. left. }
    destruct (proj1 (Hiff _ Hc) Hin) as (m & Hm & Hs).
    revert Hm Hs. vm_compute. intros ->%list_elem_of_singleton. discriminate.
Defined.

(** ** The ephemeral store: identifiers and retrieval *)

Section EphemeralFacts.
Import SelectedText Shape.

Lemma int_go_zeros n s :
  int_go 0 (String.string_of_list_ascii (replicate n "0"%char) +:+ s)
  = int_go 0 s.
Proof.
  induction n as [|n IH]; simpl; [by rewrite str_app_nil_l|].
  by rewrite str_app_cons, int_go_cons.
Qed.

(** Reading the decimal digits of [f"{i:03d}"] gives [i] back. *)
Lemma format_03d_value i : Py.int_of_digits (Py.format_03d i) = Z.of_nat i.
Proof.
  unfold Py.format_03d. rewrite int_of_digits_go, int_go_zeros.
  rewrite <-int_of_digits_go. apply str_numeral. lia.
Qed.

Lemma format_03d_inj i j : Py.format_03d i = Py.format_03d j → i = j.
Proof.
  intros Heq. apply Nat2Z.inj.
  by rewrite <-(format_03d_value i), <-(format_03d_value j), Heq.
Qed.

Lemma zeros_digits n :
  all_chars Py.is_digit (String.string_of_list_ascii (replicate n "0"%char))
  = true
  ∧ String.length (String.string_of_list_ascii (replicate n "0"%char)) = n.
Proof. induction n as [|n [IH1 IH2]]; [done|]. simpl. by rewrite IH1, IH2. Qed.

(** [f"{i:03d}"] is the numeral of [i], padded with zeros to three
    digits. *)
Lemma format_03d_padded i : padded3 i (Py.format_03d i).
Proof.
  split; [|split; [apply format_03d_value|]].
  - unfold Py.format_03d. rewrite all_chars_app.
    rewrite (proj1 (zeros_digits _)). apply str_numeral. lia.
  - unfold Py.format_03d.
    rewrite str_length_app, (proj2 (zeros_digits _)). lia.
Qed.

Lemma str_app_inj_l p s t : p +:+ s = p +:+ t → s = t.
Proof.
  induction p as [|c p IH]; [by rewrite !str_app_nil_l|].
  rewrite !str_app_cons. intros [= Heq]. by apply IH.
Qed.

Context `{Tokenizer, SentenceModel, Embedder}.

Lemma store_ids_NoDup max_chunk_tokens selected_text store :
  create_ephemeral_store max_chunk_tokens selected_text = Some store →
  NoDup (chunk_id <$> chunks store).
Proof.
  intros Hstore. apply NoDup_alt. intros i j id Hi Hj.
  apply list_lookup_fmap_Some in Hi as (ci & -> & Hi).
  apply list_lookup_fmap_Some in Hj as (cj & Hid & Hj).
  destruct (create_ephemeral_store_ids _ _ _ _ _ Hstore Hi) as [Hci _].
  destruct (create_ephemeral_store_ids _ _ _ _ _ Hstore Hj) as [Hcj _].
  rewrite Hci, Hcj in Hid. by apply str_app_inj_l, format_03d_inj in Hid.
Qed.

(** The results of a search are built from a sublist of a rearrangement
    of the stored chunks. *)
Lemma search_from_chunks (self : EphemeralVectorStore) query_embedding
    top_k score_threshold :
  ∃ kept sorted,
    search self query_embedding top_k score_threshold = to_result <$> kept
    ∧ kept `sublist_of` sorted
    ∧ sorted ≡ₚ (λ chunk, (chunk, np_dot query_embedding (chunk_embedding chunk)))
                  <$> chunks self.
Proof.
  unfold search. destruct (chunks self) as [|c0 cs] eqn:Hchunks.
  { exists [], []. split; [done|]. split; [done|]. done. }
  eexists _, _. split; [reflexivity|]. split; [|apply sort_desc_perm].
  etrans; [apply sublist_filter|apply slice_to_sublist].
Qed.

Lemma search_ids_NoDup (self : EphemeralVectorStore) query_embedding
    top_k score_threshold :
  NoDup (chunk_id <$> chunks self) →
  NoDup (res_chunk_id <$> search self query_embedding top_k score_threshold).
Proof.
  intros Hnd.
  destruct (search_from_chunks self query_embedding top_k score_threshold)
    as (kept & sorted & -> & Hsub & Hperm).
  rewrite <-list_fmap_compose.
  eapply sublist_NoDup; [|apply fmap_sublist, Hsub].
  rewrite Hperm, <-list_fmap_compose. exact Hnd.
Qed.

Lemma search_in_store (self : EphemeralVectorStore) query_embedding
    top_k score_threshold r :
  r ∈ search self query_embedding top_k score_threshold →
  ∃ c, c ∈ chunks self
       ∧ r = to_result (c, np_dot query_embedding (chunk_embedding c)).
Proof.
  destruct (search_from_chunks self query_embedding top_k score_threshold)
    as (kept & sorted & -> & Hsub & Hperm).
  intros (p & -> & Hp)%list_elem_of_fmap.
  eapply elem_of_sublist in Hp; [|done]. rewrite Hperm in Hp.
  apply list_elem_of_fmap in Hp as (c & -> & Hc). by exists c.
Qed.

Lemma slice_to_all {A} (k : Z) (l : list A) :
  (Z.of_nat (length l) ≤ k)%Z → Py.slice_to k l = l.
Proof.
  intros Hk. unfold Py.slice_to.
  rewrite (proj2 (Z.leb_le 0 k)) by lia. apply take_ge. lia.
Qed.

Lemma filter_all {A} (P : A → Prop) `{∀ x, Decision (P x)} (l : list A) :
  Forall P l → filter P l = l.
Proof.
  induction 1 as [|x l Hx Hl IH]; [done|].
  by rewrite filter_cons_True, IH.
Qed.

Lemma filter_none {A} (P : A → Prop) `{∀ x, Decision (P x)} (l : list A) :
  Forall (λ x, ¬ P x) l → filter P l = [].
Proof.
  induction 1 as [|x l Hx Hl IH]; [done|].
  by rewrite filter_cons_False.
Qed.

Lemma search_all (self : EphemeralVectorStore) query_embedding
    top_k score_threshold :
  (Z.of_nat (length (chunks self)) ≤ top_k)%Z →
  Forall (λ chunk, score_leb score_threshold
                     (np_dot query_embedding (chunk_embedding chunk)) = true)
         (chunks self) →
  search self query_embedding top_k score_threshold
  ≡ₚ (λ chunk, to_result (chunk, np_dot query_embedding (chunk_embedding chunk)))
       <$> chunks self.
Proof.
  intros Hk Hall. unfold search.
  destruct (chunks self) as [|c0 cs] eqn:Hchunks; [done|].
  set (scores := (λ chunk, (chunk, np_dot query_embedding (chunk_embedding chunk)))
                   <$> c0 :: cs).
  pose proof (sort_desc_perm snd scores) as Hperm.
  rewrite slice_to_all.
  2:{ rewrite Hperm. unfold scores. by rewrite length_fmap. }
  rewrite filter_all.
  2:{ rewrite Hperm. unfold scores. by apply Forall_fmap. }
  rewrite Hperm. unfold scores. by rewrite <-list_fmap_compose.
Qed.

Lemma search_none (self : EphemeralVectorStore) query_embedding
    top_k score_threshold :
  top_k = 0%Z
  ∨ Forall (λ chunk, score_leb score_threshold
                       (np_dot query_embedding (chunk_embedding chunk)) = false)
           (chunks self) →
  search self query_embedding top_k score_threshold = [].
Proof.
  intros Hcase. unfold search.
  destruct (chunks self) as [|c0 cs] eqn:Hchunks; [done|].
  destruct Hcase as [->|Hall]; [done|].
  set (scores := (λ chunk, (chunk, np_dot query_embedding (chunk_embedding chunk)))
                   <$> c0 :: cs).
  rewrite filter_none; [done|].
  apply Forall_forall. intros p Hp.
  eapply elem_of_sublist in Hp; [|apply slice_to_sublist].
  rewrite (sort_desc_perm snd scores) in Hp.
  apply list_elem_of_fmap in Hp as (c & -> & Hc). simpl.
  rewrite Forall_forall in Hall. rewrite (Hall c Hc). done.
Qed.

End EphemeralFacts.

(** C6: the chunk at position i of the store built by
    [create_ephemeral_store] has the identifier "selected-" followed by the
    decimal numeral of i, padded with zeros in front to three digits, and
    i as its chunk index; every citation that [answer_query] returns has
    an identifier that starts with "selected-", whatever the agent
    returned. *)
Theorem C6_ephemeral_ids_and_citations
    `{Tokenizer, SentenceModel, Embedder, !AgentService}
    (max_chunk_tokens : nat) (selected_text : string) :
  (∀ store i c,
     SelectedText.create_ephemeral_store max_chunk_tokens selected_text
       = Some store →
     SelectedText.chunks store !! i = Some c →
     (∃ digits, SelectedText.chunk_id c = "selected-" +:+ digits
                ∧ Shape.padded3 i digits)
     ∧ SelectedText.chunk_index c = i)
  ∧ (∀ query top_k answer citations,
       SelectedText.answer_query max_chunk_tokens query selected_text top_k
         = Some (answer, citations) →
       Forall (λ c, Py.startswith "selected-" (Schemas.chunk_id c) = true)
              citations).
Proof.
  split.
  - intros store i c Hstore Hc.
    destruct (create_ephemeral_store_ids _ _ _ _ _ Hstore Hc) as [Hid Hidx].
    split; [|done]. exists (Py.format_03d i). split; [done|].
    apply format_03d_padded.
  - intros query top_k answer citations. apply answer_query_citations.
Qed.

(** A selection that is split in three, and an agent whose extra citation
    of the corpus is filtered out. *)
Lemma C6_ephemeral_ids_and_citations_witness :
  ∃ store c answer citations,
    @SelectedText.create_ephemeral_store Fixture.simple_tokenizer
      Fixture.no_spacy Fixture.milli Fixture.line_vectors
      Fixture.length_embedder 3 "a b. c d. e f." = Some store
    ∧ SelectedText.chunk_id <$> SelectedText.chunks store
      = ["selected-000"; "selected-001"; "selected-002"]
    ∧ SelectedText.chunks store !! 2 = Some c
    ∧ (∃ digits, SelectedText.chunk_id c = "selected-" +:+ digits
                 ∧ Shape.padded3 2 digits)
    ∧ @SelectedText.answer_query Fixture.simple_tokenizer Fixture.no_spacy
        Fixture.milli Fixture.line_vectors Fixture.length_embedder
        Fixture.leaky_agent 3 "What?" "a b. c d. e f." 5
      = Some (answer, citations)
    ∧ Schemas.chunk_id <$> citations
      = ["selected-000"; "selected-001"; "selected-002"]
    ∧ Forall (λ c, Py.startswith "selected-" (Schemas.chunk_id c) = true)
             citations.
Proof.
  assert (∃ store c,
            @SelectedText.create_ephemeral_store Fixture.simple_tokenizer
              Fixture.no_spacy Fixture.milli Fixture.line_vectors
              Fixture.length_embedder 3 "a b. c d. e f." = Some store
            ∧ SelectedText.chunk_id <$> SelectedText.chunks store
              = ["selected-000"; "selected-001"; "selected-002"]
            ∧ SelectedText.chunks store !! 2 = Some c)
    as (store & c & Hstore & Hids & Hc).
  { eexists _, _. split; [vm_compute; reflexivity|]. split; reflexivity. }
  assert (∃ answer citations,
            @SelectedText.answer_query Fixture.simple_tokenizer
              Fixture.no_spacy Fixture.milli Fixture.line_vectors
              Fixture.length_embedder Fixture.leaky_agent 3 "What?"
              "a b. c d. e f." 5 = Some (answer, citations)
            ∧ Schemas.chunk_id <$> citations
              = ["selected-000"; "selected-001"; "selected-002"])
    as (answer & citations & Hq & Hcits).
  { eexists _, _. split; [vm_compute; reflexivity|]. reflexivity. }
  destruct (@C6_ephemeral_ids_and_citations Fixture.simple_tokenizer
              Fixture.no_spacy Fixture.milli Fixture.line_vectors
              Fixture.length_embedder Fixture.leaky_agent
              3 "a b. c d. e f.") as [Hpart1 Hpart2].
  exists store, c, answer, citations.
  split; [exact Hstore|]. split; [exact Hids|]. split; [exact Hc|].
  split; [exact (proj1 (Hpart1 store 2 c Hstore Hc))|].
  split; [exact Hq|]. split; [exact Hcits|].
  exact (Hpart2 "What?" 5%Z answer citations Hq).
Defined.

(** X19: the chunks of a store built by [create_ephemeral_store] have
    pairwise distinct identifiers, and so have the results of any search
    in it: no chunk is returned twice. *)
Theorem ephemeral_ids_distinct `{Tokenizer, SentenceModel, Embedder}
    (max_chunk_tokens : nat) (selected_text : string)
    (store : SelectedText.EphemeralVectorStore) :
  SelectedText.create_ephemeral_store max_chunk_tokens selected_text
    = Some store →
  NoDup (SelectedText.chunk_id <$> SelectedText.chunks store)
  ∧ ∀ query_embedding top_k score_threshold,
      NoDup (SelectedText.res_chunk_id
               <$> SelectedText.search store query_embedding top_k
                     score_threshold).
Proof.
  intros Hstore.
  pose proof (store_ids_NoDup _ _ _ Hstore) as Hnd. split; [done|].
  intros q k t. by apply search_ids_NoDup.
Qed.

Lemma ephemeral_ids_distinct_witness :
  ∃ store,
    @SelectedText.create_ephemeral_store Fixture.simple_tokenizer
      Fixture.no_spacy Fixture.milli Fixture.line_vectors
      Fixture.length_embedder 3 "a b. c d. e f." = Some store
    ∧ SelectedText.chunk_id <$> SelectedText.chunks store
      = ["selected-000"; "selected-001"; "selected-002"]
    ∧ NoDup (SelectedText.chunk_id <$> SelectedText.chunks store).
Proof.
  assert (∃ store,
            @SelectedText.create_ephemeral_store Fixture.simple_tokenizer
              Fixture.no_spacy Fixture.milli Fixture.line_vectors
              Fixture.length_embedder 3 "a b. c d. e f." = Some store
            ∧ SelectedText.chunk_id <$> SelectedText.chunks store
              = ["selected-000"; "selected-001"; "selected-002"])
    as (store & Hstore & Hids).
  { eexists. split; [vm_compute; reflexivity|]. reflexivity. }
  exists store. split; [exact Hstore|]. split; [exact Hids|].
  exact (proj1 (@ephemeral_ids_distinct Fixture.simple_tokenizer
                  Fixture.no_spacy Fixture.milli Fixture.line_vectors
                  Fixture.length_embedder 3 "a b. c d. e f." store Hstore)).
Defined.

(** X20: when top_k is at least the number of stored chunks and every
    chunk scores at least the threshold, [search] returns one result for
    each stored chunk, with the dot product as its score. *)
Theorem search_returns_every_chunk `{Vectors}
    (self : SelectedText.EphemeralVectorStore) (query_embedding : embedding)
    (top_k : Z) (score_threshold : score) :
  (Z.of_nat (length (SelectedText.chunks self)) ≤ top_k)%Z →
  Forall (λ chunk,
            score_leb score_threshold
              (np_dot query_embedding (SelectedText.chunk_embedding chunk))
            = true)
         (SelectedText.chunks self) →
  SelectedText.search self query_embedding top_k score_threshold
  ≡ₚ (λ chunk,
        SelectedText.to_result
          (chunk, np_dot query_embedding (SelectedText.chunk_embedding chunk)))
       <$> SelectedText.chunks self.
Proof. apply search_all. Qed.

Lemma search_returns_every_chunk_witness :
  @SelectedText.search Fixture.milli Fixture.line_vectors
    Fixture.two_chunk_store 3%Z 2%Z 0%Z
  ≡ₚ (λ chunk,
        @SelectedText.to_result Fixture.milli Fixture.line_vectors
          (chunk, @np_dot Fixture.milli Fixture.line_vectors 3%Z
                    (SelectedText.chunk_embedding chunk)))
       <$> [Fixture.stored "selected-000" 2 0; Fixture.stored "selected-001" 5 1].
Proof.
  apply (@search_returns_every_chunk Fixture.milli Fixture.line_vectors
           Fixture.two_chunk_store 3%Z 2%Z 0%Z).
  - vm_compute. discriminate.
  - repeat (constructor; [by vm_compute|]). constructor.
Defined.

(** X21: when the sentence splitter in use keeps the words of a text and
    the embedder returns one vector for each text, the texts of the chunks
    of the store, read in order, hold exactly the words of the selected
    text, in their order. *)
Theorem ephemeral_store_keeps_words `{Tokenizer, SentenceModel, Embedder}
    (max_chunk_tokens : nat) (selected_text : string)
    (store : SelectedText.EphemeralVectorStore) :
  (∀ sents, nlp = Some sents →
     ∀ t, sents t ≫= Py.split_ws = Py.split_ws t) →
  (∀ texts embeddings,
     embed_texts texts = Some embeddings → length embeddings = length texts) →
  SelectedText.create_ephemeral_store max_chunk_tokens selected_text
    = Some store →
  (SelectedText.text <$> SelectedText.chunks store) ≫= Py.split_ws
  = Py.split_ws selected_text.
Proof.
  intros Hnlp Hemb. unfold SelectedText.create_ephemeral_store.
  intros (embeddings & Hembs & [= <-])%bind_Some. simpl.
  apply Hemb in Hembs.
  rewrite fmap_imap.
  rewrite (imap_ext _ (const fst)) by (by intros i [t e]).
  rewrite imap_const, fst_zip by lia.
  unfold SelectedText.chunk_selected_text. case_match.
  - csimpl. by rewrite app_nil_r.
  - unfold Chunking.split_text_by_sentences.
    rewrite pack_sentences_words. csimpl. by apply sentences_of_words.
Qed.

Lemma ephemeral_store_keeps_words_witness :
  ∃ store,
    @SelectedText.create_ephemeral_store Fixture.simple_tokenizer
      Fixture.no_spacy Fixture.milli Fixture.line_vectors
      Fixture.length_embedder 3 "a b. c d. e f." = Some store
    ∧ SelectedText.text <$> SelectedText.chunks store = ["a b."; "c d."; "e f."]
    ∧ (SelectedText.text <$> SelectedText.chunks store) ≫= Py.split_ws
      = Py.split_ws "a b. c d. e f.".
Proof.
  assert (∃ store,
            @SelectedText.create_ephemeral_store Fixture.simple_tokenizer
              Fixture.no_spacy Fixture.milli Fixture.line_vectors
              Fixture.length_embedder 3 "a b. c d. e f." = Some store
            ∧ SelectedText.text <$> SelectedText.chunks store
              = ["a b."; "c d."; "e f."])
    as (store & Hstore & Htexts).
  { eexists. split; [vm_compute; reflexivity|]. reflexivity. }
  exists store. split; [exact Hstore|]. split; [exact Htexts|].
  apply (@ephemeral_store_keeps_words Fixture.simple_tokenizer
           Fixture.no_spacy Fixture.milli Fixture.line_vectors
           Fixture.length_embedder 3 "a b. c d. e f." store).
  - intros sents Hs. discriminate Hs.
  - intros texts embeddings [= <-]. apply length_fmap.
  - exact Hstore.
Defined.

(** X22: when top_k is 0, or every chunk of the store has a score below
    0.0, [answer_query] returns the fixed answer "Information not found in
    the selected text." with no citation, whatever the agent is: the agent
    is not consulted. *)
Theorem answer_query_nothing_found
    `{Tokenizer, SentenceModel, Embedder, !AgentService}
    (max_chunk_tokens : nat) (query selected_text : string) (top_k : Z)
    (store : SelectedText.EphemeralVectorStore) (query_embedding : embedding) :
  SelectedText.create_ephemeral_store max_chunk_tokens selected_text
    = Some store →
  embed_text query = Some query_embedding →
  top_k = 0%Z
  ∨ Forall (λ chunk,
              score_leb score_0
                (np_dot query_embedding (SelectedText.chunk_embedding chunk))
              = false)
           (SelectedText.chunks store) →
  SelectedText.answer_query max_chunk_tokens query selected_text top_k
  = Some ("Information not found in the selected text.", []).
Proof.
  intros Hstore Hq Hcase. unfold SelectedText.answer_query.
  rewrite Hstore. simpl. rewrite Hq. simpl.
  by rewrite search_none.
Qed.

Lemma answer_query_nothing_found_witness :
  @SelectedText.answer_query Fixture.simple_tokenizer Fixture.no_spacy
    Fixture.milli Fixture.line_vectors Fixture.length_embedder
    Fixture.leaky_agent 512 "What?" Fixture.short_selection 0
  = Some ("Information not found in the selected text.", []).
Proof.
  assert (∃ store,
            @SelectedText.create_ephemeral_store Fixture.simple_tokenizer
              Fixture.no_spacy Fixture.milli Fixture.line_vectors
              Fixture.length_embedder 512 Fixture.short_selection = Some store)
    as (store & Hstore).
  { eexists. vm_compute. reflexivity. }
  apply (@answer_query_nothing_found Fixture.simple_tokenizer Fixture.no_spacy
           Fixture.milli Fixture.line_vectors Fixture.length_embedder
           Fixture.leaky_agent 512 "What?" Fixture.short_selection 0
           store 5%Z).
  - exact Hstore.
  - reflexivity.
  - left. reflexivity.
Defined.

(** ** [answer_query] with the agent of [agent.py] *)

Section SelectedAgentFacts.
Import SelectedText Shape.
Context `{Tokenizer, SentenceModel, Embedder, LanguageModel}.

Lemma generate_answer_Some query context_chunks mode answer citations :
  Agent.generate_answer query context_chunks mode = Some (answer, citations) →
  Agent._extract_citations answer context_chunks = Some citations.
Proof.
  unfold Agent.generate_answer.
  intros (content & _ & (cits & Hcits & [= <- <-])%bind_Some)%bind_Some.
  exact Hcits.
Qed.

Lemma agent_chunk_keys_NoDup (results : list EphemeralSearchResult) :
  NoDup (res_chunk_id <$> results) →
  NoDup (Agent.chunk_key <$> (to_agent_chunk <$> results)).
Proof.
  intros Hnd. rewrite <-list_fmap_compose.
  change (Agent.chunk_key ∘ to_agent_chunk)
    with ((λ id : string, (id, 0%Z, "selected")) ∘ res_chunk_id).
  rewrite list_fmap_compose. apply NoDup_fmap_2; [|done].
  by intros id1 id2 [= ->].
Qed.

Lemma answer_query_agent max_chunk_tokens query selected_text top_k store
    answer citations :
  create_ephemeral_store max_chunk_tokens selected_text = Some store →
  @answer_query _ _ _ _ _ agent_service max_chunk_tokens query selected_text
    top_k = Some (answer, citations) →
  NoDup (Schemas.chunk_id <$> citations)
  ∧ length citations ≤ length (chunks store)
  ∧ Forall (λ cit, ∃ c, c ∈ chunks store
                     ∧ Schemas.chunk_id cit = chunk_id c
                     ∧ Schemas.text_preview cit = Py.prefix_chars 200 (text c)
                     ∧ Schemas.chapter cit = 0%Z
                     ∧ Schemas.section cit = "selected"
                     ∧ Schemas.url_anchor cit = ""
                     ∧ Schemas.source cit = "Chapter 0, Section selected")
           citations.
Proof.
  intros Hstore. unfold answer_query. rewrite Hstore. simpl.
  intros (q & Hq & Hrun)%bind_Some.
  pose proof (search_ids_NoDup store q top_k score_0
                (store_ids_NoDup _ _ _ Hstore)) as Hids.
  pose proof (search_from_chunks store q top_k score_0)
    as (kept & sorted & Hkept & Hsub & Hperm).
  pose proof (search_in_store store q top_k score_0) as Hin.
  assert (length (search store q top_k score_0) ≤ length (chunks store))
    as Hlen.
  { rewrite Hkept, length_fmap.
    etrans; [apply sublist_length, Hsub|].
    by rewrite Hperm, length_fmap. }
  destruct (search store q top_k score_0) as [|r rs] eqn:Hsearch.
  { injection Hrun as <- <-. split; [constructor|]. split; [simpl; lia|done]. }
  set (results := r :: rs) in *.
  apply bind_Some in Hrun as ([a cits] & Hgen & [= <- <-]).
  apply generate_answer_Some, extract_citations_inv in Hgen
    as (Hall & Hcount & Hnd).
  specialize (Hnd (agent_chunk_keys_NoDup results Hids)).
  set (kept_cits := filter _ cits).
  assert (kept_cits `sublist_of` cits) as Hfil by apply sublist_filter.
  split; [|split].
  - apply (NoDup_fmap_1 (λ id : string, (id, 0%Z, "selected"))).
    rewrite <-list_fmap_compose.
    assert ((λ id : string, (id, 0%Z, "selected")) ∘ Schemas.chunk_id
              <$> kept_cits = cit_key <$> kept_cits) as ->.
    { apply Forall_fmap_ext_1, Forall_forall. intros cit Hcit.
      eapply elem_of_sublist in Hcit; [|exact Hfil].
      apply (proj1 (Forall_forall _ _) Hall) in Hcit as (c & Hc & ->).
      by apply list_elem_of_fmap in Hc as (r' & -> & _). }
    eapply sublist_NoDup; [exact Hnd|]. by apply fmap_sublist.
  - etrans; [apply sublist_length, Hfil|]. etrans; [exact Hcount|].
    by rewrite length_fmap.
  - apply Forall_forall. intros cit Hcit.
    eapply elem_of_sublist in Hcit; [|exact Hfil].
    apply (proj1 (Forall_forall _ _) Hall) in Hcit as (c & Hc & ->).
    apply list_elem_of_fmap in Hc as (r' & -> & Hr').
    apply Hin in Hr' as (c & Hc & ->). exists c. split; [done|].
    by repeat split.
Qed.

End SelectedAgentFacts.

(** X23: with the agent of [agent.py], the citations that [answer_query]
    returns are pairwise distinct in their identifiers, are no more than the
    chunks of the store, and each one names a chunk of the store, shows the
    first 200 characters of its text, and carries chapter 0, section
    "selected", an empty anchor and the source "Chapter 0, Section
    selected". *)
Theorem answer_query_agent_citations
    `{Tokenizer, SentenceModel, Embedder, LanguageModel}
    (max_chunk_tokens : nat) (query selected_text : string) (top_k : Z)
    (store : SelectedText.EphemeralVectorStore)
    (answer : string) (citations : list Schemas.Citation) :
  SelectedText.create_ephemeral_store max_chunk_tokens selected_text
    = Some store →
  @SelectedText.answer_query _ _ _ _ _ agent_service max_chunk_tokens query
    selected_text top_k = Some (answer, citations) →
  NoDup (Schemas.chunk_id <$> citations)
  ∧ length citations ≤ length (SelectedText.chunks store)
  ∧ Forall (λ cit, ∃ c, c ∈ SelectedText.chunks store
                     ∧ Schemas.chunk_id cit = SelectedText.chunk_id c
                     ∧ Schemas.text_preview cit
                       = Py.prefix_chars 200 (SelectedText.text c)
                     ∧ Schemas.chapter cit = 0%Z
                     ∧ Schemas.section cit = "selected"
                     ∧ Schemas.url_anchor cit = ""
                     ∧ Schemas.source cit = "Chapter 0, Section selected")
           citations.
Proof. apply answer_query_agent. Qed.

Lemma answer_query_agent_citations_witness :
  ∃ store answer citations,
    @SelectedText.create_ephemeral_store Fixture.simple_tokenizer
      Fixture.no_spacy Fixture.milli Fixture.line_vectors
      Fixture.length_embedder 512 Fixture.short_selection = Some store
    ∧ @SelectedText.answer_query Fixture.simple_tokenizer Fixture.no_spacy
        Fixture.milli Fixture.line_vectors Fixture.length_embedder
        (@agent_service Fixture.milli Fixture.canned_llm)
        512 "What?" Fixture.short_selection 5 = Some (answer, citations)
    ∧ Schemas.source <$> citations = ["Chapter 0, Section selected"]
    ∧ length citations ≤ length (SelectedText.chunks store).
Proof.
  assert (∃ store,
            @SelectedText.create_ephemeral_store Fixture.simple_tokenizer
              Fixture.no_spacy Fixture.milli Fixture.line_vectors
              Fixture.length_embedder 512 Fixture.short_selection = Some store)
    as (store & Hstore).
  { eexists. vm_compute. reflexivity. }
  assert (∃ answer citations,
            @SelectedText.answer_query Fixture.simple_tokenizer Fixture.no_spacy
              Fixture.milli Fixture.line_vectors Fixture.length_embedder
              (@agent_service Fixture.milli Fixture.canned_llm)
              512 "What?" Fixture.short_selection 5 = Some (answer, citations)
            ∧ Schemas.source <$> citations = ["Chapter 0, Section selected"])
    as (answer & citations & Hrun & Hsrc).
  { eexists _, _. split; [vm_compute; reflexivity|]. reflexivity. }
  exists store, answer, citations.
  split; [exact Hstore|]. split; [exact Hrun|]. split; [exact Hsrc|].
  exact (proj1 (proj2 (@answer_query_agent_citations Fixture.simple_tokenizer
                         Fixture.no_spacy Fixture.milli Fixture.line_vectors
                         Fixture.length_embedder Fixture.canned_llm
                         512 "What?" Fixture.short_selection 5 store answer
                         citations Hstore Hrun))).
Defined.

(** ** Uploading the chunks of a chapter *)

Example upsert_chunks_ex :
  let chunk (n : Z) : @Ingest.chunk_dict Fixture.milli Fixture.line_vectors :=
    @Ingest.chunk_dict_of Fixture.milli Fixture.line_vectors
      {| Chunking.chunk_id := "id-" +:+ Py.str n; Chunking.text := "t";
         Chunking.chapter := 3; Chunking.section := "3.1";
         Chunking.subsection := None; Chunking.url_anchor := "a";
         Chunking.token_count := 1; Chunking.chunk_index := 0;
         Chunking.source_file := "f.md" |} n in
  (fmap (M := list) (fmap (M := list) Ingest.id))
    <$> Ingest.upsert_chunks [chunk 1%Z; chunk 2%Z; chunk 3%Z] 2
  = Some [[Ingest.VStr "id-1"; Ingest.VStr "id-2"]; [Ingest.VStr "id-3"]]
  ∧ Ingest.upsert_chunks [chunk 1%Z; delete "text" (chunk 2%Z)] 2 = None
  ∧ Ingest.upsert_chunks [chunk 1%Z; <["chunk_id" := Ingest.VNone]> (chunk 2%Z)] 2
    = None
  ∧ Ingest.upsert_chunks [chunk 1%Z; chunk 2%Z] 0 = None
  ∧ Ingest.upsert_chunks [chunk 1%Z; chunk 2%Z] (-1) = Some [].
Proof. vm_compute. done. Qed.

Section UpsertFacts.
Import Ingest.
Context `{Vectors}.

(** A chunk that gives a point has all the required fields. *)
Lemma point_of_Some_complete (chunk : chunk_dict) :
  is_Some (point_of chunk) → missing chunk = [].
Proof.
  intros [point Hpoint]. unfold point_of in Hpoint.
  apply bind_Some in Hpoint as (v1 & H1 & Hpoint).
  apply bind_Some in Hpoint as (v2 & H2 & Hpoint).
  apply bind_Some in Hpoint as (v3 & H3 & Hpoint).
  apply bind_Some in Hpoint as (v4 & H4 & Hpoint).
  apply bind_Some in Hpoint as (v5 & H5 & Hpoint).
  apply bind_Some in Hpoint as (v6 & H6 & _).
  unfold missing, required_fields.
  repeat (rewrite filter_cons_False;
          [|intros Hnot; apply Hnot, (proj2 (elem_of_dom chunk _)); eauto]).
  done.
Qed.

Lemma range_go_lt fuel step stop : ∀ i,
  Forall (λ j, j < stop) (range_go fuel i stop step).
Proof.
  induction fuel as [|fuel IH]; intros i; simpl; [done|].
  destruct (Nat.ltb_spec i stop); [|done]. constructor; [done|apply IH].
Qed.

(** The batches that start at the elements of a range partition the rest
    of the list. *)
Lemma batches_concat {A} (l : list A) step fuel : ∀ i,
  0 < step → length l - i ≤ fuel →
  concat ((λ j, take step (drop j l)) <$> range_go fuel i (length l) step)
  = drop i l.
Proof.
  induction fuel as [|fuel IH]; intros i Hstep Hfuel; simpl.
  { symmetry. apply drop_ge. lia. }
  destruct (Nat.ltb_spec i (length l)).
  - simpl. rewrite IH by lia.
    by rewrite <-(drop_drop l step i), take_drop.
  - symmetry. apply drop_ge. lia.
Qed.

Lemma batches_full {A} (l : list A) step fuel : ∀ i k b,
  ((λ j, take step (drop j l)) <$> range_go fuel i (length l) step) !! k
    = Some b →
  S k < length (range_go fuel i (length l) step) →
  length b = step.
Proof.
  induction fuel as [|fuel IH]; intros i k b; simpl; [done|].
  destruct (Nat.ltb_spec i (length l)); [|done]. simpl.
  destruct k as [|k]; simpl.
  - intros [= <-] Hlen. rewrite length_take, length_drop.
    destruct fuel as [|fuel]; simpl in Hlen; [lia|].
    destruct (Nat.ltb_spec (i + step) (length l)); simpl in Hlen; lia.
  - intros Hb Hlen. eapply IH; [exact Hb|lia].
Qed.

Lemma upsert_chunks_Some (chunks : list chunk_dict) batch_size calls :
  (0 < batch_size)%Z →
  upsert_chunks chunks batch_size = Some calls →
  ∃ points,
    mapM point_of chunks = Some points
    ∧ calls = (λ j, take (Z.to_nat batch_size) (drop j points))
                <$> range_go (length points) 0 (length points)
                      (Z.to_nat batch_size).
Proof.
  intros Hbs. unfold upsert_chunks.
  destruct chunks as [|c chunks]; [intros [= <-]; by exists []|].
  case_bool_decide; [|done].
  intros (points & Hpoints & Hcalls)%bind_Some. exists points.
  split; [done|]. unfold range_step in Hcalls.
  rewrite bool_decide_false, bool_decide_false in Hcalls by lia.
  simpl in Hcalls. by injection Hcalls as <-.
Qed.

Lemma upsert_chunks_complete (chunks : list chunk_dict) batch_size :
  Forall (λ chunk, is_Some (point_of chunk)) chunks → batch_size ≠ 0%Z →
  is_Some (upsert_chunks chunks batch_size).
Proof.
  intros Hall Hbs. unfold upsert_chunks.
  destruct chunks as [|c chunks]; [done|].
  rewrite bool_decide_true.
  2:{ eapply Forall_impl; [exact Hall|]. apply point_of_Some_complete. }
  assert (is_Some (mapM point_of (c :: chunks))) as [points ->]
    by by apply mapM_is_Some.
  simpl. unfold range_step. rewrite bool_decide_false by done.
  by case_bool_decide.
Qed.

Lemma point_of_chunk_dict_of (chunk : Chunking.ChunkMetadata) (e : embedding) :
  missing (chunk_dict_of chunk e) = []
  ∧ point_of (chunk_dict_of chunk e)
    = Some {| id := VStr (Chunking.chunk_id chunk); vector := VVec e;
              payload := payload_of chunk |}.
Proof. split; reflexivity. Qed.

End UpsertFacts.

(** X24: [upsert_chunks] returns at once, with nothing handed to the
    client, for an empty list of chunks.  It raises, before anything is
    handed to the client, when some chunk lacks a required field or is
    refused by [PointStruct], and, for chunks that are there, when the
    batch size is 0.  With a negative batch size and chunks that all give
    points it returns with nothing handed to the client. *)
Theorem upsert_chunks_outcome `{Vectors}
    (chunks : list Ingest.chunk_dict) (batch_size : Z) :
  (chunks = [] → Ingest.upsert_chunks chunks batch_size = Some [])
  ∧ (Exists (λ chunk, Ingest.missing chunk ≠ [] ∨ Ingest.point_of chunk = None)
            chunks →
     Ingest.upsert_chunks chunks batch_size = None)
  ∧ (chunks ≠ [] → batch_size = 0%Z →
     Ingest.upsert_chunks chunks batch_size = None)
  ∧ ((batch_size < 0)%Z →
     Forall (λ chunk, is_Some (Ingest.point_of chunk)) chunks →
     Ingest.upsert_chunks chunks batch_size = Some []).
Proof.
  split; [by intros ->|]. split; [|split].
  - intros Hex. unfold Ingest.upsert_chunks.
    destruct chunks as [|c chunks]; [by apply Exists_nil in Hex|].
    case_bool_decide as Hall; [|done].
    destruct (mapM Ingest.point_of (c :: chunks)) as [points|] eqn:Hpoints;
      [|done].
    apply mk_is_Some, mapM_is_Some in Hpoints.
    apply Exists_exists in Hex as (chunk & Hin & Hbad).
    rewrite Forall_forall in Hall, Hpoints.
    destruct Hbad as [Hmiss|Hnone]; [by destruct (Hmiss (Hall _ Hin))|].
    specialize (Hpoints _ Hin). simpl in Hpoints. rewrite Hnone in Hpoints.
    by destruct Hpoints.
  - intros Hne ->. unfold Ingest.upsert_chunks.
    destruct chunks as [|c chunks]; [done|].
    case_bool_decide; [|done].
    by destruct (mapM Ingest.point_of (c :: chunks)).
  - intros Hbs Hall.
    destruct (upsert_chunks_complete chunks batch_size Hall) as [calls Hcalls];
      [lia|].
    rewrite Hcalls. f_equal. revert Hcalls. unfold Ingest.upsert_chunks.
    destruct chunks as [|c chunks]; [by intros [= <-]|].
    case_bool_decide; [|done].
    intros (points & _ & Hcalls)%bind_Some. unfold Ingest.range_step in Hcalls.
    rewrite bool_decide_false, bool_decide_true in Hcalls by lia.
    simpl in Hcalls. by injection Hcalls as <-.
Qed.

(** X25: with a positive batch size, the batches that [upsert_chunks] hands
    to the client, put end to end, are the points of the chunks in their
    order, one point for each chunk; no batch is empty or longer than the
    batch size, and every batch but the last has the batch size. *)
Theorem upsert_chunks_batches `{Vectors}
    (chunks : list Ingest.chunk_dict) (batch_size : Z)
    (calls : list (list Ingest.PointStruct)) :
  (0 < batch_size)%Z →
  Ingest.upsert_chunks chunks batch_size = Some calls →
  mapM Ingest.point_of chunks = Some (concat calls)
  ∧ length (concat calls) = length chunks
  ∧ Forall (λ batch, (0 < Z.of_nat (length batch) ≤ batch_size)%Z) calls
  ∧ ∀ k batch, calls !! k = Some batch → S k < length calls →
               Z.of_nat (length batch) = batch_size.
Proof.
  intros Hbs (points & Hpoints & ->)%upsert_chunks_Some; [|done].
  rewrite batches_concat by lia. rewrite drop_0.
  split; [done|]. split; [by apply length_mapM in Hpoints|]. split.
  - apply Forall_fmap. eapply Forall_impl; [apply range_go_lt|].
    intros j Hj. simpl in *. rewrite length_take, length_drop. lia.
  - intros k batch Hk Hlen. rewrite length_fmap in Hlen.
    rewrite (batches_full _ _ _ _ _ _ Hk Hlen). lia.
Qed.

Lemma upsert_chunks_batches_witness :
  let chunk (n : Z) : Chunking.ChunkMetadata :=
    {| Chunking.chunk_id := "id-" +:+ Py.str n; Chunking.text := "t";
       Chunking.chapter := 3; Chunking.section := "3.1";
       Chunking.subsection := None; Chunking.url_anchor := "a";
       Chunking.token_count := 1; Chunking.chunk_index := 0;
       Chunking.source_file := "f.md" |} in
  let dict (n : Z) : @Ingest.chunk_dict Fixture.milli Fixture.line_vectors :=
    @Ingest.chunk_dict_of Fixture.milli Fixture.line_vectors (chunk n) n in
  let point (n : Z) : @Ingest.PointStruct Fixture.milli Fixture.line_vectors :=
    {| Ingest.id := Ingest.VStr ("id-" +:+ Py.str n);
       Ingest.vector := @Ingest.VVec Fixture.milli Fixture.line_vectors n;
       Ingest.payload := Ingest.payload_of (chunk n) |} in
  Ingest.upsert_chunks [dict 1%Z; dict 2%Z; dict 3%Z] 2
  = Some [[point 1%Z; point 2%Z]; [point 3%Z]]
  ∧ mapM Ingest.point_of [dict 1%Z; dict 2%Z; dict 3%Z]
    = Some [point 1%Z; point 2%Z; point 3%Z].
Proof.
  intros chunk dict point.
  assert (Ingest.upsert_chunks [dict 1%Z; dict 2%Z; dict 3%Z] 2
          = Some [[point 1%Z; point 2%Z]; [point 3%Z]]) as Hcalls.
  { vm_compute. reflexivity. }
  split; [exact Hcalls|].
  assert (0 < 2)%Z as Hbs by lia.
  exact (proj1 (@upsert_chunks_batches Fixture.milli Fixture.line_vectors
                  [dict 1%Z; dict 2%Z; dict 3%Z] 2%Z
                  [[point 1%Z; point 2%Z]; [point 3%Z]] Hbs Hcalls)).
Defined.

Section IngestFacts.
Import Ingest.
Context `{Tokenizer, SentenceModel, UuidSource, Embedder}.

Lemma mapM_point_of_dicts (chunks : list Chunking.ChunkMetadata) :
  ∀ embeddings : list embedding,
  mapM point_of (zip_with chunk_dict_of chunks embeddings)
  = Some (zip_with (λ chunk e,
                      {| id := VStr (Chunking.chunk_id chunk); vector := VVec e;
                         payload := payload_of chunk |})
                   chunks embeddings).
Proof.
  induction chunks as [|c chunks IH]; intros [|e embeddings]; try done.
  change (mapM point_of (zip_with chunk_dict_of (c :: chunks) (e :: embeddings)))
    with (y ← point_of (chunk_dict_of c e);
          k ← mapM point_of (zip_with chunk_dict_of chunks embeddings);
          Some (y :: k)).
  by rewrite (proj2 (point_of_chunk_dict_of c e)), IH.
Qed.

Lemma dicts_complete (chunks : list Chunking.ChunkMetadata) :
  ∀ embeddings : list embedding,
  Forall (λ chunk, is_Some (point_of chunk))
         (zip_with chunk_dict_of chunks embeddings).
Proof.
  induction chunks as [|c chunks IH]; intros [|e embeddings]; try done.
  constructor; [|apply IH].
  by rewrite (proj2 (point_of_chunk_dict_of c e)).
Qed.

End IngestFacts.

(** X26: the dictionaries that [process_chapter] builds for the chunks of a
    chapter and their embeddings are accepted by [upload_chunks], and the
    points handed to the client, in order, are one for each chunk that has
    an embedding: its identifier is the chunk's, its vector the embedding,
    and its payload holds the text, chapter, section, subsection, anchor,
    token count, index and source file of the chunk and nothing else. *)
Theorem process_chapter_upload
    `{Tokenizer, SentenceModel, UuidSource, Embedder}
    (content file_path : string) (chapter_number : option Z)
    (chunks : list Chunking.ChunkMetadata) (embeddings : list embedding) :
  Chapter.chunk_textbook_chapter content file_path chapter_number
    = Some chunks →
  embed_texts (Chunking.text <$> chunks) = Some embeddings →
  ∃ calls,
    Ingest.process_chapter content file_path chapter_number
      ≫= Ingest.upload_chunks = Some calls
    ∧ concat calls
      = zip_with (λ chunk e,
                    {| Ingest.id := Ingest.VStr (Chunking.chunk_id chunk);
                       Ingest.vector := Ingest.VVec e;
                       Ingest.payload := Ingest.payload_of chunk |})
                 chunks embeddings.
Proof.
  intros Hchunks Hembs. unfold Ingest.process_chapter.
  rewrite Hchunks. simpl. rewrite Hembs. simpl.
  destruct (upsert_chunks_complete
              (zip_with Ingest.chunk_dict_of chunks embeddings) 100
              (dicts_complete chunks embeddings)) as [calls Hcalls]; [done|].
  exists calls. split; [exact Hcalls|].
  apply upsert_chunks_Some in Hcalls as (points & Hpoints & ->); [|done].
  rewrite mapM_point_of_dicts in Hpoints. injection Hpoints as <-.
  rewrite batches_concat by lia. apply drop_0.
Qed.

Lemma process_chapter_upload_witness :
  ∃ calls,
    @Ingest.process_chapter Fixture.simple_tokenizer Fixture.no_spacy
      Fixture.counting_uuid Fixture.milli Fixture.line_vectors
      Fixture.length_embedder Fixture.two_parts "chapter-3.md" None
      ≫= Ingest.upload_chunks = Some calls
    ∧ Ingest.id <$> concat calls
      = [Ingest.VStr "uuid-0"; Ingest.VStr "uuid-1"].
Proof.
  destruct (@process_chapter_upload Fixture.simple_tokenizer Fixture.no_spacy
              Fixture.counting_uuid Fixture.milli Fixture.line_vectors
              Fixture.length_embedder Fixture.two_parts "chapter-3.md" None
              (default [] (@Chapter.chunk_textbook_chapter
                             Fixture.simple_tokenizer Fixture.no_spacy
                             Fixture.counting_uuid Fixture.two_parts
                             "chapter-3.md" None))
              [5%Z; 4%Z])
    as (calls & Hcalls & Hpoints).
  - vm_compute. reflexivity.
  - vm_compute. reflexivity.
  - exists calls. split; [exact Hcalls|]. rewrite Hpoints.
    vm_compute. reflexivity.
Defined.
